(** * ESG preprocessing pipeline: a shallow embedding of
      [Preprocessing/preprocessing_pipeline.py]

    The development follows the class [ESGPreprocessingPipeline].  Python
    objects that are mutated or shared (the caller's dataframe, the cleaned
    copy, the pipeline object itself, the logger, the disk) live in an
    explicit [World]; every method is a computation in a small
    state-and-exception monad over that world.

    Conventions.
    - pandas, scipy and scikit-learn are external to the repository: their
      numerical primitives are the fields of the class [NumericLibraries],
      and every statement of the section on properties holds for any such
      library.  What an estimator computes is a total function of its
      arguments; what a fit raises when it validates them - the scalers, PCA
      and TSNE on the fitting path - is the field [estimator_error].  The
      power transformer, the encoder and the [transform] calls of fitted
      estimators are read for inputs they accept.
    - Floating point numbers are read as rationals; [None] stands for NaN
      or a missing entry.  The sums of [np.cumsum] are accumulated with the
      library's floating-point addition [float_add].
    - A dataframe is an index and a list of named, typed columns.  [df[c]]
      is the first column named [c]; pandas behaves differently on
      repeated column names, and the statements that depend on it assume
      distinct names.
    - [Series.fillna(..., inplace=True)] on a selected column writes into
      the dataframe (pandas without copy-on-write).  The categories of a
      category-typed column are the values it holds; filling it with any
      other value raises TypeError.  A number-typed column that takes a
      string into a gap becomes an object column, and so does a column
      that is neither number-, object- nor category-typed when a gap of
      it is filled.
    - The numerical fill values (median, mean, mode) are modelled for
      number-typed columns, as [_identify_feature_types] lists them; the
      statements on imputation that depend on it say so.
    - The timestamp of a log entry is not modelled. *)

From Stdlib Require Import String Ascii List Bool Arith ZArith QArith Lia.
From Stdlib Require Import Qabs Qround DecimalString.
Import ListNotations.
Close Scope Q_scope.
Open Scope nat_scope.
Open Scope string_scope.

Set Implicit Arguments.

(* ------------------------------------------------------------------ *)
(** ** Values, series and dataframes *)

Inductive value : Type :=
| VNum (q : Q)
| VStr (s : string).

(** A cell of a table; [None] is a missing entry (NaN, None, NaT). *)
Definition cell : Type := option value.

(** The exceptions raised by the methods of the pipeline and by the
    libraries under them.  [PandasTypeError] is Python's TypeError. *)
Inductive exn : Type :=
| ValueError (msg : string)
| KeyError (key : string)
| IndexError (msg : string)
| AttributeError (msg : string)
| PandasTypeError (msg : string).

(** The dtype families the code distinguishes through [select_dtypes]:
    [np.number], ['object'], ['category'], and everything else
    (bool, datetime, ...). *)
Inductive dtype : Type := DtNumber | DtObject | DtCategory | DtOther.

Record Series : Type := mkSeries {
  s_name : string;
  s_dtype : dtype;
  s_cells : list cell
}.

Record DataFrame : Type := mkFrame {
  df_index : list nat;
  df_columns : list Series
}.

(** A numpy matrix, stored column by column together with its row count
    (so that a matrix of shape (n, 0) is representable). *)
Record ndarray : Type := mkArray {
  n_rows : nat;
  col_data : list (list cell)
}.

Definition shape (X : ndarray) : nat * nat := (n_rows X, length (col_data X)).

Definition is_missing (c : cell) : bool :=
  match c with None => true | Some _ => false end.

Definition count_missing (cs : list cell) : nat :=
  length (filter is_missing cs).

(** [df.columns.tolist()] *)
Definition column_names (df : DataFrame) : list string :=
  map s_name (df_columns df).

(** [df.isnull().sum()]: one count per column, in column order. *)
Definition isnull_sum (df : DataFrame) : list (string * nat) :=
  map (fun s => (s_name s, count_missing (s_cells s))) (df_columns df).

(** [df.isnull().sum().sum()] *)
Definition total_missing (df : DataFrame) : nat :=
  list_sum (map snd (isnull_sum df)).

(** [len(df)] *)
Definition frame_len (df : DataFrame) : nat := length (df_index df).

Definition mem (x : string) (l : list string) : bool :=
  existsb (String.eqb x) l.

(** [df[col]]: the column named [col]. *)
Definition get_column (df : DataFrame) (col : string) : option Series :=
  find (fun s => String.eqb (s_name s) col) (df_columns df).

(** [series.fillna(v)]; filling with NaN changes nothing. *)
Definition fillna (fill_value : cell) (cs : list cell) : list cell :=
  map (fun c => match c with None => fill_value | Some _ => c end) cs.

Definition present_values (cs : list cell) : list value :=
  flat_map (fun c => match c with Some v => [v] | None => [] end) cs.

Definition value_eqb (a b : value) : bool :=
  match a, b with
  | VNum x, VNum y => Qeq_bool x y
  | VStr x, VStr y => String.eqb x y
  | _, _ => false
  end.

(** [fillna(v)] on a category-typed column raises TypeError when [v] is
    not one of its categories. *)
Definition fillna_error (s : Series) (fill_value : cell) : option exn :=
  match s_dtype s, fill_value with
  | DtCategory, Some v =>
      if existsb (value_eqb v) (present_values (s_cells s)) then None
      else Some (PandasTypeError "Cannot setitem on a Categorical with a new category, set the categories first")
  | _, _ => None
  end.

(** The dtype of a column once [v] has been filled into a gap: a string
    does not fit a number column, which becomes an object column; so does
    a column of another non-object dtype. *)
Definition fill_dtype (d : dtype) (fill_value : cell) : dtype :=
  match d, fill_value with
  | DtNumber, Some (VStr _) => DtObject
  | DtOther, Some _ => DtObject
  | _, _ => d
  end.

(** [s.fillna(v)], accepted; a column without gaps is left as it is. *)
Definition fillna_series (fill_value : cell) (s : Series) : Series :=
  mkSeries (s_name s)
    (if (0 <? count_missing (s_cells s))%nat
     then fill_dtype (s_dtype s) fill_value else s_dtype s)
    (fillna fill_value (s_cells s)).

(** The effect of [df[col].fillna(v, inplace=True)] on the frame [df]
    (pandas without copy-on-write: the column selected is a view). *)
Definition fillna_column (col : string) (fill_value : cell) (df : DataFrame)
  : DataFrame :=
  mkFrame (df_index df)
    (map (fun s => if String.eqb (s_name s) col
                   then fillna_series fill_value s
                   else s)
         (df_columns df)).

(** Python dictionaries keep insertion order; assignment to an existing key
    replaces the value in place. *)
Fixpoint dict_set {V} (k : string) (v : V) (d : list (string * V))
  : list (string * V) :=
  match d with
  | [] => [(k, v)]
  | (k', v') :: d' =>
      if String.eqb k' k then (k, v) :: d' else (k', v') :: dict_set k v d'
  end.

Fixpoint dict_get {V} (k : string) (d : list (string * V)) : option V :=
  match d with
  | [] => None
  | (k', v) :: d' => if String.eqb k' k then Some v else dict_get k d'
  end.

Definition dict_keys {V} (d : list (string * V)) : list string := map fst d.

(* ------------------------------------------------------------------ *)
(** ** Text formatting used by the f-strings *)

Definition str_of_nat (n : nat) : string :=
  NilZero.string_of_uint (Nat.to_uint n).

Fixpoint join (sep : string) (l : list string) : string :=
  match l with
  | [] => ""
  | [x] => x
  | x :: xs => x ++ sep ++ join sep xs
  end.

(** [str(list_of_str)] for names without quotes or escapes. *)
Definition repr_list (l : list string) : string :=
  "[" ++ join ", " (map (fun s => "'" ++ s ++ "'") l) ++ "]".

(* ------------------------------------------------------------------ *)
(** ** Configuration *)

Record PreprocessingConfig : Type := mkPreprocessingConfig {
  missing_strategy_numerical : string;
  missing_strategy_categorical : string;
  scaling_method : string;
  apply_power_transform : bool;
  power_transform_method : string;
  skewness_threshold : Q;
  categorical_encoding : string;
  drop_first_category : bool
}.

(** [pca_n_components] is either a Python float or a Python int. *)
Inductive pca_target : Type :=
| PcaFloat (q : Q)
| PcaInt (n : Z).

Record ReductionConfig : Type := mkReductionConfig {
  apply_pca : bool;
  pca_n_components : pca_target;
  pca_min_components : Z;
  apply_tsne : bool;
  tsne_n_components : Z;
  tsne_perplexity : Z;
  tsne_random_state : Z
}.

(** The five category lists of the default configuration; the deep merge
    over the defaults can replace them but never removes a key. *)
Record FeatureCategories : Type := mkFeatureCategories {
  financial_features : list string;
  esg_features : list string;
  environmental_features : list string;
  categorical_features : list string;
  identifier_features : list string
}.

Record ValidationConfig : Type := mkValidationConfig {
  check_missing_values : bool;
  check_feature_ranges : bool;
  check_shape_consistency : bool;
  log_transformations : bool
}.

Record Config : Type := mkConfig {
  preprocessing : PreprocessingConfig;
  dimensionality_reduction : ReductionConfig;
  feature_categories : FeatureCategories;
  validation : ValidationConfig
}.

Definition default_config : Config :=
  mkConfig
    (mkPreprocessingConfig "median" "most_frequent" "standard" true
                           "yeo-johnson" 1%Q "onehot" true)
    (mkReductionConfig true (PcaFloat (95 # 100)%Q) 5%Z true 2%Z 30%Z 42%Z)
    (mkFeatureCategories
       ["Revenue"; "ProfitMargin"; "MarketCap"; "GrowthRate"]
       ["ESG_Overall"; "ESG_Environmental"; "ESG_Social"; "ESG_Governance"]
       ["CarbonEmissions"; "WaterUsage"; "EnergyConsumption"]
       ["Industry"; "Region"]
       ["CompanyID"; "CompanyName"; "Year"])
    (mkValidationConfig true true true true).

(* ------------------------------------------------------------------ *)
(** ** Fitted estimators

    A fitted scikit-learn object is determined by its constructor
    arguments and the data it was fitted on; what it computes from them is
    left to [NumericLibraries]. *)

Record PowerTransformer : Type := mkPowerTransformer {
  pt_method : string;
  pt_fitted_on : ndarray
}.

Inductive scaler_class : Type := StandardScaler | RobustScaler | MinMaxScaler.

Record Scaler : Type := mkScaler {
  sc_class : scaler_class;
  sc_fitted_on : ndarray
}.

Record OneHotEncoder : Type := mkOneHotEncoder {
  enc_drop_first : bool;
  enc_fitted_on : DataFrame
}.

Record PCA : Type := mkPCA {
  pca_arg_n_components : option Z;
  pca_fitted_on : ndarray
}.

Record TSNE : Type := mkTSNE {
  tsne_arg_n_components : Z;
  tsne_arg_perplexity : Z;
  tsne_arg_random_state : Z;
  tsne_fitted_on : ndarray
}.

(** [scaler.__class__.__name__] *)
Definition class_name (c : scaler_class) : string :=
  match c with
  | StandardScaler => "StandardScaler"
  | RobustScaler => "RobustScaler"
  | MinMaxScaler => "MinMaxScaler"
  end.

(** The calls made to scikit-learn estimators, in program order. *)
Inductive sk_call : Type :=
| PowerFitTransform (method : string) (X : ndarray)
| PowerTransform (pt : PowerTransformer) (X : ndarray)
| ScalerFitTransform (c : scaler_class) (X : ndarray)
| ScalerTransform (s : Scaler) (X : ndarray)
| EncoderFitTransform (drop_first : bool) (frame : DataFrame)
| EncoderTransform (enc : OneHotEncoder) (frame : DataFrame)
| PCAFit (n : option Z) (X : ndarray)
| PCAFitTransform (n : option Z) (X : ndarray)
| PCATransform (p : PCA) (X : ndarray)
| TSNEFitTransform (t : TSNE).

(** The numerical primitives of pandas, scipy, scikit-learn and the
    standard library that the pipeline calls. *)
Class NumericLibraries : Type := {
  (** [Series.median()], [Series.mean()]: NaN on a series without values *)
  series_median : list cell -> cell;
  series_mean : list cell -> cell;
  (** [Series.std()] *)
  series_std : list cell -> cell;
  (** [Series.mode()]: the most frequent values, missing entries dropped *)
  series_mode : list cell -> list value;
  (** [scipy.stats.skew]; [None] is NaN *)
  skew : list cell -> option Q;
  (** [PowerTransformer.transform] *)
  power_apply : PowerTransformer -> ndarray -> ndarray;
  (** the exception an estimator raises when it validates the arguments
      of a call, if it raises one *)
  estimator_error : sk_call -> option exn;
  (** [scaler.transform] *)
  scaler_apply : Scaler -> ndarray -> ndarray;
  (** [scaler.fit_transform(X)], when it accepts [X], returns a matrix of
      the shape of [X] *)
  scaler_fit_transform_shape :
    forall (c : scaler_class) (X : ndarray),
      estimator_error (ScalerFitTransform c X) = None ->
      shape (scaler_apply (mkScaler c X) X) = shape X;
  (** [OneHotEncoder.transform], [get_feature_names_out] *)
  encoder_apply : OneHotEncoder -> DataFrame -> ndarray;
  encoder_feature_names : OneHotEncoder -> list string -> list string;
  (** [PCA.explained_variance_ratio_], [PCA.transform] *)
  pca_explained_variance_ratio : PCA -> list Q;
  pca_apply : PCA -> ndarray -> ndarray;
  (** the embedding computed by [TSNE.fit_transform] *)
  tsne_embedding : TSNE -> ndarray;
  (** the floating-point sum of two floats *)
  float_add : Q -> Q -> Q;
  (** the format specification [:.3f] *)
  format_3f : Q -> string;
  (** [Path(p).parent] *)
  path_parent : string -> string
}.

(* ------------------------------------------------------------------ *)
(** ** The world: object store, pipeline object, logger, disk *)

(** An entry of [self.preprocessing_log] (the wall-clock timestamp of the
    entry is not modelled). *)
Record LogEntry : Type := mkLogEntry {
  step : string;
  details : string
}.

Inductive log_level : Type := INFO | WARNING | ERROR.

(** The attributes of one [ESGPreprocessingPipeline] object. *)
Record Pipeline : Type := mkPipeline {
  config : Config;
  feature_names_ : list (string * list string);
  preprocessing_log : list LogEntry;
  fitted : bool;
  power_transformer : option PowerTransformer;
  scaler : option Scaler;
  categorical_encoder : option OneHotEncoder;
  pca : option PCA;
  tsne : option TSNE
}.

(** What [joblib.dump] writes. *)
Inductive pickled : Type :=
| PickledPipelineData (c : Config) (names : list (string * list string))
                      (log : list LogEntry) (is_fitted : bool)
| PickledPowerTransformer (pt : PowerTransformer)
| PickledScaler (s : Scaler)
| PickledEncoder (e : OneHotEncoder)
| PickledPCA (p : PCA)
| PickledTSNE (t : TSNE).

Inductive disk_op : Type :=
| Mkdir (path : string)
| Dump (path : string) (content : pickled).

(** Dataframes are Python objects: the store maps an address (a position
    in [heap]) to the current contents of the dataframe living there. *)
Definition ref : Type := nat.

Record World : Type := mkWorld {
  heap : list DataFrame;
  self : Pipeline;
  logger : list (log_level * string);
  estimator_calls : list sk_call;
  disk : list disk_op
}.

Definition empty_frame : DataFrame := mkFrame [] [].

Definition deref (w : World) (r : ref) : DataFrame := nth r (heap w) empty_frame.

Fixpoint update_nth {A} (n : nat) (x : A) (l : list A) : list A :=
  match l, n with
  | [], _ => []
  | _ :: l', O => x :: l'
  | y :: l', S n' => y :: update_nth n' x l'
  end.

Definition with_heap (h : list DataFrame) (w : World) : World :=
  mkWorld h (self w) (logger w) (estimator_calls w) (disk w).

Definition with_self (p : Pipeline) (w : World) : World :=
  mkWorld (heap w) p (logger w) (estimator_calls w) (disk w).

Definition with_logger (l : list (log_level * string)) (w : World) : World :=
  mkWorld (heap w) (self w) l (estimator_calls w) (disk w).

Definition with_calls (c : list sk_call) (w : World) : World :=
  mkWorld (heap w) (self w) (logger w) c (disk w).

Definition with_disk (d : list disk_op) (w : World) : World :=
  mkWorld (heap w) (self w) (logger w) (estimator_calls w) d.

Definition with_log (l : list LogEntry) (p : Pipeline) : Pipeline :=
  mkPipeline (config p) (feature_names_ p) l (fitted p) (power_transformer p)
             (scaler p) (categorical_encoder p) (pca p) (tsne p).

(* ------------------------------------------------------------------ *)
(** ** State and exception monad *)

Inductive result (A : Type) : Type :=
| Ok (a : A)
| Raise (e : exn).

Arguments Ok {A} a.
Arguments Raise {A} e.

Definition M (A : Type) : Type := World -> World * result A.

Definition ret {A} (a : A) : M A := fun w => (w, Ok a).

Definition raise {A} (e : exn) : M A := fun w => (w, Raise e).

Definition bind {A B} (m : M A) (k : A -> M B) : M B :=
  fun w => match m w with
           | (w', Ok a) => k a w'
           | (w', Raise e) => (w', Raise e)
           end.

Notation "x <- c1 ;; c2" := (bind c1 (fun x => c2))
  (at level 61, c1 at next level, right associativity).
Notation "' pat <- c1 ;; c2" := (bind c1 (fun x => match x with pat => c2 end))
  (at level 61, pat pattern, c1 at next level, right associativity).
Notation "c1 ;;; c2" := (bind c1 (fun _ => c2))
  (at level 61, right associativity).

Definition modify (f : World -> World) : M unit := fun w => (f w, Ok tt).

(** Reading and updating the attributes of [self]. *)
Definition get_self : M Pipeline := fun w => (w, Ok (self w)).

Definition get_config : M Config := fun w => (w, Ok (config (self w))).

Definition update_self (f : Pipeline -> Pipeline) : M unit :=
  modify (fun w => with_self (f (self w)) w).

(** Reading the current contents of a dataframe object. *)
Definition load (r : ref) : M DataFrame := fun w => (w, Ok (deref w r)).

(** In-place mutation of a dataframe object. *)
Definition store (r : ref) (df : DataFrame) : M unit :=
  modify (fun w => with_heap (update_nth r df (heap w)) w).

(** [df.copy()]: a new object with the same contents. *)
Definition copy (r : ref) : M ref :=
  fun w => (with_heap (heap w ++ [deref w r]) w, Ok (length (heap w))).

(** [logger.info], [logger.warning] *)
Definition log_to (lvl : log_level) (msg : string) : M unit :=
  modify (fun w => with_logger (logger w ++ [(lvl, msg)]) w).

(** A call of a scikit-learn estimator. *)
Definition call (c : sk_call) : M unit :=
  modify (fun w => with_calls (estimator_calls w ++ [c]) w).

Fixpoint for_each {A S} (xs : list A) (s : S) (body : A -> S -> M S) : M S :=
  match xs with
  | [] => ret s
  | x :: xs' => s' <- body x s ;; for_each xs' s' body
  end.

(* ------------------------------------------------------------------ *)
(** ** Feature identification and imputation *)

(** The dictionary returned by [_identify_feature_types]: the configured
    categories restricted to the columns present, and the two keys
    ['numerical_features'] and ['categorical_features_available']. *)
Record FeatureTypes : Type := mkFeatureTypes {
  identified_categories : FeatureCategories;
  numerical_features : list string;
  categorical_features_available : list string
}.

(** [df.select_dtypes(include=...).columns.tolist()] *)
Definition select_dtypes (keep : dtype -> bool) (df : DataFrame) : list string :=
  map s_name (filter (fun s => keep (s_dtype s)) (df_columns df)).

Definition is_number (d : dtype) : bool :=
  match d with DtNumber => true | _ => false end.

Definition is_object_or_category (d : dtype) : bool :=
  match d with DtObject | DtCategory => true | _ => false end.

(** [self._log_step(step, details)] *)
Definition _log_step (step details : string) : M unit :=
  update_self (fun p => with_log (preprocessing_log p
                                  ++ [mkLogEntry step details]) p) ;;;
  log_to INFO (step ++ ": " ++ details).

(** The classification computed by [_identify_feature_types] from the
    configuration and the contents of the dataframe. *)
Definition classify (cfg : Config) (frame : DataFrame) : FeatureTypes :=
  let fc := feature_categories cfg in
  let available_cols := column_names frame in
  let present := filter (fun f => mem f available_cols) in
  let identified :=
    mkFeatureCategories (present (financial_features fc))
                        (present (esg_features fc))
                        (present (environmental_features fc))
                        (present (categorical_features fc))
                        (present (identifier_features fc)) in
  let numerical_cols := select_dtypes is_number frame in
  let categorical_cols := select_dtypes is_object_or_category frame in
  let numerical_cols :=
    filter (fun col => negb (mem col (identifier_features identified)))
           numerical_cols in
  mkFeatureTypes identified numerical_cols categorical_cols.

Definition _identify_feature_types (df : ref) : M FeatureTypes :=
  frame <- load df ;;
  cfg <- get_config ;;
  let identified_features := classify cfg frame in
  _log_step "Feature Identification"
    ("Numerical: "
     ++ str_of_nat (length (numerical_features identified_features))
     ++ ", Categorical: "
     ++ str_of_nat (length (categorical_features_available identified_features))) ;;;
  ret identified_features.

Section Pipeline.

Context {L : NumericLibraries}.

(** A call of an estimator that validates its arguments: the call is
    recorded, and the estimator raises if it rejects them. *)
Definition checked_call (c : sk_call) : M unit :=
  call c ;;;
  match estimator_error c with
  | Some e => raise e
  | None => ret tt
  end.

(** The fill value of a numerical column under the configured strategy. *)
Definition numerical_fill_value (strategy : string) (s : Series) : cell :=
  if String.eqb strategy "median" then series_median (s_cells s)
  else if String.eqb strategy "mean" then series_mean (s_cells s)
  else match series_mode (s_cells s) with
       | v :: _ => Some v
       | [] => Some (VNum 0%Q)
       end.

Definition categorical_fill_value (strategy : string) (s : Series) : cell :=
  if String.eqb strategy "most_frequent" then
    match series_mode (s_cells s) with
    | v :: _ => Some v
    | [] => Some (VStr "Unknown")
    end
  else Some (VStr "Unknown").

(** One iteration of either imputation loop: compute the fill value from
    the current contents of [df_clean], fill the column in place, record
    the column in [missing_info]. *)
Definition impute_column (fill : string -> Series -> cell) (df_clean : ref)
    (strategy : string) (col : string)
    (missing_info : list (string * (string * cell)))
  : M (list (string * (string * cell))) :=
  frame <- load df_clean ;;
  match get_column frame col with
  | None => raise (KeyError col)
  | Some s =>
      let fill_value := fill strategy s in
      match fillna_error s fill_value with
      | Some e => raise e
      | None =>
          store df_clean (fillna_column col fill_value frame) ;;;
          ret (dict_set col (strategy, fill_value) missing_info)
      end
  end.

Definition _handle_missing_values (df : ref) (feature_types : FeatureTypes)
  : M ref :=
  df_clean <- copy df ;;
  frame <- load df_clean ;;
  let missing_counts := isnull_sum frame in
  let missing_features := filter (fun p => (0 <? snd p)%nat) missing_counts in
  (if (0 <? length missing_features)%nat then
     _log_step "Missing Values Detection"
       ("Found missing values in " ++ str_of_nat (length missing_features)
        ++ " features") ;;;
     let numerical_missing :=
       filter (fun col => mem col (numerical_features feature_types))
              (map fst missing_features) in
     missing_info <-
       match numerical_missing with
       | [] => ret []
       | _ =>
           cfg <- get_config ;;
           let strategy := missing_strategy_numerical (preprocessing cfg) in
           for_each numerical_missing []
                    (impute_column numerical_fill_value df_clean strategy)
       end ;;
     let categorical_missing :=
       filter (fun col => mem col (categorical_features_available feature_types))
              (map fst missing_features) in
     missing_info <-
       match categorical_missing with
       | [] => ret missing_info
       | _ =>
           cfg <- get_config ;;
           let strategy := missing_strategy_categorical (preprocessing cfg) in
           for_each categorical_missing missing_info
                    (impute_column categorical_fill_value df_clean strategy)
       end ;;
     _log_step "Missing Values Handling"
       ("Imputed " ++ str_of_nat (length missing_info) ++ " features: "
        ++ repr_list (dict_keys missing_info))
   else
     _log_step "Missing Values Check" "No missing values found") ;;;
  ret df_clean.

(* ------------------------------------------------------------------ *)
(** ** Skew reduction and scaling *)

(** [abs(skew_value) >= skewness_threshold]; a comparison with NaN is
    false. *)
Definition is_high_skew (threshold : Q) (skew_value : option Q) : bool :=
  match skew_value with
  | Some v => Qle_bool threshold (Qabs v)
  | None => false
  end.

(** The first loop of [_apply_power_transformation]:
    [for i, feature in enumerate(feature_names)] reading column [X[:, i]]. *)
Fixpoint skew_scan (threshold : Q) (X : ndarray) (i : nat)
    (feature_names : list string)
    (acc : list (string * option Q) * list string)
  : result (list (string * option Q) * list string) :=
  match feature_names with
  | [] => Ok acc
  | feature :: rest =>
      match nth_error (col_data X) i with
      | None => Raise (IndexError "index is out of bounds for axis 1")
      | Some column =>
          let skew_value := skew column in
          let original_skew := dict_set feature skew_value (fst acc) in
          let high_skew_features :=
            if is_high_skew threshold skew_value
            then (snd acc ++ [feature])%list else snd acc in
          skew_scan threshold X (S i) rest (original_skew, high_skew_features)
      end
  end.

Definition lift {A} (r : result A) : M A := fun w => (w, r).

(** The [improvements] dictionary built by the source after the transform
    is local and dropped; it is left out. *)
Definition _apply_power_transformation (X : ndarray) (feature_names : list string)
  : M (ndarray * option PowerTransformer) :=
  cfg <- get_config ;;
  if negb (apply_power_transform (preprocessing cfg)) then ret (X, None)
  else
    let skewness_threshold := skewness_threshold (preprocessing cfg) in
    ' (original_skew, high_skew_features) <-
        lift (skew_scan skewness_threshold X 0 feature_names ([], [])) ;;
    match high_skew_features with
    | [] =>
        _log_step "Skewness Analysis" "No highly skewed features found" ;;;
        ret (X, None)
    | _ =>
        let method := power_transform_method (preprocessing cfg) in
        let power_transformer := mkPowerTransformer method X in
        call (PowerFitTransform method X) ;;;
        let X_transformed := power_apply power_transformer X in
        _log_step "Power Transformation"
          ("Applied " ++ method ++ " to "
           ++ str_of_nat (length high_skew_features) ++ " features") ;;;
        ret (X_transformed, Some power_transformer)
    end.

Definition _apply_scaling (X : ndarray) : M (ndarray * Scaler) :=
  cfg <- get_config ;;
  let scaling_method := scaling_method (preprocessing cfg) in
  cls <-
    (if String.eqb scaling_method "standard" then ret StandardScaler
     else if String.eqb scaling_method "robust" then ret RobustScaler
     else if String.eqb scaling_method "minmax" then ret MinMaxScaler
     else
       log_to WARNING ("Unknown scaling method: " ++ scaling_method
                       ++ ". Using StandardScaler.") ;;;
       ret StandardScaler) ;;
  let scaler := mkScaler cls X in
  checked_call (ScalerFitTransform cls X) ;;;
  let X_scaled := scaler_apply scaler X in
  _log_step "Feature Scaling" ("Applied " ++ class_name (sc_class scaler)) ;;;
  ret (X_scaled, scaler).

(* ------------------------------------------------------------------ *)
(** ** Categorical encoding *)

(** [df[cols]] for a list of names: KeyError when a name is absent. *)
Definition select_columns (df : DataFrame) (cols : list string)
  : result DataFrame :=
  match filter (fun c => negb (mem c (column_names df))) cols with
  | [] =>
      Ok (mkFrame (df_index df)
            (flat_map (fun c => filter (fun s => String.eqb (s_name s) c)
                                       (df_columns df)) cols))
  | missing => Raise (KeyError (repr_list missing ++ " not in index"))
  end.

(** [df.values] *)
Definition values (df : DataFrame) : ndarray :=
  mkArray (frame_len df) (map s_cells (df_columns df)).

(** [np.array([]).reshape(n, 0)] *)
Definition empty_array (n : nat) : ndarray := mkArray n [].

Definition _encode_categorical_features (df : ref) (categorical_features : list string)
  : M (ndarray * list string * option OneHotEncoder) :=
  frame <- load df ;;
  match categorical_features with
  | [] => ret (empty_array (frame_len frame), [], None)
  | _ =>
      cfg <- get_config ;;
      let encoding_method := categorical_encoding (preprocessing cfg) in
      if String.eqb encoding_method "onehot" then
        selected <- lift (select_columns frame categorical_features) ;;
        let encoder :=
          mkOneHotEncoder (drop_first_category (preprocessing cfg)) selected in
        call (EncoderFitTransform (enc_drop_first encoder) selected) ;;;
        let X_categorical := encoder_apply encoder selected in
        let feature_names := encoder_feature_names encoder categorical_features in
        _log_step "Categorical Encoding"
          ("One-hot encoded " ++ str_of_nat (length categorical_features)
           ++ " features into " ++ str_of_nat (length feature_names)
           ++ " features") ;;;
        ret (X_categorical, feature_names, Some encoder)
      else
        log_to WARNING ("Encoding method " ++ encoding_method
                        ++ " not implemented. Skipping categorical encoding.") ;;;
        ret (empty_array (frame_len frame), [], None)
  end.

(* ------------------------------------------------------------------ *)
(** ** Dimensionality reduction *)

(** [np.cumsum]: the first entry is the first element, every later one
    the floating-point sum of the entry before it and the next element. *)
Fixpoint cumsum_from (acc : Q) (l : list Q) : list Q :=
  match l with
  | [] => []
  | x :: rest => let s := float_add acc x in s :: cumsum_from s rest
  end.

Definition cumsum (l : list Q) : list Q :=
  match l with
  | [] => []
  | x :: rest => x :: cumsum_from x rest
  end.

(** [np.sum] *)
Definition Qsum (l : list Q) : Q := fold_left Qplus l 0%Q.

Fixpoint first_true (l : list bool) : option nat :=
  match l with
  | [] => None
  | true :: _ => Some 0
  | false :: rest => option_map S (first_true rest)
  end.

(** [np.argmax] of a boolean array: the first [True], position 0 when
    there is none; an empty array is an error. *)
Definition argmax_bool (l : list bool) : result nat :=
  match l with
  | [] => Raise (ValueError "attempt to get argmax of an empty sequence")
  | _ => Ok (match first_true l with Some i => i | None => 0 end)
  end.

(** [isinstance(n_components, float) and n_components <= 1.0] *)
Definition fraction_target (t : pca_target) : option Q :=
  match t with
  | PcaFloat q => if Qle_bool q 1%Q then Some q else None
  | PcaInt _ => None
  end.

(** [int(x)] on a float truncates towards zero. *)
Definition int_of_float (q : Q) : Z := Z.quot (Qnum q) (Zpos (Qden q)).

(** The component count of the variance-targeted branch, from the
    explained-variance ratios of the unconstrained fit. *)
Definition choose_n_comp (n_components : Q) (min_components : Z)
    (explained_variance_ratio : list Q) : result Z :=
  let cumsum_var := cumsum explained_variance_ratio in
  match argmax_bool (map (fun c => Qle_bool n_components c) cumsum_var) with
  | Raise e => Raise e
  | Ok i =>
      let n_comp := (Z.of_nat i + 1)%Z in
      Ok (Z.max n_comp min_components)
  end.

Inductive reducer : Type :=
| ReducerPCA (p : PCA)
| ReducerTSNE (t : TSNE).

(** [[f'{prefix}{i+1}' for i in range(n)]] *)
Definition numbered (prefix : string) (n : nat) : list string :=
  map (fun i => prefix ++ str_of_nat (i + 1)) (seq 0 n).

Definition width (X : ndarray) : nat := length (col_data X).

Definition pca_stage (X : ndarray) : M (list (string * (ndarray * reducer))) :=
  cfg <- get_config ;;
  let dr := dimensionality_reduction cfg in
  if apply_pca dr then
    let n_components := pca_n_components dr in
    let min_components := pca_min_components dr in
    pca <-
      match fraction_target n_components with
      | Some fraction =>
          let pca := mkPCA None X in
          checked_call (PCAFit None X) ;;;
          n_comp <- lift (choose_n_comp fraction min_components
                            (pca_explained_variance_ratio pca)) ;;
          checked_call (PCAFitTransform (Some n_comp) X) ;;;
          ret (mkPCA (Some n_comp) X)
      | None =>
          let n_comp := match n_components with
                        | PcaFloat q => int_of_float q
                        | PcaInt n => n
                        end in
          checked_call (PCAFitTransform (Some n_comp) X) ;;;
          ret (mkPCA (Some n_comp) X)
      end ;;
    let X_pca := pca_apply pca X in
    let explained_var := Qsum (pca_explained_variance_ratio pca) in
    _log_step "PCA Application"
      ("Reduced to " ++ str_of_nat (width X_pca)
       ++ " components, explained variance: " ++ format_3f explained_var) ;;;
    ret (dict_set "pca" (X_pca, ReducerPCA pca) [])
  else ret [].

Definition tsne_stage (X : ndarray)
    (reduction_results : list (string * (ndarray * reducer)))
  : M (list (string * (ndarray * reducer))) :=
  cfg <- get_config ;;
  let dr := dimensionality_reduction cfg in
  if apply_tsne dr then
    let n_components := tsne_n_components dr in
    let perplexity := tsne_perplexity dr in
    let random_state := tsne_random_state dr in
    let X_for_tsne := match dict_get "pca" reduction_results with
                      | Some (X_pca, _) => X_pca
                      | None => X
                      end in
    let tsne :=
      mkTSNE n_components
             (Z.min perplexity ((Z.of_nat (n_rows X) - 1) / 3)%Z)
             random_state X_for_tsne in
    checked_call (TSNEFitTransform tsne) ;;;
    let X_tsne := tsne_embedding tsne in
    _log_step "t-SNE Application"
      ("Reduced to " ++ str_of_nat (width X_tsne)
       ++ " components for visualization") ;;;
    ret (dict_set "tsne" (X_tsne, ReducerTSNE tsne) reduction_results)
  else ret reduction_results.

Definition _apply_dimensionality_reduction (X : ndarray) (feature_names : list string)
  : M (list (string * (ndarray * reducer))) :=
  reduction_results <- pca_stage X ;;
  tsne_stage X reduction_results.

(* ------------------------------------------------------------------ *)
(** ** Assembling dataframes *)

Definition infer_dtype (cs : list cell) : dtype :=
  if forallb (fun c => match c with Some (VStr _) => false | _ => true end) cs
  then DtNumber else DtObject.

(** [pd.DataFrame(X, columns=..., index=...)] *)
Definition make_frame (X : ndarray) (columns : list string) (index : list nat)
  : result DataFrame :=
  if (length columns =? width X)%nat && (length index =? n_rows X)%nat then
    Ok (mkFrame index
          (map (fun nc => mkSeries (fst nc) (infer_dtype (snd nc)) (snd nc))
               (combine columns (col_data X))))
  else Raise (ValueError "Shape of passed values does not match the axes").

(** [np.hstack([A, B])] *)
Definition hstack (A B : ndarray) : result ndarray :=
  if (n_rows A =? n_rows B)%nat then
    Ok (mkArray (n_rows A) (col_data A ++ col_data B))
  else Raise (ValueError "all the input array dimensions except for the concatenation axis must match exactly").

(** [df[name] = series]: replaces the column of that name, or appends. *)
Definition setitem (name : string) (s : Series) (df : DataFrame) : DataFrame :=
  let new := mkSeries name (s_dtype s) (s_cells s) in
  if mem name (column_names df) then
    mkFrame (df_index df)
      (map (fun c => if String.eqb (s_name c) name then new else c)
           (df_columns df))
  else mkFrame (df_index df) (df_columns df ++ [new]).

(** [for col in source.columns: target[rename(col)] = source[col]] on the
    dataframe object [target]. *)
Definition add_columns (target : ref) (source : DataFrame)
    (rename : string -> string) : M unit :=
  for_each (column_names source) tt
    (fun col _ =>
       match get_column source col with
       | None => raise (KeyError col)
       | Some s =>
           frame <- load target ;;
           store target (setitem (rename col) s frame)
       end).

Definition set_power_transformer (v : option PowerTransformer) (p : Pipeline) :=
  mkPipeline (config p) (feature_names_ p) (preprocessing_log p) (fitted p)
             v (scaler p) (categorical_encoder p) (pca p) (tsne p).

Definition set_scaler (v : option Scaler) (p : Pipeline) :=
  mkPipeline (config p) (feature_names_ p) (preprocessing_log p) (fitted p)
             (power_transformer p) v (categorical_encoder p) (pca p) (tsne p).

Definition set_categorical_encoder (v : option OneHotEncoder) (p : Pipeline) :=
  mkPipeline (config p) (feature_names_ p) (preprocessing_log p) (fitted p)
             (power_transformer p) (scaler p) v (pca p) (tsne p).

Definition set_pca (v : option PCA) (p : Pipeline) :=
  mkPipeline (config p) (feature_names_ p) (preprocessing_log p) (fitted p)
             (power_transformer p) (scaler p) (categorical_encoder p) v (tsne p).

Definition set_tsne (v : option TSNE) (p : Pipeline) :=
  mkPipeline (config p) (feature_names_ p) (preprocessing_log p) (fitted p)
             (power_transformer p) (scaler p) (categorical_encoder p) (pca p) v.

Definition set_feature_names (v : list (string * list string)) (p : Pipeline) :=
  mkPipeline (config p) v (preprocessing_log p) (fitted p)
             (power_transformer p) (scaler p) (categorical_encoder p)
             (pca p) (tsne p).

Definition set_fitted (v : bool) (p : Pipeline) :=
  mkPipeline (config p) (feature_names_ p) (preprocessing_log p) v
             (power_transformer p) (scaler p) (categorical_encoder p)
             (pca p) (tsne p).

(* ------------------------------------------------------------------ *)
(** ** [fit_transform] *)

(** The loop over [reduction_results.items()] at the end of
    [fit_transform]. *)
Definition store_reduction (index : list nat)
    (item : string * (ndarray * reducer))
    (results : list (string * DataFrame))
  : M (list (string * DataFrame)) :=
  let '(method, (X_reduced, red)) := item in
  match red with
  | ReducerPCA p => update_self (set_pca (Some p))
  | ReducerTSNE t => update_self (set_tsne (Some t))
  end ;;;
  let feature_names :=
    match red with
    | ReducerPCA _ => numbered "PCA_" (width X_reduced)
    | ReducerTSNE _ => numbered "t-SNE_" (width X_reduced)
    end in
  frame <- lift (make_frame X_reduced feature_names index) ;;
  ret (dict_set method frame results).

Definition fit_transform (df : ref) : M (list (string * DataFrame)) :=
  log_to INFO "Starting preprocessing pipeline fitting and transformation" ;;;
  (* Step 1, 2 *)
  feature_types <- _identify_feature_types df ;;
  df_clean <- _handle_missing_values df feature_types ;;
  (* Step 3 *)
  let numerical_features := numerical_features feature_types in
  let categorical_features := categorical_features_available feature_types in
  clean <- load df_clean ;;
  numerical_frame <- lift (select_columns clean numerical_features) ;;
  let X_numerical := values numerical_frame in
  (* Step 4 *)
  ' (X_power_transformed, pt) <-
      _apply_power_transformation X_numerical numerical_features ;;
  update_self (set_power_transformer pt) ;;;
  let X_to_scale := X_power_transformed in
  (* Step 5 *)
  ' (X_scaled, sc) <- _apply_scaling X_to_scale ;;
  update_self (set_scaler (Some sc)) ;;;
  (* Step 6 *)
  ' (X_categorical, categorical_feature_names, enc) <-
      _encode_categorical_features df_clean categorical_features ;;
  update_self (set_categorical_encoder enc) ;;;
  (* Step 7 *)
  ' (X_combined, combined_feature_names) <-
      (if (0 <? width X_categorical)%nat then
         X_combined <- lift (hstack X_scaled X_categorical) ;;
         ret (X_combined, (numerical_features ++ categorical_feature_names)%list)
       else ret (X_scaled, numerical_features)) ;;
  (* Step 8 *)
  reduction_results <-
    _apply_dimensionality_reduction X_combined combined_feature_names ;;
  clean <- load df_clean ;;
  let index := df_index clean in
  let results := [] in
  (* X_power_transformed is never None: the variant is always stored *)
  power_frame <- lift (make_frame X_power_transformed numerical_features index) ;;
  let results := dict_set "power_transformed" power_frame results in
  scaled_frame <- lift (make_frame X_scaled numerical_features index) ;;
  let results := dict_set "scaled" scaled_frame results in
  combined_frame <- lift (make_frame X_combined combined_feature_names index) ;;
  let results := dict_set "combined" combined_frame results in
  results <-
    (if (0 <? width X_categorical)%nat then
       categorical_frame <-
         lift (make_frame X_categorical categorical_feature_names index) ;;
       ret (dict_set "categorical_encoded" categorical_frame results)
     else ret results) ;;
  results <- for_each reduction_results results (store_reduction index) ;;
  (* the complete dataset *)
  complete_data <- copy df_clean ;;
  add_columns complete_data scaled_frame (fun col => col ++ "_scaled") ;;;
  match dict_get "pca" results with
  | Some pca_frame => add_columns complete_data pca_frame (fun col => col)
  | None => ret tt
  end ;;;
  match dict_get "tsne" results with
  | Some tsne_frame => add_columns complete_data tsne_frame (fun col => col)
  | None => ret tt
  end ;;;
  complete <- load complete_data ;;
  let results := dict_set "complete" complete results in
  update_self (set_feature_names
                 [("numerical", numerical_features);
                  ("categorical", categorical_features);
                  ("categorical_encoded", categorical_feature_names);
                  ("combined", combined_feature_names)]) ;;;
  update_self (set_fitted true) ;;;
  _log_step "Pipeline Fitting Complete"
    ("Generated " ++ str_of_nat (length results) ++ " dataset variants") ;;;
  ret results.

(* ------------------------------------------------------------------ *)
(** ** [transform] *)

(** [self.feature_names_[key]] *)
Definition feature_names_of (key : string) : M (list string) :=
  p <- get_self ;;
  match dict_get key (feature_names_ p) with
  | Some names => ret names
  | None => raise (KeyError key)
  end.

(** The part of [transform] after imputation: the persisted estimators
    applied to the cleaned dataframe. *)
Definition apply_fitted_stages (df_clean : ref) : M (list (string * DataFrame)) :=
  (* numerical features *)
  numerical_features <- feature_names_of "numerical" ;;
  clean <- load df_clean ;;
  numerical_frame <- lift (select_columns clean numerical_features) ;;
  let X_numerical := values numerical_frame in
  p <- get_self ;;
  X_numerical <-
    match power_transformer p with
    | Some pt =>
        call (PowerTransform pt X_numerical) ;;;
        ret (power_apply pt X_numerical)
    | None => ret X_numerical
    end ;;
  X_scaled <-
    match scaler p with
    | Some sc =>
        call (ScalerTransform sc X_numerical) ;;;
        ret (scaler_apply sc X_numerical)
    | None =>
        raise (AttributeError "'NoneType' object has no attribute 'transform'")
    end ;;
  (* categorical features *)
  ' (X_categorical, X_combined) <-
    match categorical_encoder p with
    | Some enc =>
        categorical_features <- feature_names_of "categorical" ;;
        categorical_frame <- lift (select_columns clean categorical_features) ;;
        call (EncoderTransform enc categorical_frame) ;;;
        let X_categorical := encoder_apply enc categorical_frame in
        X_combined <- lift (hstack X_scaled X_categorical) ;;
        ret (X_categorical, X_combined)
    | None => ret (empty_array (frame_len clean), X_scaled)
    end ;;
  let results := [] in
  let index := df_index clean in
  scaled_frame <- lift (make_frame X_scaled numerical_features index) ;;
  let results := dict_set "scaled" scaled_frame results in
  combined_names <- feature_names_of "combined" ;;
  combined_frame <- lift (make_frame X_combined combined_names index) ;;
  let results := dict_set "combined" combined_frame results in
  match pca p with
  | Some fitted_pca =>
      call (PCATransform fitted_pca X_combined) ;;;
      let X_pca := pca_apply fitted_pca X_combined in
      pca_frame <- lift (make_frame X_pca (numbered "PCA_" (width X_pca)) index) ;;
      ret (dict_set "pca" pca_frame results)
  | None => ret results
  end.

Definition transform (df : ref) : M (list (string * DataFrame)) :=
  p <- get_self ;;
  if negb (fitted p) then
    raise (ValueError "Pipeline must be fitted before transforming new data")
  else
    log_to INFO "Transforming new data using fitted pipeline" ;;;
    feature_types <- _identify_feature_types df ;;
    df_clean <- _handle_missing_values df feature_types ;;
    apply_fitted_stages df_clean.

(* ------------------------------------------------------------------ *)
(** ** [save_pipeline] *)

Definition dump (path : string) (content : pickled) : M unit :=
  modify (fun w => with_disk (disk w ++ [Dump path content]) w).

Definition dump_component {A} (filepath name : string) (wrap : A -> pickled)
    (component : option A) : M unit :=
  match component with
  | Some c => dump (filepath ++ "_" ++ name ++ ".pkl") (wrap c)
  | None => ret tt
  end.

Definition save_pipeline (filepath : string) : M unit :=
  p <- get_self ;;
  if negb (fitted p) then
    raise (ValueError "Pipeline must be fitted before saving")
  else
    modify (fun w => with_disk (disk w ++ [Mkdir (path_parent filepath)]) w) ;;;
    let pipeline_data :=
      PickledPipelineData (config p) (feature_names_ p) (preprocessing_log p)
                          (fitted p) in
    dump (filepath ++ "_pipeline.pkl") pipeline_data ;;;
    dump_component filepath "power_transformer" PickledPowerTransformer
                   (power_transformer p) ;;;
    dump_component filepath "scaler" PickledScaler (scaler p) ;;;
    dump_component filepath "categorical_encoder" PickledEncoder
                   (categorical_encoder p) ;;;
    dump_component filepath "pca" PickledPCA (pca p) ;;;
    dump_component filepath "tsne" PickledTSNE (tsne p) ;;;
    log_to INFO ("Pipeline saved to " ++ filepath).

(* ------------------------------------------------------------------ *)
(** ** [validate_output] *)

(** [abs(x - centre) < 0.1]; false on NaN. *)
Definition within_tenth (centre : Q) (x : cell) : bool :=
  match x with
  | Some (VNum v) => negb (Qle_bool (1 # 10)%Q (Qabs (v - centre)%Q))
  | _ => false
  end.

Definition check_no_missing (item : string * DataFrame)
    (validation_results : list (string * bool)) : M (list (string * bool)) :=
  let '(dataset_name, dataset) := item in
  if mem dataset_name ["tsne"] then ret validation_results
  else
    let missing_values := total_missing dataset in
    let validation_results :=
      dict_set (dataset_name ++ "_no_missing") (missing_values =? 0)%nat
               validation_results in
    (if (0 <? missing_values)%nat then
       log_to WARNING ("Found " ++ str_of_nat missing_values
                       ++ " missing values in " ++ dataset_name)
     else ret tt) ;;;
    ret validation_results.

Definition is_standard_scaler (s : option Scaler) : bool :=
  match s with
  | Some sc => match sc_class sc with StandardScaler => true | _ => false end
  | None => false
  end.

Definition check_shape (item : string * DataFrame)
    (acc : option nat * list (string * bool))
  : M (option nat * list (string * bool)) :=
  let '(dataset_name, dataset) := item in
  let base_shape := match fst acc with
                    | None => frame_len dataset
                    | Some b => b
                    end in
  let shape_consistent := (frame_len dataset =? base_shape)%nat in
  ret (Some base_shape,
       dict_set (dataset_name ++ "_shape_consistent") shape_consistent (snd acc)).

Definition validate_output (results : list (string * DataFrame))
  : M (list (string * bool)) :=
  let validation_results := [] in
  cfg <- get_config ;;
  if negb (check_missing_values (validation cfg)) then ret validation_results
  else
    validation_results <- for_each results validation_results check_no_missing ;;
    p <- get_self ;;
    let validation_results :=
      match dict_get "scaled" results with
      | Some scaled_data =>
          if check_feature_ranges (validation cfg) then
            if is_standard_scaler (scaler p) then
              let means := map (fun s => series_mean (s_cells s))
                               (df_columns scaled_data) in
              let stds := map (fun s => series_std (s_cells s))
                              (df_columns scaled_data) in
              let mean_check := forallb (within_tenth 0%Q) means in
              let std_check := forallb (within_tenth 1%Q) stds in
              dict_set "scaled_unit_variance" std_check
                (dict_set "scaled_mean_centered" mean_check validation_results)
            else validation_results
          else validation_results
      | None => validation_results
      end in
    validation_results <-
      (if check_shape_consistency (validation cfg) then
         acc <- for_each results (None, validation_results) check_shape ;;
         ret (snd acc)
       else ret validation_results) ;;
    let passed_checks := length (filter (fun kv => snd kv) validation_results) in
    let total_checks := length validation_results in
    _log_step "Validation Complete"
      ("Passed " ++ str_of_nat passed_checks ++ "/" ++ str_of_nat total_checks
       ++ " validation checks") ;;;
    ret validation_results.

End Pipeline.

(* ------------------------------------------------------------------ *)
(** ** A reference library

    Exact rational versions of the pandas statistics, simple stand-ins
    for the scikit-learn numerics and the input validation of the
    scikit-learn estimators, used to run the pipeline on concrete tables.
    Its floating-point addition is the exact one. *)

Definition present_numbers (cs : list cell) : list Q :=
  flat_map (fun c => match c with Some (VNum q) => [q] | _ => [] end) cs.

Fixpoint insert_sorted (x : Q) (l : list Q) : list Q :=
  match l with
  | [] => [x]
  | y :: rest => if Qle_bool x y then x :: l else y :: insert_sorted x rest
  end.

Definition sort_numbers (l : list Q) : list Q := fold_right insert_sorted [] l.

Definition ref_median (cs : list cell) : cell :=
  let xs := sort_numbers (present_numbers cs) in
  let n := length xs in
  match n with
  | 0 => None
  | _ =>
      if Nat.even n then
        Some (VNum (Qred ((nth (n / 2 - 1) xs 0 + nth (n / 2) xs 0) / 2)%Q))
      else Some (VNum (nth (n / 2) xs 0%Q))
  end.

Definition ref_mean (cs : list cell) : cell :=
  let xs := present_numbers cs in
  match xs with
  | [] => None
  | _ => Some (VNum (Qred (Qsum xs / inject_Z (Z.of_nat (length xs)))%Q))
  end.

Definition occurrences (v : value) (vs : list value) : nat :=
  length (filter (value_eqb v) vs).

(** The first value of highest frequency. *)
Definition ref_mode (cs : list cell) : list value :=
  let vs := present_values cs in
  match vs with
  | [] => []
  | v0 :: _ =>
      [fold_left (fun best v => if (occurrences best vs <? occurrences v vs)%nat
                                then v else best) vs v0]
  end.

(** Stand-in for the skewness [g1 = m3 / m2^(3/2)]: its signed square
    [m3^2 / m2^3], which is rational and on the same side of 1 as [|g1|];
    NaN on a constant column. *)
Definition ref_skew (cs : list cell) : option Q :=
  let xs := present_numbers cs in
  match ref_mean cs with
  | Some (VNum m) =>
      let n := inject_Z (Z.of_nat (length xs)) in
      let m2 := (Qsum (map (fun x => (x - m) * (x - m)) xs) / n)%Q in
      let m3 := (Qsum (map (fun x => (x - m) * (x - m) * (x - m)) xs) / n)%Q in
      if Qeq_bool m2 0 then None
      else
        let square := Qred (m3 * m3 / (m2 * m2 * m2))%Q in
        Some (if Qle_bool 0 m3 then square else Qopp square)
  | _ => None
  end.

Definition distinct_values (cs : list cell) : list value :=
  fold_left (fun seen v => if existsb (value_eqb v) seen then seen
                           else (seen ++ [v])%list)
            (present_values cs) [].

Definition indicator (v : value) (c : cell) : cell :=
  match c with
  | Some u => Some (VNum (if value_eqb u v then 1 else 0)%Q)
  | None => Some (VNum 0%Q)
  end.

Definition ref_categories (e : OneHotEncoder) : list (Series * list value) :=
  map (fun s =>
         let cats := distinct_values (s_cells s) in
         (s, if enc_drop_first e then tl cats else cats))
      (df_columns (enc_fitted_on e)).

Definition ref_encoder_apply (e : OneHotEncoder) (frame : DataFrame) : ndarray :=
  mkArray (frame_len frame)
    (flat_map (fun sc =>
                 match get_column frame (s_name (fst sc)) with
                 | Some col => map (fun v => map (indicator v) (s_cells col)) (snd sc)
                 | None => []
                 end)
              (ref_categories e)).

Definition value_text (v : value) : string :=
  match v with
  | VStr s => s
  | VNum q => str_of_nat (Z.to_nat (Qfloor q))
  end.

Definition ref_encoder_feature_names (e : OneHotEncoder) (cols : list string)
  : list string :=
  flat_map (fun sc => map (fun v => s_name (fst sc) ++ "_" ++ value_text v) (snd sc))
           (ref_categories e).

(** Keeps the leading columns, as many as requested. *)
Definition ref_pca_apply (p : PCA) (X : ndarray) : ndarray :=
  match pca_arg_n_components p with
  | Some n => mkArray (n_rows X) (firstn (Z.to_nat n) (col_data X))
  | None => X
  end.

(** Stand-in for the explained variance: the share of each column in the
    total sum of squares. *)
Definition column_energy (c : list cell) : Q :=
  Qsum (map (fun q => (q * q)%Q) (present_numbers c)).

Definition ref_explained_variance_ratio (p : PCA) : list Q :=
  let cols := col_data (pca_fitted_on p) in
  let total := Qsum (map column_energy cols) in
  let n := match pca_arg_n_components p with
           | Some k => Z.to_nat k
           | None => length cols
           end in
  firstn n (map (fun c => Qred (column_energy c / total)%Q) cols).

Definition ref_tsne_embedding (t : TSNE) : ndarray :=
  mkArray (n_rows (tsne_fitted_on t))
    (repeat (repeat (Some (VNum 0%Q)) (n_rows (tsne_fitted_on t)))
            (Z.to_nat (tsne_arg_n_components t))).

(** Three decimals of a non-negative number, rounded half up. *)
Definition ref_format_3f (q : Q) : string :=
  let n := Z.to_nat (Qfloor (q * 1000 + (1 # 2))%Q) in
  let frac := n mod 1000 in
  str_of_nat (n / 1000) ++ "."
  ++ (if (frac <? 100)%nat then "0" else "")
  ++ (if (frac <? 10)%nat then "0" else "")
  ++ str_of_nat frac.

(** The input validation of scikit-learn ([check_array] and the checks
    of the parameters against the data), for the estimators fitted by
    [_apply_scaling] and [_apply_dimensionality_reduction]. *)
Definition has_text (X : ndarray) : bool :=
  existsb (existsb (fun c => match c with Some (VStr _) => true | _ => false end))
          (col_data X).

Definition has_gap (X : ndarray) : bool :=
  existsb (existsb is_missing) (col_data X).

Definition ref_check_array (estimator : string) (allow_nan : bool)
    (min_samples : nat) (X : ndarray) : option exn :=
  let found := fun n what =>
    ValueError ("Found array with " ++ str_of_nat n ++ " " ++ what
                ++ " (shape=(" ++ str_of_nat (n_rows X) ++ ", "
                ++ str_of_nat (width X) ++ ")) while a minimum of "
                ++ str_of_nat (if String.eqb what "sample(s)"
                               then min_samples else 1)
                ++ " is required by " ++ estimator ++ ".") in
  if has_text X then Some (ValueError "could not convert string to float")
  else if negb allow_nan && has_gap X then
    Some (ValueError "Input X contains NaN.")
  else if (n_rows X <? min_samples)%nat then Some (found (n_rows X) "sample(s)")
  else if (width X =? 0)%nat then Some (found 0 "feature(s)")
  else None.

Definition ref_pca_error (n : option Z) (X : ndarray) : option exn :=
  match n with
  | Some k =>
      if (k <? 0)%Z then
        Some (ValueError "The 'n_components' parameter of PCA must be an int in the range [0, inf), a float in the range (0.0, 1.0), a str among {'mle'} or None.")
      else
        match ref_check_array "PCA" false 1 X with
        | Some e => Some e
        | None =>
            if (Z.of_nat (Nat.min (n_rows X) (width X)) <? k)%Z then
              Some (ValueError
                      ("n_components=" ++ str_of_nat (Z.to_nat k)
                       ++ " must be between 0 and min(n_samples, n_features)="
                       ++ str_of_nat (Nat.min (n_rows X) (width X))
                       ++ " with svd_solver='full'"))
            else None
        end
  | None => ref_check_array "PCA" false 1 X
  end.

Definition ref_tsne_error (t : TSNE) : option exn :=
  let X := tsne_fitted_on t in
  if (tsne_arg_n_components t <? 1)%Z then
    Some (ValueError "The 'n_components' parameter of TSNE must be an int in the range [1, inf).")
  else if (tsne_arg_perplexity t <=? 0)%Z then
    Some (ValueError "The 'perplexity' parameter of TSNE must be a float in the range (0.0, inf).")
  else if (Z.of_nat (n_rows X) <=? tsne_arg_perplexity t)%Z then
    Some (ValueError "perplexity must be less than n_samples")
  else
    match ref_check_array "TSNE" false 2 X with
    | Some e => Some e
    | None =>
        if (4 <=? tsne_arg_n_components t)%Z then
          Some (ValueError "'n_components' should be inferior to 4 for the barnes_hut algorithm as it relies on quad-tree or oct-tree.")
        else None
    end.

Definition ref_estimator_error (c : sk_call) : option exn :=
  match c with
  | ScalerFitTransform cls X => ref_check_array (class_name cls) true 1 X
  | PCAFit n X => ref_pca_error n X
  | PCAFitTransform n X => ref_pca_error n X
  | TSNEFitTransform t => ref_tsne_error t
  | _ => None
  end.

#[export] Instance reference_library : NumericLibraries := {
  series_median := ref_median;
  series_mean := ref_mean;
  series_std := fun _ => Some (VNum 1%Q);
  series_mode := ref_mode;
  skew := ref_skew;
  power_apply := fun _ X => X;
  estimator_error := ref_estimator_error;
  scaler_apply := fun _ X => X;
  scaler_fit_transform_shape := fun _ _ _ => eq_refl;
  float_add := Qplus;
  encoder_apply := ref_encoder_apply;
  encoder_feature_names := ref_encoder_feature_names;
  pca_explained_variance_ratio := ref_explained_variance_ratio;
  pca_apply := ref_pca_apply;
  tsne_embedding := ref_tsne_embedding;
  format_3f := ref_format_3f;
  path_parent := fun p => p
}.

(* ------------------------------------------------------------------ *)
(** ** Sample tables and worlds *)

Definition numbers (l : list (option Z)) : list cell :=
  map (option_map (fun z => VNum (inject_Z z))) l.

Definition texts (l : list (option string)) : list cell :=
  map (option_map VStr) l.

(** The attributes set by [__init__]. *)
Definition new_pipeline (c : Config) : Pipeline :=
  mkPipeline c [] [] false None None None None None.

Definition world_of (c : Config) (frames : list DataFrame) : World :=
  mkWorld frames (new_pipeline c) [] [] [].

(** A table without missing entries. *)
Definition complete_table : DataFrame :=
  mkFrame [0; 1; 2]
    [ mkSeries "Revenue" DtNumber (numbers [Some 4; Some 1; Some 7]%Z);
      mkSeries "Industry" DtObject (texts [Some "Energy"; Some "Finance"; Some "Energy"]) ].

(** A table with gaps in a numerical, a categorical and an identifier
    column. *)
Definition gappy_table : DataFrame :=
  mkFrame [0; 1; 2; 3]
    [ mkSeries "Year" DtNumber (numbers [Some 2020; None; Some 2021; Some 2022]%Z);
      mkSeries "Revenue" DtNumber (numbers [Some 1; None; Some 1; Some 10]%Z);
      mkSeries "Industry" DtObject (texts [Some "Energy"; Some "Finance"; None; Some "Finance"]) ].

(** A table whose category-typed column holds no value. *)
Definition unlabelled_region_table : DataFrame :=
  mkFrame [0; 1]
    [ mkSeries "Revenue" DtNumber (numbers [Some 3; Some 5]%Z);
      mkSeries "Region" DtCategory (texts [None; None]) ].

Definition revenue_industry : FeatureTypes :=
  mkFeatureTypes (mkFeatureCategories [] [] [] [] []) ["Revenue"] ["Industry"].

Definition with_validation (v : ValidationConfig) (c : Config) : Config :=
  mkConfig (preprocessing c) (dimensionality_reduction c) (feature_categories c) v.

Definition with_scaling_method (m : string) (c : Config) : Config :=
  mkConfig
    (let p := preprocessing c in
     mkPreprocessingConfig (missing_strategy_numerical p)
       (missing_strategy_categorical p) m (apply_power_transform p)
       (power_transform_method p) (skewness_threshold p)
       (categorical_encoding p) (drop_first_category p))
    (dimensionality_reduction c) (feature_categories c) (validation c).

(** A matrix of four rows and two columns; the second column is skewed
    (skewness about 1.15). *)
Definition small_matrix : ndarray :=
  mkArray 4 [ numbers [Some 1; Some 2; Some 3; Some 4]%Z;
              numbers [Some 1; Some 1; Some 1; Some 10]%Z ].

(** A matrix of two columns and no rows. *)
Definition empty_rows_matrix : ndarray := mkArray 0 [ []; [] ].

(** The cumulative explained variance of the first [k] components, as
    [np.cumsum] accumulates it. *)
Definition cumulative_variance {L : NumericLibraries}
    (explained_variance_ratio : list Q) (k : nat) : Q :=
  match firstn k explained_variance_ratio with
  | [] => 0%Q
  | x :: rest => fold_left float_add rest x
  end.

(** The smallest count whose cumulative explained variance meets or
    exceeds the fraction, if some count does. *)
Definition smallest_reaching_count {L : NumericLibraries}
    (fraction : Q) (explained_variance_ratio : list Q) : option nat :=
  hd_error
    (filter (fun k => Qle_bool fraction
                        (cumulative_variance explained_variance_ratio k))
            (seq 1 (length explained_variance_ratio))).

(** Six rows, five columns whose shares of the total sum of squares are
    90%, 6%, 2%, 1% and 1%. *)
Definition skewed_energy_matrix : ndarray :=
  mkArray 6 [ numbers [Some 9; Some 3; Some 0; Some 0; Some 0; Some 0]%Z;
              numbers [Some 0; Some 0; Some 2; Some 1; Some 1; Some 0]%Z;
              numbers [Some 0; Some 0; Some 0; Some 0; Some 1; Some 1]%Z;
              numbers [Some 1; Some 0; Some 0; Some 0; Some 0; Some 0]%Z;
              numbers [Some 0; Some 0; Some 0; Some 1; Some 0; Some 0]%Z ].

(** Validation with the missing-value check switched off and the two other
    checks switched on. *)
Definition only_range_and_shape_checks : ValidationConfig :=
  mkValidationConfig false true true true.

Definition one_scaled_variant : list (string * DataFrame) :=
  [("scaled", mkFrame [0] [mkSeries "Revenue" DtNumber (numbers [Some 0%Z])])].


(* ------------------------------------------------------------------ *)
(** ** Specifications of computations

    [triple P R m Q]: started in a world satisfying the invariant [P], the
    computation [m] ends - normally or by an exception - in a world that
    satisfies [P] and is related to the initial one by [R]; a value
    returned normally satisfies [Q]. *)

Definition triple {A} (P : World -> Prop) (R : World -> World -> Prop)
    (m : M A) (Q : A -> Prop) : Prop :=
  forall w, P w ->
    P (fst (m w)) /\ R w (fst (m w)) /\ forall a, snd (m w) = Ok a -> Q a.

Definition anything {A} : A -> Prop := fun _ => True.

(** The dataframe objects that exist when a call starts are at the
    addresses below [n]. *)
Definition allocated (n : nat) (w : World) : Prop := n <= length (heap w).

Definition objects_kept (n : nat) (w w' : World) : Prop :=
  firstn n (heap w') = firstn n (heap w).

(** What fitting establishes and [transform] only reads. *)
Definition fitted_state (p : Pipeline) :=
  (config p, feature_names_ p, fitted p,
   (power_transformer p, scaler p, categorical_encoder p, pca p, tsne p)).

Definition is_tsne_call (c : sk_call) : bool :=
  match c with TSNEFitTransform _ => true | _ => false end.

Definition is_fit_call (c : sk_call) : bool :=
  match c with
  | PowerTransform _ _ | ScalerTransform _ _ | EncoderTransform _ _
  | PCATransform _ _ => false
  | _ => true
  end.

(** Nothing fitted changes, nothing is written to disk and no estimator is
    fitted between the two worlds. *)
Definition read_only (w w' : World) : Prop :=
  fitted_state (self w') = fitted_state (self w)
  /\ filter is_fit_call (estimator_calls w') = filter is_fit_call (estimator_calls w)
  /\ disk w' = disk w.

(** Between the two worlds only dataframes, the processing log and the
    logger may differ. *)
Definition quiet (w w' : World) : Prop :=
  fitted_state (self w') = fitted_state (self w)
  /\ estimator_calls w' = estimator_calls w
  /\ disk w' = disk w.

Definition no_invariant : World -> Prop := fun _ => True.

(* ------------------------------------------------------------------ *)
(** ** The imputation stage as a function on tables

    [impute_frame] is what the two imputation loops compute on the
    contents of the copied dataframe when no [fillna] raises;
    [impute_outcome] further below also follows the exception of a
    [fillna].  [handle_missing_values_run] proves both. *)

Definition fill_step (fill : string -> Series -> cell) (strategy : string)
    (frame : DataFrame) (col : string) : DataFrame :=
  match get_column frame col with
  | Some s => fillna_column col (fill strategy s) frame
  | None => frame
  end.

Definition missing_features_of (frame : DataFrame) : list string :=
  map fst (filter (fun p : string * nat => (0 <? snd p)%nat) (isnull_sum frame)).

Definition impute_frame {L : NumericLibraries} (cfg : Config)
    (ft : FeatureTypes) (frame : DataFrame) : DataFrame :=
  let missing := missing_features_of frame in
  let numerical_missing :=
    filter (fun col => mem col (numerical_features ft)) missing in
  let categorical_missing :=
    filter (fun col => mem col (categorical_features_available ft)) missing in
  fold_left
    (fill_step categorical_fill_value
               (missing_strategy_categorical (preprocessing cfg)))
    categorical_missing
    (fold_left
       (fill_step numerical_fill_value
                  (missing_strategy_numerical (preprocessing cfg)))
       numerical_missing frame).

(** The two loops with the exception a [fillna] raises: the frame as the
    loops leave it, and the exception if there is one. *)
Definition fill_step_error (fill : string -> Series -> cell) (strategy : string)
    (frame : DataFrame) (col : string) : option exn :=
  match get_column frame col with
  | Some s => fillna_error s (fill strategy s)
  | None => Some (KeyError col)
  end.

Fixpoint fill_loop (fill : string -> Series -> cell) (strategy : string)
    (cols : list string) (frame : DataFrame) : DataFrame * option exn :=
  match cols with
  | [] => (frame, None)
  | col :: rest =>
      match fill_step_error fill strategy frame col with
      | Some e => (frame, Some e)
      | None => fill_loop fill strategy rest (fill_step fill strategy frame col)
      end
  end.

Definition impute_outcome {L : NumericLibraries} (cfg : Config)
    (ft : FeatureTypes) (frame : DataFrame) : DataFrame * option exn :=
  let missing := missing_features_of frame in
  let numerical_missing :=
    filter (fun col => mem col (numerical_features ft)) missing in
  let categorical_missing :=
    filter (fun col => mem col (categorical_features_available ft)) missing in
  match fill_loop numerical_fill_value
                  (missing_strategy_numerical (preprocessing cfg))
                  numerical_missing frame with
  | (frame1, Some e) => (frame1, Some e)
  | (frame1, None) =>
      fill_loop categorical_fill_value
                (missing_strategy_categorical (preprocessing cfg))
                categorical_missing frame1
  end.

(** The exception of the imputation stage on a table, if it raises. *)
Definition imputation_error {L : NumericLibraries} (cfg : Config)
    (ft : FeatureTypes) (frame : DataFrame) : option exn :=
  snd (impute_outcome cfg ft frame).

(** The numerical list names number-typed columns, as the list built by
    [_identify_feature_types] does. *)
Definition numerical_typed (ft : FeatureTypes) (frame : DataFrame) : Prop :=
  forall s : Series,
    In s (df_columns frame) ->
    mem (s_name s) (numerical_features ft) = true -> s_dtype s = DtNumber.

(** The categorical list names object- or category-typed columns. *)
Definition categorical_typed (ft : FeatureTypes) (frame : DataFrame) : Prop :=
  forall s : Series,
    In s (df_columns frame) ->
    mem (s_name s) (categorical_features_available ft) = true ->
    s_dtype s = DtObject \/ s_dtype s = DtCategory.

(** A call made by [transform] uses an estimator persisted in the pipeline
    [p]; the frame or matrix it receives is selected from the cleaned
    dataframe [clean] by the feature-name lists recorded in [p]. *)
Definition fit_time_call {L : NumericLibraries} (p : Pipeline)
    (clean : DataFrame) (c : sk_call) : Prop :=
  match c with
  | PowerTransform pt X =>
      power_transformer p = Some pt
      /\ exists names frame,
           dict_get "numerical" (feature_names_ p) = Some names
           /\ select_columns clean names = Ok frame
           /\ X = values frame
  | ScalerTransform sc X =>
      scaler p = Some sc
      /\ exists names frame,
           dict_get "numerical" (feature_names_ p) = Some names
           /\ select_columns clean names = Ok frame
           /\ X = match power_transformer p with
                  | Some pt => power_apply pt (values frame)
                  | None => values frame
                  end
  | EncoderTransform enc frame =>
      categorical_encoder p = Some enc
      /\ exists names,
           dict_get "categorical" (feature_names_ p) = Some names
           /\ select_columns clean names = Ok frame
  | PCATransform fitted_pca _ => pca p = Some fitted_pca
  | _ => False
  end.

(** The variants returned by [transform]. *)
Definition transform_variants (p : Pipeline) : list string :=
  match pca p with
  | Some _ => ["scaled"; "combined"; "pca"]
  | None => ["scaled"; "combined"]
  end.

(** The default configuration with a minimum of two principal
    components, for tables of few columns. *)
Definition small_table_config : Config :=
  mkConfig (preprocessing default_config)
    (mkReductionConfig true (PcaFloat (95 # 100)%Q) 2%Z true 2%Z 30%Z 42%Z)
    (feature_categories default_config) (validation default_config).

(** The pipeline after [fit_transform] on [gappy_table]. *)
Definition fitted_world : World :=
  fst (fit_transform 0 (world_of small_table_config [gappy_table])).

(** A new dataset for the fitted pipeline: the fit-time columns, and a
    numerical column "Debt" the pipeline has never seen, with a gap. *)
Definition new_table : DataFrame :=
  mkFrame [0; 1; 2]
    [ mkSeries "Revenue" DtNumber (numbers [Some 2; Some 4; Some 6]%Z);
      mkSeries "Industry" DtObject (texts [Some "Energy"; Some "Finance"; Some "Energy"]);
      mkSeries "Debt" DtNumber (numbers [Some 7; None; Some 9]%Z) ].

Definition fitted_world_with_new_table : World :=
  with_heap (heap fitted_world ++ [new_table]) fitted_world.

(** The fit-time lists of [fitted_world], as a classification. *)
Definition fit_time_types : FeatureTypes :=
  mkFeatureTypes (mkFeatureCategories [] [] [] [] []) ["Revenue"] ["Industry"].

(** The variants returned by [transform] on [new_table]. *)
Definition new_table_variants : list (string * DataFrame) :=
  match snd (transform 3 fitted_world_with_new_table) with
  | Ok results => results
  | Raise _ => []
  end.

(** A table whose numerical column has no value at all. *)
Definition empty_revenue_table : DataFrame :=
  mkFrame [0; 1]
    [ mkSeries "Revenue" DtNumber (numbers [None; None]);
      mkSeries "Industry" DtObject (texts [Some "Energy"; None]) ].

(* ------------------------------------------------------------------ *)
(** ** Notions used to state further properties *)

(** Name and dtype of every column, in order: all that the classification
    reads of a dataframe. *)
Definition column_signature (frame : DataFrame) : list (string * dtype) :=
  map (fun s => (s_name s, s_dtype s)) (df_columns frame).

(** [new] keeps every value of [old]: same length, and a cell that holds a
    value in [old] holds the same value in [new]. *)
Definition keeps_values (old new : list cell) : Prop :=
  Forall2 (fun c c' => c = None \/ c' = c) old new.

(** Column by column, [new] has the name and the values of [old]; it has
    its dtype too, unless [old] had gaps and [new] is an object column. *)
Definition refines_frame (old new : DataFrame) : Prop :=
  df_index new = df_index old
  /\ Forall2 (fun s s' => s_name s' = s_name s
                          /\ (s_dtype s' = s_dtype s
                              \/ (s_dtype s' = DtObject
                                  /\ count_missing (s_cells s) <> 0))
                          /\ keeps_values (s_cells s) (s_cells s'))
             (df_columns old) (df_columns new).

(** The scaler class a recognized method name stands for. *)
Definition recognized_scaler (method : string) : option scaler_class :=
  if String.eqb method "standard" then Some StandardScaler
  else if String.eqb method "robust" then Some RobustScaler
  else if String.eqb method "minmax" then Some MinMaxScaler
  else None.

(** The keys of the reduction mapping under a configuration. *)
Definition reduction_keys (dr : ReductionConfig) : list string :=
  ((if apply_pca dr then ["pca"] else [])
   ++ (if apply_tsne dr then ["tsne"] else []))%list.

(** The default configuration with the given reduction settings. *)
Definition with_reduction (dr : ReductionConfig) (c : Config) : Config :=
  mkConfig (preprocessing c) dr (feature_categories c) (validation c).

Definition with_categorical_encoding (m : string) (c : Config) : Config :=
  mkConfig
    (let p := preprocessing c in
     mkPreprocessingConfig (missing_strategy_numerical p)
       (missing_strategy_categorical p) (scaling_method p)
       (apply_power_transform p) (power_transform_method p)
       (skewness_threshold p) m (drop_first_category p))
    (dimensionality_reduction c) (feature_categories c) (validation c).

(* ------------------------------------------------------------------ *)
(** ** Outcome-sensitive specifications

    [ends P m Post]: from a world satisfying [P], the computation [m] ends
    in a world and with an outcome related to the initial world by
    [Post]. *)

Definition ends {A} (P : World -> Prop) (m : M A)
    (Post : World -> World -> result A -> Prop) : Prop :=
  forall w, P w -> Post w (fst (m w)) (snd (m w)).

(** The fitted flag is the same in both worlds. *)
Definition flag_kept (w w' : World) : Prop :=
  fitted (self w') = fitted (self w).

Definition config_is (cfg : Config) (w : World) : Prop :=
  config (self w) = cfg.

(** [results'] is [results] after assignments to the keys [keys], in
    order. *)
Inductive assigned {V : Type} : list string -> list (string * V)
                                -> list (string * V) -> Prop :=
| assigned_nil : forall results, assigned [] results results
| assigned_cons : forall key keys v results results',
    assigned keys (dict_set key v results) results' ->
    assigned (key :: keys) results results'.

(** What [fit_transform] establishes: on a normal return the pipeline is
    fitted, the four feature-name lists are recorded, and the variants
    are those listed; on an exception the fitted flag is what it was. *)
Definition fit_transform_post (cfg : Config) (w w' : World)
    (outcome : result (list (string * DataFrame))) : Prop :=
  match outcome with
  | Ok results =>
      fitted (self w') = true
      /\ exists (numerical categorical encoded : list string) (has_encoded : bool),
           let combined := if has_encoded then (numerical ++ encoded)%list
                           else numerical in
           feature_names_ (self w')
           = [("numerical", numerical); ("categorical", categorical);
              ("categorical_encoded", encoded); ("combined", combined)]
           /\ dict_keys results
              = (["power_transformed"; "scaled"; "combined"]
                 ++ (if has_encoded then ["categorical_encoded"] else [])
                 ++ reduction_keys (dimensionality_reduction cfg)
                 ++ ["complete"])%list
           /\ (exists frame, dict_get "scaled" results = Some frame
                             /\ column_names frame = numerical)
           /\ (exists frame, dict_get "combined" results = Some frame
                             /\ column_names frame = combined)
  | Raise _ => fitted (self w') = fitted (self w)
  end.

(* ------------------------------------------------------------------ *)
(** ** [load_pipeline] *)

(** The file system as [load_pipeline] sees it.  It holds what the
    operations recorded in [disk] have put there: a path written by
    [joblib.dump] is a file holding the object dumped last; a path made
    by [mkdir(parents=True)], or lying above one, is a directory.  Paths
    are compared as written. *)
Inductive fs_entry : Type :=
| Absent
| Directory
| File (content : pickled).

Fixpoint last_dump (ops : list disk_op) (path : string) : option pickled :=
  match ops with
  | [] => None
  | op :: rest =>
      match last_dump rest path with
      | Some content => Some content
      | None =>
          match op with
          | Dump p content => if String.eqb p path then Some content else None
          | Mkdir _ => None
          end
      end
  end.

(** [setattr(self, name, value)] stores whatever object the file holds,
    of any class; the attributes of the receiving object are therefore kept
    as the objects themselves. *)
Record Attributes : Type := mkAttributes {
  attr_config : Config;
  attr_feature_names_ : list (string * list string);
  attr_preprocessing_log : list LogEntry;
  attr_fitted : bool;
  attr_power_transformer : option pickled;
  attr_scaler : option pickled;
  attr_categorical_encoder : option pickled;
  attr_pca : option pickled;
  attr_tsne : option pickled
}.

Definition attributes_of (p : Pipeline) : Attributes :=
  mkAttributes (config p) (feature_names_ p) (preprocessing_log p) (fitted p)
    (option_map PickledPowerTransformer (power_transformer p))
    (option_map PickledScaler (scaler p))
    (option_map PickledEncoder (categorical_encoder p))
    (option_map PickledPCA (pca p))
    (option_map PickledTSNE (tsne p)).

Definition setattr_component (a : Attributes) (name : string)
    (value : option pickled) : Attributes :=
  if String.eqb name "power_transformer" then
    mkAttributes (attr_config a) (attr_feature_names_ a)
      (attr_preprocessing_log a) (attr_fitted a)
      value (attr_scaler a) (attr_categorical_encoder a) (attr_pca a)
      (attr_tsne a)
  else if String.eqb name "scaler" then
    mkAttributes (attr_config a) (attr_feature_names_ a)
      (attr_preprocessing_log a) (attr_fitted a)
      (attr_power_transformer a) value (attr_categorical_encoder a)
      (attr_pca a) (attr_tsne a)
  else if String.eqb name "categorical_encoder" then
    mkAttributes (attr_config a) (attr_feature_names_ a)
      (attr_preprocessing_log a) (attr_fitted a)
      (attr_power_transformer a) (attr_scaler a) value (attr_pca a)
      (attr_tsne a)
  else if String.eqb name "pca" then
    mkAttributes (attr_config a) (attr_feature_names_ a)
      (attr_preprocessing_log a) (attr_fitted a)
      (attr_power_transformer a) (attr_scaler a)
      (attr_categorical_encoder a) value (attr_tsne a)
  else if String.eqb name "tsne" then
    mkAttributes (attr_config a) (attr_feature_names_ a)
      (attr_preprocessing_log a) (attr_fitted a)
      (attr_power_transformer a) (attr_scaler a)
      (attr_categorical_encoder a) (attr_pca a) value
  else a.

(** The exceptions [load_pipeline] meets, and [str(e)] of each. *)
Inductive load_exn : Type :=
| FileNotFoundError (path : string)
| IsADirectoryError (path : string)
| TypeError (msg : string).

Definition str_of (e : load_exn) : string :=
  match e with
  | FileNotFoundError path =>
      "[Errno 2] No such file or directory: '" ++ path ++ "'"
  | IsADirectoryError path => "[Errno 21] Is a directory: '" ++ path ++ "'"
  | TypeError msg => msg
  end.

(** [type(obj).__name__] of a loaded object *)
Definition type_name (obj : pickled) : string :=
  match obj with
  | PickledPipelineData _ _ _ _ => "dict"
  | PickledPowerTransformer _ => "PowerTransformer"
  | PickledScaler s => class_name (sc_class s)
  | PickledEncoder _ => "OneHotEncoder"
  | PickledPCA _ => "PCA"
  | PickledTSNE _ => "TSNE"
  end.

Definition components_to_load : list string :=
  ["power_transformer"; "scaler"; "categorical_encoder"; "pca"; "tsne"].

Section Loading.

Context {L : NumericLibraries}.

(** The directory made by [mkdir(parents=True)] and the directories above
    it; [Path.parent] is taken at most once per character of the path. *)
Fixpoint parents (fuel : nat) (p : string) : list string :=
  match fuel with
  | O => [p]
  | S fuel' => p :: parents fuel' (path_parent p)
  end.

Definition made_directory (ops : list disk_op) (path : string) : bool :=
  existsb (fun op => match op with
                     | Mkdir p => mem path (parents (String.length p) p)
                     | Dump _ _ => false
                     end) ops.

Definition fs_lookup (ops : list disk_op) (path : string) : fs_entry :=
  match last_dump ops path with
  | Some content => File content
  | None => if made_directory ops path then Directory else Absent
  end.

(** [Path(path).exists()] *)
Definition path_exists (ops : list disk_op) (path : string) : bool :=
  match fs_lookup ops path with
  | Absent => false
  | _ => true
  end.

(** [joblib.load(path)] *)
Definition joblib_load (ops : list disk_op) (path : string)
    : load_exn + pickled :=
  match fs_lookup ops path with
  | Absent => inl (FileNotFoundError path)
  | Directory => inl (IsADirectoryError path)
  | File content => inr content
  end.

(** The loop over [components_to_load]; an exception leaves the
    attributes set so far in place. *)
Fixpoint load_components (ops : list disk_op) (filepath : string)
    (names : list string) (a : Attributes) : Attributes * option load_exn :=
  match names with
  | [] => (a, None)
  | name :: rest =>
      let component_path := (filepath ++ "_" ++ name ++ ".pkl")%string in
      if path_exists ops component_path then
        match joblib_load ops component_path with
        | inr component =>
            load_components ops filepath rest
              (setattr_component a name (Some component))
        | inl e => (a, Some e)
        end
      else
        load_components ops filepath rest (setattr_component a name None)
  end.

(** [load_pipeline] reads the disk and writes the attributes of [self]
    and the logger; it returns the exception it re-raises, if any. *)
Definition load_pipeline (filepath : string) (ops : list disk_op)
    (a : Attributes) (log : list (log_level * string))
    : Attributes * list (log_level * string) * option load_exn :=
  let attempt :=
    match joblib_load ops (filepath ++ "_pipeline.pkl") with
    | inl e => (a, Some e)
    | inr (PickledPipelineData c names entries is_fitted) =>
        load_components ops filepath components_to_load
          (mkAttributes c names entries is_fitted
             (attr_power_transformer a) (attr_scaler a)
             (attr_categorical_encoder a) (attr_pca a) (attr_tsne a))
    | inr other =>
        (a, Some (TypeError ("'" ++ type_name other
                             ++ "' object is not subscriptable")))
    end in
  match attempt with
  | (a', None) =>
      (a', (log ++ [(INFO, ("Pipeline loaded from " ++ filepath)%string)])%list,
       None)
  | (a', Some e) =>
      (a',
       (log ++ [(ERROR, ("Failed to load pipeline from " ++ filepath ++ ": "
                         ++ str_of e)%string)])%list,
       Some e)
  end.

End Loading.

(** The names of the components [save_pipeline] does not write. *)
Definition name_if_none {A} (component : option A) (name : string)
    : list string :=
  match component with
  | Some _ => []
  | None => [name]
  end.

Definition unfitted_components (p : Pipeline) : list string :=
  (name_if_none (power_transformer p) "power_transformer"
   ++ name_if_none (scaler p) "scaler"
   ++ name_if_none (categorical_encoder p) "categorical_encoder"
   ++ name_if_none (pca p) "pca"
   ++ name_if_none (tsne p) "tsne")%list.

(** The operations a successful [save_pipeline] appends to the disk. *)
Definition component_file {A} (filepath name : string) (wrap : A -> pickled)
    (component : option A) : list disk_op :=
  match component with
  | Some c => [Dump (filepath ++ "_" ++ name ++ ".pkl") (wrap c)]
  | None => []
  end.

Definition saved_files (filepath : string) (p : Pipeline) : list disk_op :=
  ([Dump (filepath ++ "_pipeline.pkl")
         (PickledPipelineData (config p) (feature_names_ p)
                              (preprocessing_log p) (fitted p))]
   ++ component_file filepath "power_transformer" PickledPowerTransformer
                     (power_transformer p)
   ++ component_file filepath "scaler" PickledScaler (scaler p)
   ++ component_file filepath "categorical_encoder" PickledEncoder
                     (categorical_encoder p)
   ++ component_file filepath "pca" PickledPCA (pca p)
   ++ component_file filepath "tsne" PickledTSNE (tsne p))%list.

(* ------------------------------------------------------------------ *)
(** ** The entries of [validate_output], listed *)

Fixpoint last_char (s : string) : option ascii :=
  match s with
  | EmptyString => None
  | String c EmptyString => Some c
  | String _ rest => last_char rest
  end.

Definition no_missing_entries (results : list (string * DataFrame))
    : list (string * bool) :=
  map (fun item => ((fst item ++ "_no_missing")%string,
                    (total_missing (snd item) =? 0)%nat))
      (filter (fun item => negb (mem (fst item) ["tsne"])) results).

Definition shape_entries (cfg : Config) (results : list (string * DataFrame))
    : list (string * bool) :=
  if check_shape_consistency (validation cfg) then
    match results with
    | [] => []
    | (_, first) :: _ =>
        map (fun item => ((fst item ++ "_shape_consistent")%string,
                          (frame_len (snd item) =? frame_len first)%nat))
            results
    end
  else [].

Section ValidationEntries.

Context {L : NumericLibraries}.

Definition range_entries (p : Pipeline) (results : list (string * DataFrame))
    : list (string * bool) :=
  match dict_get "scaled" results with
  | Some scaled_data =>
      if check_feature_ranges (validation (config p))
         && is_standard_scaler (scaler p)
      then
        [("scaled_mean_centered",
          forallb (within_tenth 0%Q)
                  (map (fun s => series_mean (s_cells s))
                       (df_columns scaled_data)));
         ("scaled_unit_variance",
          forallb (within_tenth 1%Q)
                  (map (fun s => series_std (s_cells s))
                       (df_columns scaled_data)))]
      else []
  | None => []
  end.

End ValidationEntries.

(* ------------------------------------------------------------------ *)
(** ** Configuration files: [_deep_update] and [_load_config] *)

(** The objects [json.load] and [yaml.safe_load] return (mapping keys are
    strings, as in JSON). *)
#[local] Set Warnings "-register-all".

Inductive pyvalue : Type :=
| PyNone
| PyBool (b : bool)
| PyInt (z : Z)
| PyFloat (q : Q)
| PyStr (s : string)
| PyList (items : list pyvalue)
| PyDict (items : list (string * pyvalue)).

(** The exceptions met while a configuration file is merged; each carries
    the object the failing operation was applied to. *)
Inductive config_exn : Type :=
| NoItemsMethod (obj : pyvalue)      (** AttributeError: [obj.items()] *)
| NotIterable (obj : pyvalue)        (** TypeError: [key in obj] *)
| BadIndex (obj : pyvalue)           (** TypeError: [obj[key]] *)
| NoItemAssignment (obj : pyvalue)   (** TypeError: [obj[key] = value] *)
| MissingKey (key : string).         (** KeyError: [obj[key]] *)

Definition is_dict (value : pyvalue) : bool :=
  match value with
  | PyDict _ => true
  | _ => false
  end.

(** [key in s] for strings: the substring test *)
Fixpoint is_substring (key s : string) : bool :=
  String.prefix key s
  || match s with
     | EmptyString => false
     | String _ rest => is_substring key rest
     end.

(** [key in base_dict] *)
Definition contains (base_dict : pyvalue) (key : string) : config_exn + bool :=
  match base_dict with
  | PyDict d => inr (mem key (dict_keys d))
  | PyStr s => inr (is_substring key s)
  | PyList items =>
      inr (existsb (fun x => match x with
                             | PyStr s => String.eqb s key
                             | _ => false
                             end) items)
  | _ => inl (NotIterable base_dict)
  end.

(** [base_dict[key]] *)
Definition getitem (base_dict : pyvalue) (key : string)
    : config_exn + pyvalue :=
  match base_dict with
  | PyDict d =>
      match dict_get key d with
      | Some v => inr v
      | None => inl (MissingKey key)
      end
  | _ => inl (BadIndex base_dict)
  end.

(** [base_dict[key] = value]: the object afterwards, and the exception *)
Definition assign (base_dict : pyvalue) (key : string) (value : pyvalue)
    : pyvalue * option config_exn :=
  match base_dict with
  | PyDict d => (PyDict (dict_set key value d), None)
  | _ => (base_dict, Some (NoItemAssignment base_dict))
  end.

(** [base_dict] once the object stored under [key] has been updated in
    place to [updated] *)
Definition updated_in_place (base_dict : pyvalue) (key : string)
    (updated : pyvalue) : pyvalue :=
  match base_dict with
  | PyDict d => PyDict (dict_set key updated d)
  | _ => base_dict
  end.

(** [_deep_update] mutates [base_dict]; the model returns the object as
    the call leaves it, and the exception that ended the call, if any. *)
Fixpoint _deep_update (base_dict update_dict : pyvalue) {struct update_dict}
    : pyvalue * option config_exn :=
  match update_dict with
  | PyDict items =>
      (fix loop (items : list (string * pyvalue)) (base_dict : pyvalue)
           {struct items} : pyvalue * option config_exn :=
         match items with
         | [] => (base_dict, None)
         | (key, value) :: rest =>
             let step :=
               if is_dict value then
                 match contains base_dict key with
                 | inl e => (base_dict, Some e)
                 | inr true =>
                     match getitem base_dict key with
                     | inl e => (base_dict, Some e)
                     | inr sub =>
                         let (sub', outcome) := _deep_update sub value in
                         (updated_in_place base_dict key sub', outcome)
                     end
                 | inr false => assign base_dict key value
                 end
               else assign base_dict key value in
             match step with
             | (base_dict', None) => loop rest base_dict'
             | (base_dict', Some e) => (base_dict', Some e)
             end
         end) items base_dict
  | _ => (base_dict, Some (NoItemsMethod update_dict))
  end.

(** One turn of the loop of [_deep_update]. *)
Definition deep_update_item (base_dict : pyvalue) (key : string)
    (value : pyvalue) : pyvalue * option config_exn :=
  if is_dict value then
    match contains base_dict key with
    | inl e => (base_dict, Some e)
    | inr true =>
        match getitem base_dict key with
        | inl e => (base_dict, Some e)
        | inr sub =>
            let (sub', outcome) := _deep_update sub value in
            (updated_in_place base_dict key sub', outcome)
        end
    | inr false => assign base_dict key value
    end
  else assign base_dict key value.

Definition strs (names : list string) : pyvalue := PyList (map PyStr names).

(** The sections of the dictionary literal at the head of [_load_config]. *)
Definition default_sections : list (string * pyvalue) :=
    [ ("preprocessing",
       PyDict
         [ ("missing_strategy_numerical", PyStr "median");
           ("missing_strategy_categorical", PyStr "most_frequent");
           ("scaling_method", PyStr "standard");
           ("apply_power_transform", PyBool true);
           ("power_transform_method", PyStr "yeo-johnson");
           ("skewness_threshold", PyFloat 1%Q);
           ("categorical_encoding", PyStr "onehot");
           ("drop_first_category", PyBool true) ]);
      ("dimensionality_reduction",
       PyDict
         [ ("apply_pca", PyBool true);
           ("pca_n_components", PyFloat (95 # 100)%Q);
           ("pca_min_components", PyInt 5%Z);
           ("apply_tsne", PyBool true);
           ("tsne_n_components", PyInt 2%Z);
           ("tsne_perplexity", PyInt 30%Z);
           ("tsne_random_state", PyInt 42%Z) ]);
      ("feature_categories",
       PyDict
         [ ("financial_features",
            strs ["Revenue"; "ProfitMargin"; "MarketCap"; "GrowthRate"]);
           ("esg_features",
            strs ["ESG_Overall"; "ESG_Environmental"; "ESG_Social";
                  "ESG_Governance"]);
           ("environmental_features",
            strs ["CarbonEmissions"; "WaterUsage"; "EnergyConsumption"]);
           ("categorical_features", strs ["Industry"; "Region"]);
           ("identifier_features", strs ["CompanyID"; "CompanyName"; "Year"]) ]);
      ("validation",
       PyDict
         [ ("check_missing_values", PyBool true);
           ("check_feature_ranges", PyBool true);
           ("check_shape_consistency", PyBool true);
           ("log_transformations", PyBool true) ]);
      ("output",
       PyDict
         [ ("save_intermediate_steps", PyBool true);
           ("save_path", PyStr "../Data/");
           ("save_fitted_pipeline", PyBool true);
           ("pipeline_save_path", PyStr "../Models/") ]) ].

Definition default_config_dict : pyvalue := PyDict default_sections.

(** None, booleans and numbers: the objects that are neither containers
    nor strings. *)
Definition is_scalar (value : pyvalue) : bool :=
  match value with
  | PyNone | PyBool _ | PyInt _ | PyFloat _ => true
  | _ => false
  end.

(** [s.endswith(suffix)] *)
Definition endswith (s suffix : string) : bool :=
  (String.length suffix <=? String.length s)%nat
  && String.eqb (substring (String.length s - String.length suffix)
                           (String.length suffix) s)
                suffix.

Section ConfigFiles.

(** The files of the host: [Path(p).exists()]; opening [p] and parsing
    it with [yaml.safe_load] or [json.load], which gives the parsed object
    or the text of the exception raised; and [str(e)] for the exceptions
    of the merge. *)
Variable file_exists : string -> bool.
Variable yaml_safe_load : string -> string + pyvalue.
Variable json_load : string -> string + pyvalue.
Variable str_of_exn : config_exn -> string.

(** [_load_config] returns the configuration and writes to the logger;
    every exception is caught. *)
Definition _load_config (config_path : option string)
    : pyvalue * list (log_level * string) :=
  let default_config := default_config_dict in
  let use_default := [(INFO, "Using default configuration")] in
  match config_path with
  | Some path =>
      if negb (String.eqb path "") && file_exists path then
        let loaded :=
          if endswith path ".yaml" || endswith path ".yml"
          then yaml_safe_load path
          else json_load path in
        match loaded with
        | inl text =>
            (default_config,
             (WARNING, ("Failed to load config from " ++ path ++ ": "
                        ++ text)%string) :: use_default)
        | inr user_config =>
            match _deep_update default_config user_config with
            | (merged, None) =>
                (merged,
                 [(INFO, ("Configuration loaded from " ++ path)%string)])
            | (merged, Some e) =>
                (merged,
                 (WARNING, ("Failed to load config from " ++ path ++ ": "
                            ++ str_of_exn e)%string) :: use_default)
            end
        end
      else (default_config, use_default)
  | None => (default_config, use_default)
  end.

End ConfigFiles.

(* ------------------------------------------------------------------ *)
(** ** Further sample data *)

(** A configuration with both reductions switched off, and a pipeline
    fitted under it. *)
Definition no_reduction : ReductionConfig :=
  mkReductionConfig false (PcaFloat (95 # 100)%Q) 2%Z false 2%Z 30%Z 42%Z.

Definition unreduced_world : World :=
  fst (fit_transform 0
         (world_of (with_reduction no_reduction small_table_config)
                   [gappy_table])).

(** The same pipeline on a disk where [fitted_world] has been saved
    before, under the path used below. *)
Definition unreduced_world_over_old_files : World :=
  with_disk (disk (fst (save_pipeline "../Models/esg" fitted_world)))
            unreduced_world.

(** A new dataset that lacks the fit-time column "Revenue". *)
Definition table_without_revenue : DataFrame :=
  mkFrame [0; 1]
    [ mkSeries "Industry" DtObject (texts [Some "Energy"; Some "Finance"]) ].

Definition fitted_world_with_incomplete_table : World :=
  with_heap (heap fitted_world ++ [table_without_revenue]) fitted_world.

(** A table without the column "Revenue" whose category-typed column
    holds no value. *)
Definition unlabelled_table_without_revenue : DataFrame :=
  mkFrame [0; 1] [ mkSeries "Region" DtCategory (texts [None; None]) ].

Definition fitted_world_with_unlabelled_table : World :=
  with_heap (heap fitted_world ++ [unlabelled_table_without_revenue])
            fitted_world.

(** A matrix of three rows and one column. *)
Definition three_row_matrix : ndarray :=
  mkArray 3 [ numbers [Some 1; Some 2; Some 3]%Z ].

(** A fitted pipeline that holds no scaler. *)
Definition without_scaler (p : Pipeline) : Pipeline :=
  mkPipeline (config p) (feature_names_ p) (preprocessing_log p) (fitted p)
             (power_transformer p) None (categorical_encoder p) (pca p)
             (tsne p).

Definition scalerless_world : World :=
  with_self (without_scaler (self fitted_world_with_new_table))
            fitted_world_with_new_table.

(** The variants returned by fitting on [gappy_table]. *)
Definition gappy_table_variants : list (string * DataFrame) :=
  match snd (fit_transform 0 (world_of small_table_config [gappy_table])) with
  | Ok results => results
  | Raise _ => []
  end.

(** A user configuration that overrides one setting of the section
    "preprocessing", then gives a dictionary for a numeric setting. *)
Definition robust_scaling : list (string * pyvalue) :=
  [("scaling_method", PyStr "robust")].

Definition threshold_as_dictionary : string * pyvalue :=
  ("skewness_threshold", PyDict [("max", PyFloat 2%Q)]).

Definition no_power_transform : list (string * pyvalue) :=
  [("apply_power_transform", PyBool false)].

Definition default_preprocessing : list (string * pyvalue) :=
  match dict_get "preprocessing" default_sections with
  | Some (PyDict d) => d
  | _ => []
  end.

Definition broken_user_config : pyvalue :=
  PyDict [("preprocessing",
           PyDict (robust_scaling
                   ++ threshold_as_dictionary :: no_power_transform))].

Definition type_error_text (e : config_exn) : string :=
  match e with
  | NotIterable _ => "argument is not iterable"
  | NoItemAssignment _ => "object does not support item assignment"
  | _ => "error"
  end.

(* ================================================================== *)
(** * Properties *)

(** ** Store and list facts *)

Lemma nth_app_length {A} (l : list A) (x d : A) :
  nth (length l) (l ++ [x]) d = x.
Proof.
  induction l as [|y l IH]; simpl; auto.
Qed.

Lemma nth_app_below {A} (l l' : list A) (d : A) (n : nat) :
  n < length l -> nth n (l ++ l') d = nth n l d.
Proof.
  intros H. now apply app_nth1.
Qed.

Lemma update_nth_length {A} (n : nat) (x : A) (l : list A) :
  length (update_nth n x l) = length l.
Proof.
  revert n; induction l as [|y l IH]; intros [|n]; simpl; auto.
Qed.

Lemma nth_update_nth_same {A} (n : nat) (x d : A) (l : list A) :
  n < length l -> nth n (update_nth n x l) d = x.
Proof.
  revert n; induction l as [|y l IH]; intros [|n]; simpl; intros H;
    try lia; auto.
  apply IH; lia.
Qed.

Lemma nth_update_nth_other {A} (n m : nat) (x d : A) (l : list A) :
  n <> m -> nth m (update_nth n x l) d = nth m l d.
Proof.
  revert n m; induction l as [|y l IH]; intros [|n] [|m]; simpl; intros H;
    auto; try congruence.
Qed.

Lemma mem_In (x : string) (l : list string) : mem x l = true <-> In x l.
Proof.
  unfold mem. rewrite existsb_exists. split.
  - intros [y [Hy E]]. apply String.eqb_eq in E. now subst.
  - intros H. exists x. split; auto. apply String.eqb_refl.
Qed.

(** ** Imputation on a table without gaps *)

Lemma no_missing_features (df : DataFrame) :
  total_missing df = 0 ->
  filter (fun p : string * nat => (0 <? snd p)%nat) (isnull_sum df) = [].
Proof.
  unfold total_missing, isnull_sum.
  induction (df_columns df) as [|s cols IH]; simpl; auto.
  intros H.
  assert (H0 : count_missing (s_cells s) = 0) by lia.
  rewrite H0. simpl. apply IH. lia.
Qed.

Section Properties.

Context {L : NumericLibraries}.

(** C7: on a dataset with zero missing values the imputation stage returns
    a new dataframe object whose contents are exactly those of its input
    (same values, shape, row and column order), every other object is left
    as it was, and the stage records the log entry
    "Missing Values Check: No missing values found". *)
Theorem imputation_identity_without_missing :
  forall (w : World) (df : ref) (feature_types : FeatureTypes),
    total_missing (deref w df) = 0 ->
    let (w', outcome) := _handle_missing_values df feature_types w in
    outcome = Ok (length (heap w))
    /\ deref w' (length (heap w)) = deref w df
    /\ heap w' = (heap w ++ [deref w df])%list
    /\ preprocessing_log (self w')
       = (preprocessing_log (self w)
          ++ [mkLogEntry "Missing Values Check" "No missing values found"])%list
    /\ logger w'
       = (logger w
          ++ [(INFO, "Missing Values Check: No missing values found")])%list.
Proof.
  intros w df ft H.
  unfold _handle_missing_values, bind, copy, load. simpl.
  unfold deref at 1. simpl. rewrite nth_app_length.
  rewrite (no_missing_features _ H). simpl.
  unfold deref. simpl. rewrite nth_app_length. auto.
Qed.

(** C5: on a pipeline that has not been fitted, [transform] and
    [save_pipeline] raise a [ValueError] at once and leave the world -
    dataframes, pipeline attributes, log, estimator calls and disk -
    exactly as it was. *)
Theorem unfitted_transform_and_save_abort :
  forall (w : World) (df : ref) (filepath : string),
    fitted (self w) = false ->
    transform df w
    = (w, Raise (ValueError "Pipeline must be fitted before transforming new data"))
    /\ save_pipeline filepath w
       = (w, Raise (ValueError "Pipeline must be fitted before saving")).
Proof.
  intros w df filepath H.
  unfold transform, save_pipeline, bind, get_self, raise.
  rewrite H. simpl. split; reflexivity.
Qed.

End Properties.

Lemma imputation_identity_without_missing_witness :
  total_missing complete_table = 0
  /\ let w := world_of default_config [complete_table] in
     let (w', outcome) := _handle_missing_values 0 revenue_industry w in
     outcome = Ok 1
     /\ deref w' 1 = complete_table
     /\ heap w' = [complete_table; complete_table]
     /\ preprocessing_log (self w')
        = [mkLogEntry "Missing Values Check" "No missing values found"]
     /\ logger w' = [(INFO, "Missing Values Check: No missing values found")].
Proof.
  split; [reflexivity|].
  exact (@imputation_identity_without_missing reference_library
           (world_of default_config [complete_table]) 0 revenue_industry
           eq_refl).
Defined.

Lemma unfitted_transform_and_save_abort_witness :
  let w := world_of default_config [complete_table] in
  fitted (self w) = false
  /\ transform 0 w
     = (w, Raise (ValueError "Pipeline must be fitted before transforming new data"))
  /\ save_pipeline "../Models/esg" w
     = (w, Raise (ValueError "Pipeline must be fitted before saving")).
Proof.
  split; [reflexivity|].
  exact (@unfitted_transform_and_save_abort reference_library
           (world_of default_config [complete_table]) 0 "../Models/esg"
           eq_refl).
Defined.

(* ------------------------------------------------------------------ *)
(** ** Output validation *)

Section Validation.

Context {L : NumericLibraries}.

(** C8 (the code departs from the claim): when the missing-value check is
    switched off, [validate_output] returns the empty mapping at once,
    whatever the two other toggles say, and records nothing. *)
Theorem validate_output_returns_early_without_missing_check :
  forall (w : World) (results : list (string * DataFrame)),
    check_missing_values (validation (config (self w))) = false ->
    validate_output results w = (w, Ok []).
Proof.
  intros w results H.
  unfold validate_output, bind, get_config. simpl. rewrite H. reflexivity.
Qed.

End Validation.

Lemma validate_output_returns_early_without_missing_check_witness :
  let w := world_of (with_validation only_range_and_shape_checks default_config) [] in
  check_feature_ranges (validation (config (self w))) = true
  /\ check_shape_consistency (validation (config (self w))) = true
  /\ validate_output one_scaled_variant w = (w, Ok []).
Proof.
  split; [reflexivity|]. split; [reflexivity|].
  exact (@validate_output_returns_early_without_missing_check reference_library
           (world_of (with_validation only_range_and_shape_checks default_config) [])
           one_scaled_variant eq_refl).
Defined.

(** With all three toggles on, the same variant mapping gets its
    row-count entry. *)
Example validate_output_shape_entry_when_all_enabled :
  snd (validate_output one_scaled_variant (world_of default_config []))
  = Ok [("scaled_no_missing", true); ("scaled_shape_consistent", true)].
Proof. vm_compute. reflexivity. Qed.

(* ------------------------------------------------------------------ *)
(** ** Scaling *)

Section Scaling.

Context {L : NumericLibraries}.

(** A checked call records the call and ends as the estimator decides. *)
Lemma checked_call_run (c : sk_call) (w : World) :
  checked_call c w
  = (with_calls (estimator_calls w ++ [c]) w,
     match estimator_error c with
     | Some e => Raise e
     | None => Ok tt
     end).
Proof.
  unfold checked_call, bind, call, modify, raise, ret.
  destruct (estimator_error c); reflexivity.
Qed.

(** C9 (corrected): for every scaling-method name other than "standard",
    "robust" and "minmax" the scaling stage logs one warning naming the
    unknown method and fits one StandardScaler on the whole matrix.  When
    the scaler accepts the matrix, the stage returns the scaled matrix,
    of the shape of the input, with the fitted scaler; when the scaler
    rejects it, the stage raises the scaler's exception after the
    warning. *)
Theorem unknown_scaling_method_falls_back_to_standard :
  forall (w : World) (X : ndarray),
    let method := scaling_method (preprocessing (config (self w))) in
    method <> "standard" -> method <> "robust" -> method <> "minmax" ->
    let (w', outcome) := _apply_scaling X w in
    estimator_calls w'
    = (estimator_calls w ++ [ScalerFitTransform StandardScaler X])%list
    /\ match estimator_error (ScalerFitTransform StandardScaler X) with
       | None =>
           outcome = Ok (scaler_apply (mkScaler StandardScaler X) X,
                         mkScaler StandardScaler X)
           /\ shape (scaler_apply (mkScaler StandardScaler X) X) = shape X
           /\ logger w'
              = (logger w
                 ++ [(WARNING, ("Unknown scaling method: " ++ method
                                ++ ". Using StandardScaler.")%string);
                     (INFO, "Feature Scaling: Applied StandardScaler")])%list
       | Some e =>
           outcome = Raise e
           /\ logger w'
              = (logger w
                 ++ [(WARNING, ("Unknown scaling method: " ++ method
                                ++ ". Using StandardScaler.")%string)])%list
       end.
Proof.
  intros w X method H1 H2 H3.
  unfold _apply_scaling, bind, get_config. simpl. fold method.
  apply String.eqb_neq in H1, H2, H3. rewrite H1, H2, H3. simpl.
  rewrite checked_call_run.
  pose proof (scaler_fit_transform_shape StandardScaler X) as Hshape.
  destruct (estimator_error (ScalerFitTransform StandardScaler X)); simpl.
  - auto.
  - repeat split; auto. rewrite <- app_assoc. reflexivity.
Qed.

End Scaling.

Lemma unknown_scaling_method_falls_back_to_standard_witness :
  let w := world_of (with_scaling_method "zscore" default_config) [] in
  let (w', outcome) := _apply_scaling small_matrix w in
  estimator_calls w' = [ScalerFitTransform StandardScaler small_matrix]
  /\ outcome = Ok (small_matrix, mkScaler StandardScaler small_matrix)
  /\ shape small_matrix = (4, 2)
  /\ logger w'
     = [(WARNING, "Unknown scaling method: zscore. Using StandardScaler.");
        (INFO, "Feature Scaling: Applied StandardScaler")].
Proof.
  refine (@unknown_scaling_method_falls_back_to_standard reference_library
            (world_of (with_scaling_method "zscore" default_config) [])
            small_matrix _ _ _); discriminate.
Defined.

(** C9, the departure: under the method name "zscore" a matrix without
    rows makes the stage log the warning and then raise the ValueError of
    the StandardScaler; no matrix is returned. *)
Lemma unknown_scaling_method_raises_on_matrix_without_rows :
  let w := world_of (with_scaling_method "zscore" default_config) [] in
  let (w', outcome) := _apply_scaling empty_rows_matrix w in
  outcome
  = Raise (ValueError "Found array with 0 sample(s) (shape=(0, 2)) while a minimum of 1 is required by StandardScaler.")
  /\ logger w'
     = [(WARNING, "Unknown scaling method: zscore. Using StandardScaler.")]
  /\ estimator_calls w' = [ScalerFitTransform StandardScaler empty_rows_matrix].
Proof. vm_compute. repeat split. Qed.

(* ------------------------------------------------------------------ *)
(** ** Skew reduction *)



Section SkewReduction.

Context {L : NumericLibraries}.

Variable threshold : Q.



End SkewReduction.

Section PowerTransformation.

Context {L : NumericLibraries}.


End PowerTransformation.


(* ------------------------------------------------------------------ *)
(** ** Component count of the variance-targeted projection *)

Lemma Qle_bool_false (x y : Q) : ~ (x <= y)%Q -> Qle_bool x y = false.
Proof.
  intros H. destruct (Qle_bool x y) eqn:E; auto.
  apply Qle_bool_iff in E. contradiction.
Qed.


Lemma hd_filter_seq_least (f : nat -> bool) (n : nat) :
  forall start k : nat,
    hd_error (filter f (seq start n)) = Some k ->
    start <= k < start + n /\ f k = true
    /\ forall j, start <= j < k -> f j = false.
Proof.
  induction n as [|n IH]; intros start k H; simpl in H; [discriminate|].
  destruct (f start) eqn:Ef.
  - simpl in H. inversion H. subst k. repeat split; auto; lia.
  - apply IH in H. destruct H as (Hk & Hf & Hleast).
    repeat split; auto; try lia.
    intros j Hj. destruct (Nat.eq_dec j start) as [->|Hne]; auto.
    apply Hleast. lia.
Qed.

Lemma hd_filter_seq_none (f : nat -> bool) (n : nat) :
  forall start : nat,
    hd_error (filter f (seq start n)) = None ->
    forall j, start <= j < start + n -> f j = false.
Proof.
  induction n as [|n IH]; intros start H j Hj; simpl in H; [lia|].
  destruct (f start) eqn:Ef; [discriminate|].
  destruct (Nat.eq_dec j start) as [->|Hne]; auto.
  apply (IH (S start)); auto. lia.
Qed.

Section ComponentCount.

Context {L : NumericLibraries}.

Lemma nth_error_cumsum_from (l : list Q) :
  forall (acc : Q) (j : nat),
    j < length l ->
    nth_error (cumsum_from acc l) j
    = Some (fold_left float_add (firstn (S j) l) acc).
Proof.
  induction l as [|x l IH]; intros acc [|j] Hj; simpl in *; try lia; auto.
  apply IH. lia.
Qed.

Lemma nth_error_cumsum (l : list Q) (j : nat) :
  j < length l ->
  nth_error (cumsum l) j = Some (cumulative_variance l (S j)).
Proof.
  intros Hj. unfold cumsum, cumulative_variance.
  destruct l as [|x l]; simpl in *; [lia|].
  destruct j as [|j]; simpl; auto.
  apply nth_error_cumsum_from. lia.
Qed.

Lemma cumsum_from_length (l : list Q) :
  forall acc, length (cumsum_from acc l) = length l.
Proof.
  induction l as [|x l IH]; intros acc; simpl; auto.
Qed.

Lemma cumsum_length (l : list Q) : length (cumsum l) = length l.
Proof.
  destruct l as [|x l]; simpl; auto. now rewrite cumsum_from_length.
Qed.

(** The smallest reaching count is a count of the curve that reaches the
    target, and no smaller count does. *)
Lemma smallest_reaching_count_least (fraction : Q) (evr : list Q) (k : nat) :
  smallest_reaching_count fraction evr = Some k ->
  1 <= k <= length evr
  /\ (fraction <= cumulative_variance evr k)%Q
  /\ forall j, 1 <= j < k -> ~ (fraction <= cumulative_variance evr j)%Q.
Proof.
  unfold smallest_reaching_count. intros H.
  apply hd_filter_seq_least in H. destruct H as (Hk & Hf & Hleast).
  repeat split; try lia.
  - now apply Qle_bool_iff.
  - intros j Hj Hreach. apply Qle_bool_iff in Hreach.
    rewrite (Hleast j) in Hreach by lia. discriminate.
Qed.

Lemma smallest_reaching_count_none (fraction : Q) (evr : list Q) :
  smallest_reaching_count fraction evr = None ->
  forall k, 1 <= k <= length evr ->
            ~ (fraction <= cumulative_variance evr k)%Q.
Proof.
  unfold smallest_reaching_count. intros H k Hk Hreach.
  apply Qle_bool_iff in Hreach.
  rewrite (@hd_filter_seq_none _ _ _ H k) in Hreach by lia. discriminate.
Qed.





End ComponentCount.



(* ------------------------------------------------------------------ *)
(** ** Rules for [triple] *)

Section Rules.

Variable P : World -> Prop.
Variable R : World -> World -> Prop.
Hypothesis R_refl : forall w, R w w.
Hypothesis R_trans : forall w1 w2 w3, R w1 w2 -> R w2 w3 -> R w1 w3.

Lemma triple_ret {A} (a : A) (Q : A -> Prop) : Q a -> triple P R (ret a) Q.
Proof.
  intros H w Hw. simpl. repeat split; auto.
  intros a' E. inversion E. subst. exact H.
Qed.

Lemma triple_raise {A} (e : exn) (Q : A -> Prop) : triple P R (raise e) Q.
Proof.
  intros w Hw. simpl. repeat split; auto. discriminate.
Qed.

Lemma triple_lift {A} (r : result A) : triple P R (lift r) anything.
Proof.
  intros w Hw. simpl. repeat split; auto.
Qed.

Lemma triple_read {A} (f : World -> A) :
  triple P R (fun w => (w, Ok (f w))) anything.
Proof.
  intros w Hw. simpl. repeat split; auto.
Qed.

Lemma triple_modify (f : World -> World) :
  (forall w, P w -> P (f w) /\ R w (f w)) ->
  triple P R (modify f) anything.
Proof.
  intros H w Hw. simpl. destruct (H w Hw). repeat split; auto.
Qed.

Lemma triple_bind {A B} (m : M A) (k : A -> M B) (Q : A -> Prop)
    (Q' : B -> Prop) :
  triple P R m Q ->
  (forall a, Q a -> triple P R (k a) Q') ->
  triple P R (bind m k) Q'.
Proof.
  intros Hm Hk w Hw. unfold bind.
  destruct (Hm w Hw) as (HP & HR & HQ).
  destruct (m w) as [w1 [a|e]]; simpl in *.
  - destruct (Hk a (HQ a eq_refl) w1 HP) as (HP' & HR' & HQ').
    repeat split; eauto.
  - repeat split; auto. discriminate.
Qed.

Lemma triple_weaken {A} (m : M A) (Q Q' : A -> Prop) :
  triple P R m Q -> (forall a, Q a -> Q' a) -> triple P R m Q'.
Proof.
  intros Hm HQ w Hw. destruct (Hm w Hw) as (H1 & H2 & H3).
  repeat split; auto.
Qed.

Lemma triple_seq {A B} (m : M A) (k : A -> M B) (Q : A -> Prop)
    (Q' : B -> Prop) :
  triple P R m Q ->
  (forall a, triple P R (k a) Q') ->
  triple P R (bind m k) Q'.
Proof.
  intros Hm Hk. apply triple_bind with (Q := Q); auto.
Qed.

Lemma triple_for_each {A S} (body : A -> S -> M S) (xs : list A) :
  (forall x s, triple P R (body x s) anything) ->
  forall s, triple P R (for_each xs s body) anything.
Proof.
  intros Hbody. induction xs as [|x xs IH]; intros s; simpl.
  - apply triple_ret. exact I.
  - eapply triple_seq; [apply Hbody|]. intros s'. apply IH.
Qed.

End Rules.

(* ------------------------------------------------------------------ *)
(** ** The caller's dataframe is never written *)

Lemma firstn_update_nth {A} (n r : nat) (x : A) (l : list A) :
  n <= r -> firstn n (update_nth r x l) = firstn n l.
Proof.
  revert n r; induction l as [|y l IH]; intros [|n] [|r] H; simpl; auto;
    try lia.
  f_equal. apply IH. lia.
Qed.

Lemma firstn_app_keep {A} (n : nat) (l l' : list A) :
  n <= length l -> firstn n (l ++ l') = firstn n l.
Proof.
  intros H. rewrite firstn_app.
  replace (n - length l) with 0 by lia. simpl. apply app_nil_r.
Qed.

Lemma nth_firstn_below {A} (n r : nat) (l : list A) (d : A) :
  r < n -> nth r (firstn n l) d = nth r l d.
Proof.
  revert n r; induction l as [|y l IH]; intros [|n] [|r] H; simpl; auto;
    try lia.
  apply IH. lia.
Qed.

Lemma objects_kept_refl (n : nat) (w : World) : objects_kept n w w.
Proof. reflexivity. Qed.

Lemma objects_kept_trans (n : nat) (w1 w2 w3 : World) :
  objects_kept n w1 w2 -> objects_kept n w2 w3 -> objects_kept n w1 w3.
Proof. unfold objects_kept. congruence. Qed.

Lemma objects_kept_deref (n : nat) (w w' : World) (r : ref) :
  objects_kept n w w' -> r < n -> deref w' r = deref w r.
Proof.
  unfold objects_kept, deref. intros H Hr.
  rewrite <- (nth_firstn_below (heap w') empty_frame Hr), H.
  now apply nth_firstn_below.
Qed.

Section CallerFrame.

Context {L : NumericLibraries}.

Variable n : nat.

Lemma safe_same_heap (f : World -> World) :
  (forall w, heap (f w) = heap w) -> triple (allocated n) (objects_kept n) (modify f) anything.
Proof.
  intros H. apply triple_modify. intros w Hw.
  unfold allocated, objects_kept. rewrite H. auto.
Qed.

Lemma safe_copy (r : ref) : triple (allocated n) (objects_kept n) (copy r) (fun r' => n <= r').
Proof.
  intros w Hw. unfold allocated, objects_kept in *. simpl.
  rewrite length_app. simpl. repeat split; try lia.
  - now apply firstn_app_keep.
  - intros a E. inversion E. lia.
Qed.

Lemma safe_store (r : ref) (x : DataFrame) : n <= r -> triple (allocated n) (objects_kept n) (store r x) anything.
Proof.
  intros Hr. apply triple_modify. intros w Hw.
  unfold allocated, objects_kept in *. simpl.
  rewrite update_nth_length. split; auto.
  now apply firstn_update_nth.
Qed.

Lemma safe_read {A} (f : World -> A) : triple (allocated n) (objects_kept n) (fun w => (w, Ok (f w))) anything.
Proof. apply triple_read. apply objects_kept_refl. Qed.

Lemma safe_log_step (s d : string) : triple (allocated n) (objects_kept n) (_log_step s d) anything.
Proof.
  unfold _log_step, update_self, log_to.
  eapply triple_seq; [apply objects_kept_trans | |intros _];
    apply safe_same_heap; reflexivity.
Qed.

Lemma safe_identify_feature_types (df : ref) :
  triple (allocated n) (objects_kept n) (_identify_feature_types df) anything.
Proof.
  unfold _identify_feature_types.
  eapply triple_seq; [apply objects_kept_trans | apply safe_read | intros frame].
  eapply triple_seq; [apply objects_kept_trans | apply safe_read | intros cfg].
  eapply triple_seq; [apply objects_kept_trans | apply safe_log_step | intros _].
  apply triple_ret; [apply objects_kept_refl | exact I].
Qed.

End CallerFrame.

(** One step of a frame proof: decompose the computation, keep what is
    known about the addresses returned by [copy]. *)
Ltac safe_step :=
  lazymatch goal with
  | |- triple _ _ (bind (copy _) _) _ =>
      eapply triple_bind;
      [apply objects_kept_trans | apply safe_copy | cbv beta; intros ? ?]
  | |- triple _ _ (bind _ _) _ =>
      apply triple_seq with (Q := anything);
      [apply objects_kept_trans | | intros ? ]
  | |- triple _ _ (ret _) _ =>
      apply triple_ret;
      [apply objects_kept_refl | first [exact I | assumption]]
  | |- triple _ _ (raise _) _ => apply triple_raise; apply objects_kept_refl
  | |- triple _ _ (lift _) _ => apply triple_lift; apply objects_kept_refl
  | |- triple _ _ (load _) _ => apply safe_read
  | |- triple _ _ get_self _ => apply safe_read
  | |- triple _ _ get_config _ => apply safe_read
  | |- triple _ _ (store _ _) _ => apply safe_store; assumption
  | |- triple _ _ (_log_step _ _) _ => apply safe_log_step
  | |- triple _ _ (_identify_feature_types _) _ => apply safe_identify_feature_types
  | |- triple _ _ (log_to _ _) _ => apply safe_same_heap; reflexivity
  | |- triple _ _ (call _) _ => apply safe_same_heap; reflexivity
  | |- triple _ _ (checked_call _) _ => unfold checked_call
  | |- triple _ _ (update_self _) _ => apply safe_same_heap; reflexivity
  | |- triple _ _ (dump _ _) _ => apply safe_same_heap; reflexivity
  | |- triple _ _ (modify _) _ => apply safe_same_heap; reflexivity
  | |- triple _ _ (for_each _ _ _) _ =>
      apply triple_for_each;
      [apply objects_kept_refl | apply objects_kept_trans | intros ? ?]
  | |- triple _ _ (match ?x with _ => _ end) _ => destruct x
  | |- triple _ _ (let (_, _) := ?x in _) _ => destruct x
  end.

Section CallerFrameMethods.

Context {L : NumericLibraries}.

Variable n : nat.

Lemma safe_handle_missing_values (df : ref) (ft : FeatureTypes) :
  triple (allocated n) (objects_kept n) (_handle_missing_values df ft) (fun r => n <= r).
Proof.
  unfold _handle_missing_values, impute_column.
  repeat safe_step.
Qed.

End CallerFrameMethods.

Ltac safe_method :=
  lazymatch goal with
  | |- triple _ _ (bind (_handle_missing_values _ _) _) _ =>
      eapply triple_bind;
      [apply objects_kept_trans | apply safe_handle_missing_values
      | cbv beta; intros ? ?]
  | _ => safe_step
  end.

Section CallerFrameTheorem.

Context {L : NumericLibraries}.

Lemma safe_fit_transform (n : nat) (df : ref) :
  triple (allocated n) (objects_kept n) (fit_transform df) anything.
Proof.
  unfold fit_transform, _apply_power_transformation, _apply_scaling,
    _encode_categorical_features, _apply_dimensionality_reduction,
    pca_stage, tsne_stage, store_reduction, add_columns.
  repeat safe_method.
Qed.

Lemma safe_transform (n : nat) (df : ref) :
  triple (allocated n) (objects_kept n) (transform df) anything.
Proof.
  unfold transform, apply_fitted_stages, feature_names_of.
  repeat safe_method.
Qed.

(** C10: [fit_transform] and [transform] leave every dataframe object that
    exists when they are called - the caller's dataframe in particular -
    with the contents it had: same index, same columns, same values and
    same missing entries, whether the call returns or raises. *)
Theorem caller_dataframe_unchanged :
  forall (w : World) (df : ref),
    df < length (heap w) ->
    deref (fst (fit_transform df w)) df = deref w df
    /\ deref (fst (transform df w)) df = deref w df.
Proof.
  intros w df Hdf. split.
  - destruct (@safe_fit_transform (length (heap w)) df w) as (_ & H & _).
    + unfold allocated. lia.
    + now apply (objects_kept_deref H).
  - destruct (@safe_transform (length (heap w)) df w) as (_ & H & _).
    + unfold allocated. lia.
    + now apply (objects_kept_deref H).
Qed.

End CallerFrameTheorem.

(* ------------------------------------------------------------------ *)
(** ** Stages that fit nothing *)

Lemma quiet_refl (w : World) : quiet w w.
Proof. unfold quiet. auto. Qed.

Lemma quiet_trans (w1 w2 w3 : World) : quiet w1 w2 -> quiet w2 w3 -> quiet w1 w3.
Proof. unfold quiet. intuition congruence. Qed.

Lemma read_only_refl (w : World) : read_only w w.
Proof. unfold read_only. auto. Qed.

Lemma read_only_trans (w1 w2 w3 : World) :
  read_only w1 w2 -> read_only w2 w3 -> read_only w1 w3.
Proof. unfold read_only. intuition congruence. Qed.

Lemma quiet_read_only (w w' : World) : quiet w w' -> read_only w w'.
Proof. unfold quiet, read_only. intuition congruence. Qed.

Lemma triple_relax {A} (P : World -> Prop) (R R' : World -> World -> Prop)
    (m : M A) (Q : A -> Prop) :
  (forall w w', R w w' -> R' w w') -> triple P R m Q -> triple P R' m Q.
Proof.
  intros HR Hm w Hw. destruct (Hm w Hw) as (H1 & H2 & H3). auto.
Qed.

Lemma triple_copy (R : World -> World -> Prop) (r : ref) :
  (forall w h, R w (with_heap h w)) ->
  triple no_invariant R (copy r) (@anything ref).
Proof.
  intros H w _. simpl. repeat split; auto.
Qed.

(** One step of a proof that a computation stays within a reflexive and
    transitive relation; [leaf] closes the primitive updates. *)
Ltac rel_step refl trans leaf :=
  lazymatch goal with
  | |- triple _ _ (bind _ _) _ =>
      apply triple_seq with (Q := anything); [apply trans | | intros ? ]
  | |- triple _ _ (ret _) _ => apply triple_ret; [apply refl | exact I]
  | |- triple _ _ (raise _) _ => apply triple_raise; apply refl
  | |- triple _ _ (lift _) _ => apply triple_lift; apply refl
  | |- triple _ _ (load _) _ => apply triple_read; apply refl
  | |- triple _ _ get_self _ => apply triple_read; apply refl
  | |- triple _ _ get_config _ => apply triple_read; apply refl
  | |- triple _ _ (copy _) _ => apply triple_copy; intros ? ?; leaf
  | |- triple _ _ (for_each _ _ _) _ =>
      apply triple_for_each; [apply refl | apply trans | intros ? ?]
  | |- triple _ _ (match ?x with _ => _ end) _ => destruct x
  | |- triple _ _ (let (_, _) := ?x in _) _ => destruct x
  | |- triple _ _ _ _ =>
      apply triple_modify; intros ? _; split; [exact I | leaf]
  end.

Ltac quiet_leaf := unfold quiet; simpl; auto.

Ltac read_only_leaf :=
  unfold read_only; simpl; rewrite ?filter_app; simpl; rewrite ?app_nil_r; auto.

Section QuietStages.

Context {L : NumericLibraries}.

Lemma quiet_log_step (s d : string) :
  triple no_invariant quiet (_log_step s d) anything.
Proof.
  unfold _log_step. repeat rel_step quiet_refl quiet_trans quiet_leaf.
Qed.

Lemma quiet_identify_feature_types (df : ref) :
  triple no_invariant quiet (_identify_feature_types df) anything.
Proof.
  unfold _identify_feature_types, _log_step.
  repeat rel_step quiet_refl quiet_trans quiet_leaf.
Qed.

Lemma quiet_handle_missing_values (df : ref) (ft : FeatureTypes) :
  triple no_invariant quiet (_handle_missing_values df ft) anything.
Proof.
  unfold _handle_missing_values, impute_column, _log_step.
  repeat rel_step quiet_refl quiet_trans quiet_leaf.
Qed.

(** [transform] only reads what fitting established: whatever the
    outcome, the fitted attributes of the pipeline (feature-name lists,
    estimators, flag, configuration) are the same afterwards, no estimator
    is fitted and nothing is written to disk. *)
Lemma transform_read_only (df : ref) :
  triple no_invariant read_only (transform df) anything.
Proof.
  unfold transform, apply_fitted_stages, feature_names_of.
  repeat
    lazymatch goal with
    | |- triple _ _ (bind (_identify_feature_types _) _) _ =>
        apply triple_seq with (Q := anything);
        [apply read_only_trans
        | eapply triple_relax; [apply quiet_read_only | apply quiet_identify_feature_types]
        | intros ?]
    | |- triple _ _ (bind (_handle_missing_values _ _) _) _ =>
        apply triple_seq with (Q := anything);
        [apply read_only_trans
        | eapply triple_relax; [apply quiet_read_only | apply quiet_handle_missing_values]
        | intros ?]
    | _ => rel_step read_only_refl read_only_trans read_only_leaf
    end.
Qed.

End QuietStages.

(* ------------------------------------------------------------------ *)
(** ** What the imputation loops compute *)

Lemma update_nth_twice {A} (n : nat) (x y : A) (l : list A) :
  update_nth n x (update_nth n y l) = update_nth n x l.
Proof.
  revert n; induction l as [|z l IH]; intros [|n]; simpl; auto.
  now rewrite IH.
Qed.

Lemma update_nth_same {A} (n : nat) (l : list A) (d : A) :
  n < length l -> update_nth n (nth n l d) l = l.
Proof.
  revert n; induction l as [|z l IH]; intros [|n] H; simpl in *; auto; try lia.
  rewrite IH; auto. lia.
Qed.

Lemma update_nth_app_length {A} (l : list A) (x y : A) :
  update_nth (length l) y (l ++ [x]) = (l ++ [y])%list.
Proof.
  induction l as [|z l IH]; simpl; auto. now rewrite IH.
Qed.

Lemma bind_run {A B} (m : M A) (k : A -> M B) (w w1 : World) (a : A) :
  m w = (w1, Ok a) -> bind m k w = k a w1.
Proof.
  intros H. unfold bind. now rewrite H.
Qed.

Lemma bind_raise {A B} (m : M A) (k : A -> M B) (w w1 : World) (e : exn) :
  m w = (w1, Raise e) -> bind m k w = (w1, Raise e).
Proof.
  intros H. unfold bind. now rewrite H.
Qed.

Lemma fillna_column_names (col : string) (v : cell) (frame : DataFrame) :
  column_names (fillna_column col v frame) = column_names frame.
Proof.
  unfold column_names, fillna_column. simpl. rewrite map_map.
  apply map_ext. intros s. now destruct (s_name s =? col)%string.
Qed.

Lemma fill_step_names (fill : string -> Series -> cell) (strategy : string)
    (frame : DataFrame) (col : string) :
  column_names (fill_step fill strategy frame col) = column_names frame.
Proof.
  unfold fill_step. destruct (get_column frame col); auto.
  apply fillna_column_names.
Qed.

Lemma fold_fill_step_names (fill : string -> Series -> cell) (strategy : string)
    (cols : list string) :
  forall frame,
    column_names (fold_left (fill_step fill strategy) cols frame)
    = column_names frame.
Proof.
  induction cols as [|c cols IH]; intros frame; simpl; auto.
  now rewrite IH, fill_step_names.
Qed.


Lemma with_heap_same (w : World) : with_heap (heap w) w = w.
Proof. now destruct w. Qed.

Section ImputationLoops.

Context {L : NumericLibraries}.

Variable fill : string -> Series -> cell.
Variable df_clean : ref.
Variable strategy : string.

Lemma impute_column_run (w : World) (col : string) missing_info :
  impute_column fill df_clean strategy col missing_info w
  = match fill_step_error fill strategy (deref w df_clean) col with
    | Some e => (w, Raise e)
    | None =>
        (with_heap
           (update_nth df_clean (fill_step fill strategy (deref w df_clean) col)
                       (heap w)) w,
         Ok (dict_set col
               (strategy,
                match get_column (deref w df_clean) col with
                | Some s => fill strategy s
                | None => None
                end) missing_info))
    end.
Proof.
  unfold impute_column, fill_step_error, fill_step, bind, load.
  destruct (get_column (deref w df_clean) col) as [s|]; [|reflexivity].
  destruct (fillna_error s (fill strategy s)); reflexivity.
Qed.

(** A loop leaves in [df_clean] the frame of [fill_loop] and ends with its
    exception, if it has one. *)
Lemma impute_loop (cols : list string) :
  forall (w : World) missing_info,
    df_clean < length (heap w) ->
    exists outcome,
      for_each cols missing_info (impute_column fill df_clean strategy) w
      = (with_heap
           (update_nth df_clean
              (fst (fill_loop fill strategy cols (deref w df_clean)))
              (heap w)) w,
         outcome)
      /\ match snd (fill_loop fill strategy cols (deref w df_clean)) with
         | Some e => outcome = Raise e
         | None => exists missing_info', outcome = Ok missing_info'
         end.
Proof.
  induction cols as [|c cols IH]; intros w mi Hlive; simpl.
  - exists (Ok mi). unfold ret, deref. rewrite update_nth_same by assumption.
    rewrite with_heap_same. eauto.
  - unfold bind. rewrite impute_column_run.
    destruct (fill_step_error fill strategy (deref w df_clean) c) as [e|]; simpl.
    + exists (Raise e). unfold deref. rewrite update_nth_same by assumption.
      rewrite with_heap_same. auto.
    + set (frame1 := fill_step fill strategy (deref w df_clean) c).
      set (w1 := with_heap (update_nth df_clean frame1 (heap w)) w).
      assert (Hderef : deref w1 df_clean = frame1).
      { unfold deref, w1. simpl. now apply nth_update_nth_same. }
      destruct (IH w1 (dict_set c
                         (strategy,
                          match get_column (deref w df_clean) c with
                          | Some s => fill strategy s
                          | None => None
                          end) mi)) as (outcome & E & Hout).
      { unfold w1. simpl. now rewrite update_nth_length. }
      exists outcome. rewrite E, Hderef in *. split; [|exact Hout].
      unfold w1, with_heap. simpl. now rewrite update_nth_twice.
Qed.

End ImputationLoops.

Lemma fill_loop_no_error (fill : string -> Series -> cell) (strategy : string)
    (cols : list string) :
  forall frame : DataFrame,
    snd (fill_loop fill strategy cols frame) = None ->
    fst (fill_loop fill strategy cols frame)
    = fold_left (fill_step fill strategy) cols frame.
Proof.
  induction cols as [|c cols IH]; intros frame H; simpl in *; auto.
  destruct (fill_step_error fill strategy frame c); [discriminate|].
  now apply IH.
Qed.


Unset Implicit Arguments.

Section ImputationRun.
Context {L : NumericLibraries}.

Lemma log_step_run (s d : string) (w : World) :
  exists w', _log_step s d w = (w', Ok tt)
    /\ heap w' = heap w /\ config (self w') = config (self w).
Proof.
  eexists. split; [reflexivity|]. simpl. auto.
Qed.

Lemma impute_block (fill : string -> Series -> cell)
    (strategy_of : Config -> string) (df_clean : ref) (cols : list string)
    (w : World) missing_info :
  df_clean < length (heap w) ->
  exists outcome,
    match cols with
    | [] => ret missing_info
    | _ => cfg <- get_config ;;
           for_each cols missing_info
                    (impute_column fill df_clean (strategy_of cfg))
    end w
    = (with_heap
         (update_nth df_clean
            (fst (fill_loop fill (strategy_of (config (self w))) cols
                            (deref w df_clean)))
            (heap w)) w,
       outcome)
    /\ match snd (fill_loop fill (strategy_of (config (self w))) cols
                            (deref w df_clean)) with
       | Some e => outcome = Raise e
       | None => exists missing_info', outcome = Ok missing_info'
       end.
Proof.
  intros Hlive.
  destruct cols as [|c cols].
  - exists (Ok missing_info). simpl. unfold ret, deref.
    rewrite update_nth_same by assumption. rewrite with_heap_same. eauto.
  - erewrite bind_run by (unfold get_config; reflexivity).
    now apply impute_loop.
Qed.


(** Without an exception the two loops compute [impute_frame]. *)
Lemma impute_outcome_no_error (cfg : Config) (ft : FeatureTypes)
    (frame : DataFrame) :
  imputation_error cfg ft frame = None ->
  fst (impute_outcome cfg ft frame) = impute_frame cfg ft frame.
Proof.
  unfold imputation_error, impute_outcome, impute_frame.
  pose proof (fill_loop_no_error numerical_fill_value
                (missing_strategy_numerical (preprocessing cfg))
                (filter (fun col => mem col (numerical_features ft))
                        (missing_features_of frame)) frame) as H1.
  destruct (fill_loop numerical_fill_value _ _ frame) as [frame1 [e|]];
    simpl in *; [discriminate|].
  intros H. rewrite <- H1 by reflexivity.
  now apply fill_loop_no_error.
Qed.

(** The stage copies the dataframe, runs the two loops on the copy and
    returns the copy, or ends with the exception of a [fillna]. *)
Lemma handle_missing_values_run (w : World) (df : ref) (ft : FeatureTypes) :
  exists w',
    _handle_missing_values df ft w
    = (w', match imputation_error (config (self w)) ft (deref w df) with
           | Some e => Raise e
           | None => Ok (length (heap w))
           end)
    /\ heap w'
       = (heap w ++ [fst (impute_outcome (config (self w)) ft (deref w df))])%list.
Proof.
  unfold _handle_missing_values, imputation_error.
  erewrite bind_run by (unfold copy; reflexivity).
  erewrite bind_run by (unfold load; reflexivity).
  set (w1 := with_heap (heap w ++ [deref w df]) w).
  assert (Hd : deref w1 (length (heap w)) = deref w df).
  { unfold deref, w1. simpl. apply nth_app_length. }
  rewrite Hd.
  fold (missing_features_of (deref w df)).
  set (frame := deref w df) in *.
  set (dfc := length (heap w)) in *.
  assert (Hlive1 : dfc < length (heap w1)).
  { unfold w1, dfc. simpl. rewrite length_app. simpl. lia. }
  assert (Hput : forall F, update_nth dfc F (heap w1) = (heap w ++ [F])%list).
  { intros F. unfold w1, dfc. simpl. apply update_nth_app_length. }
  destruct (0 <? length (filter (fun p : string * nat => (0 <? snd p)%nat)
                           (isnull_sum frame)))%nat eqn:Hany.
  - (* some column has missing values *)
    destruct (log_step_run "Missing Values Detection"
                ("Found missing values in "
                 ++ str_of_nat (length (filter (fun p : string * nat => (0 <? snd p)%nat)
                                          (isnull_sum frame)))
                 ++ " features") w1) as (w2 & E2 & Hh2 & Hc2).
    assert (Hd2 : deref w2 dfc = frame).
    { unfold deref. rewrite Hh2. exact Hd. }
    destruct (impute_block numerical_fill_value
                (fun cfg => missing_strategy_numerical (preprocessing cfg)) dfc
                (filter (fun col => mem col (numerical_features ft))
                        (missing_features_of frame)) w2 [])
      as (o3 & E3 & H3).
    { now rewrite Hh2. }
    rewrite Hd2, Hc2 in E3, H3. change (config (self w1)) with (config (self w)) in *.
    unfold impute_outcome. fold frame.
    destruct (fill_loop numerical_fill_value
                (missing_strategy_numerical (preprocessing (config (self w))))
                (filter (fun col => mem col (numerical_features ft))
                        (missing_features_of frame)) frame)
      as [frame1 [e1|]]; simpl in E3, H3.
    + (* a numerical column cannot be filled *)
      subst o3. cbn [fst snd]. eexists. split.
      * apply bind_raise.
        erewrite bind_run by exact E2.
        apply bind_raise. exact E3.
      * simpl. rewrite Hh2. apply Hput.
    + destruct H3 as [mi1 ->].
      set (w3 := with_heap (update_nth dfc frame1 (heap w2)) w2) in E3.
      assert (Hd3 : deref w3 dfc = frame1).
      { unfold deref, w3. simpl. apply nth_update_nth_same. now rewrite Hh2. }
      destruct (impute_block categorical_fill_value
                  (fun cfg => missing_strategy_categorical (preprocessing cfg)) dfc
                  (filter (fun col => mem col (categorical_features_available ft))
                          (missing_features_of frame)) w3 mi1)
        as (o4 & E4 & H4).
      { unfold w3. simpl. now rewrite update_nth_length, Hh2. }
      rewrite Hd3 in E4, H4.
      change (config (self w3)) with (config (self w2)) in *.
      rewrite Hc2 in E4, H4. change (config (self w1)) with (config (self w)) in *.
      destruct (fill_loop categorical_fill_value
                  (missing_strategy_categorical (preprocessing (config (self w))))
                  (filter (fun col => mem col (categorical_features_available ft))
                          (missing_features_of frame)) frame1)
        as [frame2 [e2|]]; simpl in E4, H4.
      * (* a categorical column cannot be filled *)
        subst o4. cbn [fst snd]. eexists. split.
        -- apply bind_raise.
           erewrite bind_run by exact E2.
           erewrite bind_run by exact E3.
           apply bind_raise. exact E4.
        -- simpl. rewrite update_nth_twice, Hh2. apply Hput.
      * destruct H4 as [mi2 ->].
        set (w4 := with_heap (update_nth dfc frame2 (heap w3)) w3) in E4.
        destruct (log_step_run "Missing Values Handling"
                    ("Imputed " ++ str_of_nat (length mi2) ++ " features: "
                     ++ repr_list (dict_keys mi2)) w4) as (w5 & E5 & Hh5 & Hc5).
        cbn [fst snd]. exists w5. split.
        -- erewrite bind_run; [reflexivity|].
           erewrite bind_run by exact E2.
           erewrite bind_run by exact E3.
           erewrite bind_run by exact E4.
           exact E5.
        -- rewrite Hh5. unfold w4, w3. simpl.
           rewrite update_nth_twice, Hh2. apply Hput.
  - (* no missing values *)
    destruct (log_step_run "Missing Values Check" "No missing values found" w1)
      as (w2 & E2 & Hh2 & Hc2).
    assert (Hnone : missing_features_of frame = []).
    { unfold missing_features_of.
      destruct (filter _ (isnull_sum frame)); [reflexivity|discriminate]. }
    unfold impute_outcome. rewrite Hnone. simpl.
    exists w2. split.
    + erewrite bind_run; [reflexivity|]. exact E2.
    + rewrite Hh2. reflexivity.
Qed.
End ImputationRun.

(* ------------------------------------------------------------------ *)
(** ** Columns after imputation *)



Lemma get_column_name (frame : DataFrame) (c : string) (s : Series) :
  get_column frame c = Some s -> s_name s = c /\ In s (df_columns frame).
Proof.
  unfold get_column. intros H. apply find_some in H.
  destruct H as [Hin E]. apply String.eqb_eq in E. auto.
Qed.






Section FillSteps.

Variable fill : string -> Series -> cell.
Variable strategy : string.











Lemma fold_fill_index (cols : list string) :
  forall frame : DataFrame,
    df_index (fold_left (fill_step fill strategy) cols frame) = df_index frame.
Proof.
  induction cols as [|col cols IH]; intros frame; simpl; auto.
  rewrite IH. unfold fill_step. now destruct (get_column frame col).
Qed.

End FillSteps.



Section ImputationColumns.

Context {L : NumericLibraries}.

Variable cfg : Config.
Variable ft : FeatureTypes.


Lemma impute_frame_shape (frame : DataFrame) :
  df_index (impute_frame cfg ft frame) = df_index frame
  /\ column_names (impute_frame cfg ft frame) = column_names frame.
Proof.
  unfold impute_frame. split.
  - now rewrite !fold_fill_index.
  - now rewrite !fold_fill_step_names.
Qed.

End ImputationColumns.


Section ImputationTheorem.

Context {L : NumericLibraries}.


End ImputationTheorem.


(** The TypeError of C2 (amended): under the default "most_frequent"
    strategy a category-typed column without any value has no mode; the
    fill value 'Unknown' is not one of its categories and [fillna]
    raises. *)
Example imputation_raises_on_category_column_without_mode :
  match _identify_feature_types 0 (world_of default_config [unlabelled_region_table]) with
  | (w1, Ok feature_types) =>
      categorical_features_available feature_types = ["Region"]
      /\ snd (_handle_missing_values 0 feature_types w1)
         = Raise (PandasTypeError "Cannot setitem on a Categorical with a new category, set the categories first")
  | (_, Raise _) => False
  end.
Proof. vm_compute. auto. Qed.


(** A numerical column without any value has no median: under the default
    "median" strategy its fill value is NaN and its gaps stay, while the
    categorical column of the same table is filled. *)
Example imputation_keeps_column_without_values :
  match _handle_missing_values 0 revenue_industry
          (world_of default_config [empty_revenue_table]) with
  | (w', Ok df_clean) =>
      isnull_sum (deref w' df_clean) = [("Revenue", 2); ("Industry", 0)]
  | (_, Raise _) => False
  end.
Proof. vm_compute. reflexivity. Qed.

(* ------------------------------------------------------------------ *)
(** ** [transform] on a fitted pipeline *)

Lemma map_fst_combine {A B} (l : list A) :
  forall l' : list B, length l = length l' -> map fst (combine l l') = l.
Proof.
  induction l as [|x l IH]; intros [|y l'] H; simpl in *; try discriminate; auto.
  f_equal. apply IH. lia.
Qed.

Lemma make_frame_names (X : ndarray) (columns : list string) (index : list nat)
    (frame : DataFrame) :
  make_frame X columns index = Ok frame ->
  column_names frame = columns /\ df_index frame = index.
Proof.
  unfold make_frame.
  destruct (length columns =? width X)%nat eqn:E; simpl; try discriminate.
  destruct (length index =? n_rows X)%nat; simpl; try discriminate.
  intros H. inversion H. subst. unfold column_names. simpl. split; auto.
  rewrite map_map. simpl. apply Nat.eqb_eq in E.
  rewrite <- (map_fst_combine columns (col_data X)) at 2 by exact E.
  reflexivity.
Qed.

Lemma unique_column (columns : list Series) (c : string) :
  NoDup (map s_name columns) ->
  In c (map s_name columns) ->
  map s_name (filter (fun s => String.eqb (s_name s) c) columns) = [c].
Proof.
  induction columns as [|s columns IH]; simpl; intros Hnd Hin; [tauto|].
  inversion Hnd as [|? ? Hnotin Hnd']. subst.
  destruct (String.eqb_spec (s_name s) c) as [E|Hne].
  - simpl. rewrite E. f_equal.
    assert (Hnone : forall l, ~ In c (map s_name l) ->
                      filter (fun s0 => String.eqb (s_name s0) c) l = []).
    { induction l as [|t l IHl]; simpl; auto. intros Hl.
      destruct (String.eqb_spec (s_name t) c); [tauto|]. apply IHl. tauto. }
    rewrite Hnone; auto. now rewrite <- E.
  - apply IH; auto. destruct Hin; [contradiction|auto].
Qed.

(** On a dataframe with distinct column names, [df[names]] has exactly the
    columns [names], in that order. *)
Lemma select_columns_names (frame selected : DataFrame) (names : list string) :
  NoDup (column_names frame) ->
  select_columns frame names = Ok selected ->
  column_names selected = names /\ df_index selected = df_index frame.
Proof.
  unfold select_columns, column_names. intros Hnd.
  destruct (filter _ names) as [|m ms] eqn:Hmissing; try discriminate.
  intros H. inversion H. subst. simpl. split; auto.
  assert (Hall : forall c, In c names -> In c (map s_name (df_columns frame))).
  { intros c Hc. apply mem_In.
    destruct (mem c (map s_name (df_columns frame))) eqn:E; auto.
    assert (Hin : In c (filter (fun c0 => negb (mem c0 (map s_name (df_columns frame))))
                           names)).
    { apply filter_In. split; auto. unfold column_names. now rewrite E. }
    unfold column_names in Hmissing. rewrite Hmissing in Hin. destruct Hin. }
  clear Hmissing H.
  induction names as [|c names IH]; simpl; auto.
  rewrite map_app, unique_column; auto.
  - simpl. f_equal. apply IH. intros c' Hc'. apply Hall. now right.
  - apply Hall. now left.
Qed.

Lemma filter_refines {A} (f g : A -> bool) (l l' : list A) :
  (forall x, f x = true -> g x = true) ->
  filter g l' = filter g l -> filter f l' = filter f l.
Proof.
  intros Hfg Hg.
  assert (Hff : forall k, filter f (filter g k) = filter f k).
  { induction k as [|x k IH]; simpl; auto.
    destruct (g x) eqn:Eg; simpl.
    - now rewrite IH.
    - destruct (f x) eqn:Ef; auto. apply Hfg in Ef. congruence. }
  rewrite <- (Hff l'), <- (Hff l). now rewrite Hg.
Qed.

Ltac split_match H :=
  match type of H with
  | context [match ?x with _ => _ end] =>
      lazymatch x with
      | context [match _ with _ => _ end] => fail
      | _ => destruct x eqn:?
      end
  end.

Section FittedStages.

Context {L : NumericLibraries}.

Lemma fit_time_call_state (p p' : Pipeline) (clean : DataFrame) (c : sk_call) :
  fitted_state p' = fitted_state p ->
  fit_time_call p' clean c -> fit_time_call p clean c.
Proof.
  unfold fitted_state. intros E. inversion E as [[E1 E2 E3 E4 E5 E6 E7 E8]].
  destruct c; simpl; auto; rewrite ?E2, ?E4, ?E5, ?E6, ?E7; auto.
Qed.

(** What a normal return of the fitted stages tells. *)
Lemma apply_fitted_stages_inv (w w' : World) (df_clean : ref)
    (results : list (string * DataFrame)) :
  apply_fitted_stages df_clean w = (w', Ok results) ->
  dict_keys results = transform_variants (self w)
  /\ self w' = self w
  /\ (exists names frame,
        dict_get "numerical" (feature_names_ (self w)) = Some names
        /\ dict_get "scaled" results = Some frame
        /\ column_names frame = names)
  /\ (exists names frame,
        dict_get "combined" (feature_names_ (self w)) = Some names
        /\ dict_get "combined" results = Some frame
        /\ column_names frame = names)
  /\ exists new_calls,
       estimator_calls w' = (estimator_calls w ++ new_calls)%list
       /\ Forall (fit_time_call (self w) (deref w df_clean)) new_calls.
Proof.
  unfold apply_fitted_stages, feature_names_of, bind, get_self, load, lift,
    call, modify, ret, raise, transform_variants.
  intros H.
  repeat (split_match H; simpl in H; try discriminate).
  all: inversion H; subst; clear H; simpl.
  all: repeat match goal with
         | Hm : make_frame _ _ _ = Ok _ |- _ =>
             apply make_frame_names in Hm; destruct Hm as [? _]
         end.
  all: split; [reflexivity|]; split; [reflexivity|].
  all: split; [eauto|]; split; [eauto|].
  all: repeat rewrite <- app_assoc; eexists; split; [reflexivity|].
  all: simpl; repeat constructor; simpl;
    repeat match goal with
      | Hp : power_transformer _ = _ |- _ => rewrite Hp
      end; eauto 8.
Qed.

End FittedStages.

Section TransformTheorems.

Context {L : NumericLibraries}.

Lemma identify_feature_types_run (w : World) (df : ref) :
  exists w1,
    _identify_feature_types df w
    = (w1, Ok (classify (config (self w)) (deref w df)))
    /\ heap w1 = heap w
    /\ fitted_state (self w1) = fitted_state (self w)
    /\ estimator_calls w1 = estimator_calls w.
Proof.
  eexists. split.
  - unfold _identify_feature_types, bind, load, get_config. simpl. reflexivity.
  - simpl. auto.
Qed.

(** Up to imputation, [transform] on a fitted pipeline is the fresh
    classification of the new dataframe followed by the imputation of a
    copy of it; unless the imputation raises, the fitted stages then run
    on that copy. *)
Lemma transform_prefix (w : World) (df : ref) :
  fitted (self w) = true ->
  exists w2,
    transform df w
    = match imputation_error (config (self w))
              (classify (config (self w)) (deref w df)) (deref w df) with
      | Some e => (w2, Raise e)
      | None => apply_fitted_stages (length (heap w)) w2
      end
    /\ fitted_state (self w2) = fitted_state (self w)
    /\ estimator_calls w2 = estimator_calls w
    /\ (imputation_error (config (self w))
          (classify (config (self w)) (deref w df)) (deref w df) = None ->
        deref w2 (length (heap w))
        = impute_frame (config (self w))
                       (classify (config (self w)) (deref w df)) (deref w df)).
Proof.
  intros Hfitted. unfold transform.
  erewrite bind_run by (unfold get_self; reflexivity).
  rewrite Hfitted. simpl.
  erewrite bind_run by (unfold log_to, modify; reflexivity).
  set (w0 := with_logger _ w).
  destruct (identify_feature_types_run w0 df) as (w1 & Hrun1 & Hheap1 & Hs1 & Hc1).
  erewrite bind_run by exact Hrun1.
  change (config (self w0)) with (config (self w)) in *.
  change (deref w0 df) with (deref w df) in *.
  set (ft := classify (config (self w)) (deref w df)) in *.
  destruct (handle_missing_values_run w1 df ft) as (w2 & Hrun & Hheap).
  destruct (@quiet_handle_missing_values _ df ft w1 I) as (_ & Hq & _).
  rewrite Hrun in Hq. simpl in Hq. destruct Hq as (Hs & Hc & _).
  assert (Hcfg : config (self w1) = config (self w)).
  { unfold fitted_state in Hs1. now inversion Hs1. }
  assert (Hd : deref w1 df = deref w df).
  { unfold deref. now rewrite Hheap1. }
  rewrite Hcfg, Hd, Hheap1 in Hheap, Hrun.
  change (heap w0) with (heap w) in *.
  exists w2. split; [|repeat split].
  - destruct (imputation_error (config (self w)) ft (deref w df)).
    + now apply bind_raise.
    + now erewrite bind_run by exact Hrun.
  - now rewrite Hs, Hs1.
  - now rewrite Hc, Hc1.
  - intros Hnone. unfold deref at 1. rewrite Hheap, nth_app_length.
    now apply impute_outcome_no_error.
Qed.

(** A normal return of [transform] is a normal return of the fitted
    stages on the imputed copy. *)
Lemma transform_prefix_ok (w w' : World) (df : ref)
    (results : list (string * DataFrame)) :
  transform df w = (w', Ok results) ->
  fitted (self w) = true
  /\ exists w2,
       apply_fitted_stages (length (heap w)) w2 = (w', Ok results)
       /\ fitted_state (self w2) = fitted_state (self w)
       /\ estimator_calls w2 = estimator_calls w
       /\ deref w2 (length (heap w))
          = impute_frame (config (self w))
                         (classify (config (self w)) (deref w df)) (deref w df).
Proof.
  intros Hrun.
  assert (Hfitted : fitted (self w) = true).
  { unfold transform, bind, get_self in Hrun.
    destruct (fitted (self w)); auto. simpl in Hrun. inversion Hrun. }
  split; [exact Hfitted|].
  destruct (transform_prefix w df Hfitted) as (w2 & E & Hs2 & Hc2 & Hclean).
  rewrite E in Hrun.
  destruct (imputation_error _ _ _); [discriminate|].
  exists w2. auto.
Qed.

(** C6: [transform] never calls the visualization embedding and never
    changes [self.tsne], whatever its outcome; when it returns, the result
    mapping has exactly the keys "scaled" and "combined", followed by
    "pca" if and only if the pipeline holds a fitted PCA, and none of
    "complete", "categorical_encoded", "power_transformed", "tsne". *)
Theorem transform_returns_scaled_combined_and_pca_only :
  forall (w w' : World) (df : ref) (outcome : result (list (string * DataFrame))),
    transform df w = (w', outcome) ->
    filter is_tsne_call (estimator_calls w') = filter is_tsne_call (estimator_calls w)
    /\ tsne (self w') = tsne (self w)
    /\ match outcome with
       | Ok results =>
           dict_keys results
           = (["scaled"; "combined"]
              ++ match pca (self w) with Some _ => ["pca"] | None => [] end)%list
           /\ (In "pca" (dict_keys results) <-> pca (self w) <> None)
           /\ forall name,
                In name ["complete"; "categorical_encoded"; "power_transformed"; "tsne"] ->
                dict_get name results = None
       | Raise _ => True
       end.
Proof.
  intros w w' df outcome Hrun.
  destruct (@transform_read_only _ df w I) as (_ & (Hstate & Hcalls & _) & _).
  rewrite Hrun in Hstate, Hcalls. simpl in Hstate, Hcalls.
  split; [|split].
  - apply filter_refines with (g := is_fit_call); auto.
    intros [] E; simpl in *; congruence.
  - unfold fitted_state in Hstate. now inversion Hstate.
  - destruct outcome as [results|e]; [|exact I].
    destruct (transform_prefix_ok w w' df results Hrun)
      as (Hfitted & w2 & E & Hs2 & _ & _).
    apply apply_fitted_stages_inv in E. destruct E as (Hkeys & _).
    assert (Hpca : pca (self w2) = pca (self w)).
    { unfold fitted_state in Hs2. now inversion Hs2. }
    unfold transform_variants in Hkeys. rewrite Hpca in Hkeys.
    assert (Hnone : forall name,
               ~ In name (dict_keys results) -> dict_get name results = None).
    { clear. induction results as [|[k v] rest IH]; simpl; auto.
      intros name Hn. destruct (String.eqb_spec k name); [tauto|].
      apply IH. tauto. }
    rewrite Hkeys.
    destruct (pca (self w)); simpl; repeat split; try congruence; auto.
    + intros name Hname. apply Hnone. rewrite Hkeys. simpl.
      simpl in Hname. intuition congruence.
    + intuition congruence.
    + intros name Hname. apply Hnone. rewrite Hkeys. simpl.
      simpl in Hname. intuition congruence.
Qed.

(** C1 (amended): on a new dataframe with distinct column names, when
    [transform] returns,
    - the pipeline was fitted and its feature-name lists are unchanged;
    - the "scaled" variant has exactly the fit-time numerical columns and
      the "combined" variant exactly the fit-time combined columns, in
      order;
    - every estimator call made is a [transform] call of a persisted
      estimator, on columns selected by the fit-time numerical or
      categorical list from the cleaned dataframe, and such a selection has
      exactly the listed columns in the listed order;
    - the cleaned dataframe itself is the imputation of the new dataframe
      under its own fresh classification. *)
Theorem transform_selects_columns_by_fit_time_lists :
  forall (w w' : World) (df : ref) (results : list (string * DataFrame)),
    NoDup (column_names (deref w df)) ->
    transform df w = (w', Ok results) ->
    let p := self w in
    let clean := impute_frame (config p) (classify (config p) (deref w df))
                              (deref w df) in
    fitted p = true
    /\ feature_names_ (self w') = feature_names_ p
    /\ (exists names frame,
          dict_get "numerical" (feature_names_ p) = Some names
          /\ dict_get "scaled" results = Some frame
          /\ column_names frame = names)
    /\ (exists names frame,
          dict_get "combined" (feature_names_ p) = Some names
          /\ dict_get "combined" results = Some frame
          /\ column_names frame = names)
    /\ (exists new_calls,
          estimator_calls w' = (estimator_calls w ++ new_calls)%list
          /\ Forall (fit_time_call p clean) new_calls)
    /\ (forall names frame,
          select_columns clean names = Ok frame -> column_names frame = names).
Proof.
  intros w w' df results Hnd Hrun p clean.
  destruct (transform_prefix_ok w w' df results Hrun)
    as (Hfitted & w2 & E & Hs2 & Hc2 & Hclean).
  apply apply_fitted_stages_inv in E.
  destruct E as (_ & Hself & Hscaled & Hcombined & new_calls & Hcalls & Hall).
  assert (Hnames : feature_names_ (self w2) = feature_names_ (self w)).
  { unfold fitted_state in Hs2. now inversion Hs2. }
  rewrite Hnames in Hscaled, Hcombined. rewrite Hclean in Hall.
  split; [exact Hfitted|]. split; [now rewrite Hself|].
  split; [exact Hscaled|]. split; [exact Hcombined|]. split.
  - exists new_calls. split; [now rewrite Hcalls, Hc2|].
    eapply Forall_impl; [|exact Hall].
    intros c. apply fit_time_call_state. now symmetry.
  - intros names frame Hsel.
    apply (select_columns_names clean frame names); auto.
    unfold clean.
    destruct (impute_frame_shape (config p) (classify (config p) (deref w df))
                (deref w df)) as [_ Hn].
    now rewrite Hn.
Qed.

End TransformTheorems.

(* ------------------------------------------------------------------ *)
(** ** The fitted sample pipeline on a new table *)

Lemma caller_dataframe_unchanged_witness :
  let w := fitted_world_with_new_table in
  3 < length (heap w)
  /\ deref (fst (fit_transform 3 w)) 3 = new_table
  /\ deref (fst (transform 3 w)) 3 = new_table.
Proof.
  intros w. split; [vm_compute; lia|].
  apply (@caller_dataframe_unchanged reference_library w 3).
  vm_compute. lia.
Defined.

Lemma transform_returns_scaled_combined_and_pca_only_witness :
  let w := fitted_world_with_new_table in
  pca (self w) <> None
  /\ match snd (transform 3 w) with
     | Ok results => dict_keys results = ["scaled"; "combined"; "pca"]
     | Raise _ => False
     end.
Proof.
  intros w. split; [vm_compute; discriminate|].
  pose proof (@transform_returns_scaled_combined_and_pca_only reference_library
                w (fst (transform 3 w)) 3 (snd (transform 3 w))
                (surjective_pairing _)) as (_ & _ & H).
  destruct (snd (transform 3 w)) as [results|e] eqn:E.
  - destruct H as (H & _). exact H.
  - vm_compute in E. discriminate.
Defined.

Lemma transform_selects_columns_by_fit_time_lists_witness :
  let w := fitted_world_with_new_table in
  let w' := fst (transform 3 w) in
  NoDup (column_names (deref w 3))
  /\ transform 3 w = (w', Ok new_table_variants)
  /\ feature_names_ (self w') = feature_names_ (self w)
  /\ (exists names frame,
         dict_get "numerical" (feature_names_ (self w)) = Some names
         /\ dict_get "scaled" new_table_variants = Some frame
         /\ column_names frame = names).
Proof.
  intros w w'.
  assert (Hnd : NoDup (column_names (deref w 3))).
  { vm_compute. repeat constructor; simpl; intuition discriminate. }
  assert (Hrun : transform 3 w = (w', Ok new_table_variants)).
  { vm_compute. reflexivity. }
  split; [exact Hnd|]. split; [exact Hrun|].
  destruct (@transform_selects_columns_by_fit_time_lists reference_library
              w w' 3 new_table_variants Hnd Hrun)
    as (_ & Hnames & Hscaled & _).
  split; [exact Hnames | exact Hscaled].
Defined.

(** C1 as stated fails for imputation: the fitted sample pipeline recorded
    the lists ["Revenue"] and ["Industry"]; on [new_table] the fresh
    classification also finds the numerical column "Debt", and [transform]
    fills the gap of "Debt" in its cleaned copy (the dataframe at address
    4), which imputing by the fit-time lists would have left. *)
Lemma transform_imputes_by_fresh_classification :
  let w := fitted_world_with_new_table in
  dict_get "numerical" (feature_names_ (self w)) = Some ["Revenue"]
  /\ dict_get "categorical" (feature_names_ (self w)) = Some ["Industry"]
  /\ numerical_features (classify (config (self w)) new_table) = ["Revenue"; "Debt"]
  /\ snd (transform 3 w) = Ok new_table_variants
  /\ get_column (deref (fst (transform 3 w)) 4) "Debt"
     = Some (mkSeries "Debt" DtNumber (numbers [Some 7; Some 8; Some 9]%Z))
  /\ get_column (impute_frame (config (self w)) fit_time_types new_table) "Debt"
     = Some (mkSeries "Debt" DtNumber (numbers [Some 7; None; Some 9]%Z))
  /\ In (mkLogEntry "Missing Values Handling" "Imputed 1 features: ['Debt']")
        (preprocessing_log (self (fst (transform 3 w)))).
Proof.
  vm_compute. repeat split; auto 20.
Qed.

(* ================================================================== *)
(** * Further properties of the stages *)

(** ** Feature identification *)

Lemma select_dtypes_signature (keep : dtype -> bool) (frame : DataFrame) :
  select_dtypes keep frame
  = map fst (filter (fun nd => keep (snd nd)) (column_signature frame)).
Proof.
  unfold select_dtypes, column_signature.
  induction (df_columns frame) as [|s cols IH]; simpl; auto.
  destruct (keep (s_dtype s)); simpl; now rewrite IH.
Qed.

Lemma column_names_signature (frame : DataFrame) :
  column_names frame = map fst (column_signature frame).
Proof.
  unfold column_names, column_signature. now rewrite map_map.
Qed.

Lemma classify_signature (cfg : Config) (frame frame' : DataFrame) :
  column_signature frame' = column_signature frame ->
  classify cfg frame' = classify cfg frame.
Proof.
  intros E. unfold classify.
  now rewrite !select_dtypes_signature, !column_names_signature, E.
Qed.

Lemma select_dtypes_In (keep : dtype -> bool) (frame : DataFrame) (c : string) :
  In c (select_dtypes keep frame)
  <-> exists s, In s (df_columns frame) /\ s_name s = c /\ keep (s_dtype s) = true.
Proof.
  unfold select_dtypes. rewrite in_map_iff. split.
  - intros [s [E H]]. apply filter_In in H. exists s. tauto.
  - intros [s (H1 & H2 & H3)]. exists s. split; auto. apply filter_In. tauto.
Qed.

(** X1: the numerical features are exactly the names of the number-typed
    columns that are not configured identifiers; the categorical features
    are exactly the names of the object- or category-typed columns,
    configured identifiers included. *)
Theorem classification_by_dtype_and_identifiers :
  forall (cfg : Config) (frame : DataFrame) (c : string),
    (In c (numerical_features (classify cfg frame))
     <-> (exists s, In s (df_columns frame) /\ s_name s = c
                    /\ s_dtype s = DtNumber)
         /\ ~ In c (identifier_features (feature_categories cfg)))
    /\ (In c (categorical_features_available (classify cfg frame))
        <-> exists s, In s (df_columns frame) /\ s_name s = c
                      /\ (s_dtype s = DtObject \/ s_dtype s = DtCategory)).
Proof.
  intros cfg frame c. unfold classify. simpl. split.
  - rewrite filter_In, select_dtypes_In, negb_true_iff.
    assert (Hdt : forall d, is_number d = true <-> d = DtNumber)
      by (intros []; simpl; split; congruence).
    split.
    + intros [[s (Hs & Hn & Hd)] Hid]. split.
      * exists s. rewrite <- Hdt. auto.
      * intros Hin.
        assert (Hm : mem c (filter (fun f => mem f (column_names frame))
                              (identifier_features (feature_categories cfg)))
                     = true).
        { apply mem_In, filter_In. split; auto. apply mem_In.
          unfold column_names. rewrite <- Hn. now apply in_map. }
        congruence.
    + intros [[s (Hs & Hn & Hd)] Hid]. split.
      * exists s. rewrite Hdt. auto.
      * destruct (mem c _) eqn:E; auto.
        apply mem_In, filter_In in E. tauto.
  - rewrite select_dtypes_In.
    assert (Hdt : forall d, is_object_or_category d = true
                            <-> d = DtObject \/ d = DtCategory)
      by (intros []; simpl; split; intuition congruence).
    split; intros [s (Hs & Hn & Hd)]; exists s; rewrite Hdt in *; auto.
Qed.

(** ** Imputation keeps what is there *)

Lemma keeps_values_refl (cs : list cell) : keeps_values cs cs.
Proof. induction cs; constructor; auto. Qed.

Lemma keeps_values_trans (a b c : list cell) :
  keeps_values a b -> keeps_values b c -> keeps_values a c.
Proof.
  unfold keeps_values. intros Hab. revert c.
  induction Hab as [|x y a b Hxy Hab IH]; intros c Hbc; inversion Hbc; subst;
    constructor; auto.
  destruct Hxy as [Hx | Hx]; subst; auto.
Qed.

Lemma keeps_values_fillna (v : cell) (cs : list cell) :
  keeps_values cs (fillna v cs).
Proof.
  induction cs as [|[x|] cs IH]; simpl; constructor; auto.
Qed.

Lemma keeps_values_full (a b : list cell) :
  keeps_values a b -> count_missing a = 0 -> count_missing b = 0.
Proof.
  unfold count_missing. induction 1 as [|x y a b Hxy Hab IH]; simpl; auto.
  destruct x as [u|]; simpl; [|discriminate].
  destruct Hxy as [Hx|Hx]; [discriminate|]. subst y. simpl. exact IH.
Qed.

Lemma refines_frame_refl (frame : DataFrame) : refines_frame frame frame.
Proof.
  split; auto. induction (df_columns frame); constructor; auto.
  repeat split; auto using keeps_values_refl.
Qed.

Lemma refines_frame_trans (a b c : DataFrame) :
  refines_frame a b -> refines_frame b c -> refines_frame a c.
Proof.
  intros [Hi1 H1] [Hi2 H2]. split; [congruence|].
  revert H2. generalize (df_columns c). clear Hi1 Hi2.
  induction H1 as [|x y la lb Hxy H1 IH]; intros lc H2;
    inversion H2 as [|? z ? lc' Hyz H2']; subst; constructor; auto.
  destruct Hxy as (Hn & Hd & Hv). destruct Hyz as (Hn' & Hd' & Hv').
  repeat split; try congruence; [|eapply keeps_values_trans; eauto].
  destruct Hd as [Hd|[Hd Hgap]], Hd' as [Hd'|[Hd' Hgap']].
  - left. congruence.
  - right. split; auto. intros Hfull. apply Hgap'.
    now apply (keeps_values_full _ _ Hv).
  - right. split; auto. congruence.
  - right. auto.
Qed.

Lemma fill_dtype_cases (d : dtype) (v : cell) :
  fill_dtype d v = d \/ fill_dtype d v = DtObject.
Proof.
  destruct d, v as [[q|t]|]; simpl; auto.
Qed.

Lemma refines_frame_fillna_column (col : string) (v : cell) (frame : DataFrame) :
  refines_frame frame (fillna_column col v frame).
Proof.
  split; auto. unfold fillna_column. simpl.
  induction (df_columns frame) as [|s cols IH]; simpl; constructor; auto.
  destruct (s_name s =? col)%string; simpl;
    repeat split; auto using keeps_values_refl, keeps_values_fillna.
  destruct (0 <? count_missing (s_cells s))%nat eqn:E; auto.
  apply Nat.ltb_lt in E.
  destruct (fill_dtype_cases (s_dtype s) v) as [H|H]; auto.
  right. split; auto. lia.
Qed.

Lemma refines_frame_fill_loop (fill : string -> Series -> cell)
    (strategy : string) (cols : list string) :
  forall frame,
    refines_frame frame (fst (fill_loop fill strategy cols frame)).
Proof.
  induction cols as [|c cols IH]; intros frame; simpl.
  - apply refines_frame_refl.
  - destruct (fill_step_error fill strategy frame c); simpl.
    + apply refines_frame_refl.
    + eapply refines_frame_trans; [|apply IH].
      unfold fill_step. destruct (get_column frame c).
      * apply refines_frame_fillna_column.
      * apply refines_frame_refl.
Qed.

Lemma fillna_column_signature (col : string) (v : cell) (frame : DataFrame) :
  (forall s, In s (df_columns frame) -> s_name s = col ->
             fill_dtype (s_dtype s) v = s_dtype s) ->
  column_signature (fillna_column col v frame) = column_signature frame.
Proof.
  unfold column_signature, fillna_column. simpl.
  induction (df_columns frame) as [|s cols IH]; simpl; intros H; auto.
  rewrite IH by (intros s' Hs'; apply H; now right). f_equal.
  destruct (String.eqb_spec (s_name s) col) as [E|_]; auto.
  unfold fillna_series. simpl.
  destruct (0 <? count_missing (s_cells s))%nat; auto.
  rewrite H; auto.
Qed.

Lemma signature_typed (ok : dtype -> Prop) (keep : string -> Prop)
    (frame frame' : DataFrame) :
  column_signature frame' = column_signature frame ->
  (forall s, In s (df_columns frame) -> keep (s_name s) -> ok (s_dtype s)) ->
  forall s, In s (df_columns frame') -> keep (s_name s) -> ok (s_dtype s).
Proof.
  intros E H s' Hs' Hkeep.
  assert (Hin : In (s_name s', s_dtype s') (column_signature frame)).
  { rewrite <- E. unfold column_signature.
    apply in_map_iff. exists s'. auto. }
  unfold column_signature in Hin. apply in_map_iff in Hin.
  destruct Hin as (s & Heq & Hs). injection Heq as Hn Hd.
  rewrite <- Hd. apply H; auto. now rewrite Hn.
Qed.

(** A loop whose fill values fit the dtypes of its columns keeps every
    dtype. *)
Lemma fill_loop_signature (fill : string -> Series -> cell) (strategy : string)
    (ok : dtype -> Prop) (listed : string -> Prop) (cols : list string) :
  (forall s0 d, ok (s_dtype s0) -> ok d -> fill_dtype d (fill strategy s0) = d) ->
  (forall c, In c cols -> listed c) ->
  forall frame,
    (forall s, In s (df_columns frame) -> listed (s_name s) -> ok (s_dtype s)) ->
    column_signature (fst (fill_loop fill strategy cols frame))
    = column_signature frame.
Proof.
  intros Hfit. induction cols as [|c cols IH]; intros Hlisted frame Htyped;
    simpl; auto.
  destruct (fill_step_error fill strategy frame c); simpl; auto.
  assert (Hstep : column_signature (fill_step fill strategy frame c)
                  = column_signature frame).
  { unfold fill_step. destruct (get_column frame c) as [s0|] eqn:E0; auto.
    apply get_column_name in E0. destruct E0 as [Hn0 Hin0].
    assert (Hc : listed c) by (apply Hlisted; now left).
    apply fillna_column_signature. intros s Hs Hn.
    apply Hfit; apply Htyped; auto; congruence. }
  rewrite IH, Hstep; auto.
  - intros c' Hc'. apply Hlisted. now right.
  - exact (signature_typed ok listed frame _ Hstep Htyped).
Qed.

Section ImputationKeeps.

Context {L : NumericLibraries}.

Lemma impute_outcome_signature (cfg : Config) (ft : FeatureTypes)
    (frame : DataFrame) :
  numerical_typed ft frame ->
  categorical_typed ft frame ->
  (forall (s : Series) (t : string),
      s_dtype s = DtNumber ->
      numerical_fill_value (missing_strategy_numerical (preprocessing cfg)) s
      <> Some (VStr t)) ->
  column_signature (fst (impute_outcome cfg ft frame)) = column_signature frame.
Proof.
  intros Hnum Hcat Hfill. unfold impute_outcome.
  pose proof (fill_loop_signature numerical_fill_value
                (missing_strategy_numerical (preprocessing cfg))
                (fun d => d = DtNumber)
                (fun c => mem c (numerical_features ft) = true)
                (filter (fun col => mem col (numerical_features ft))
                        (missing_features_of frame))) as H1.
  specialize (H1 ltac:(intros s0 d H0 ->; specialize (Hfill s0);
                       destruct (numerical_fill_value _ s0) as [[q|t]|];
                       simpl; auto; now destruct (Hfill t H0))).
  specialize (H1 ltac:(intros c Hc; apply filter_In in Hc; tauto) frame Hnum).
  destruct (fill_loop numerical_fill_value _ _ frame) as [frame1 [e|]];
    simpl in *; auto.
  rewrite <- H1.
  apply (fill_loop_signature categorical_fill_value
           (missing_strategy_categorical (preprocessing cfg))
           (fun d => d = DtObject \/ d = DtCategory)
           (fun c => mem c (categorical_features_available ft) = true)).
  - intros s0 d _ [-> | ->]; reflexivity.
  - intros c Hc. apply filter_In in Hc. tauto.
  - exact (signature_typed
             (fun d => d = DtObject \/ d = DtCategory)
             (fun c => mem c (categorical_features_available ft) = true)
             frame frame1 H1 Hcat).
Qed.

Lemma impute_outcome_refines (cfg : Config) (ft : FeatureTypes) (frame : DataFrame) :
  refines_frame frame (fst (impute_outcome cfg ft frame)).
Proof.
  unfold impute_outcome.
  pose proof (refines_frame_fill_loop numerical_fill_value
                (missing_strategy_numerical (preprocessing cfg))
                (filter (fun col => mem col (numerical_features ft))
                        (missing_features_of frame)) frame) as H1.
  destruct (fill_loop numerical_fill_value _ _ frame) as [frame1 [e|]];
    simpl in *; auto.
  eapply refines_frame_trans; [exact H1|apply refines_frame_fill_loop].
Qed.

(** X2: whatever the feature lists and strategies, and whether the stage
    returns or raises, the copy the imputation stage works on - the one
    new dataframe object, which the stage returns when it returns - has
    the index of its input and, column by column, the same name and
    length; every cell that held a value holds the same value afterwards;
    the dtype of a column is kept, except that a column with gaps may
    have become an object column.  Imputation only ever fills gaps. *)
Theorem imputation_only_fills_gaps :
  forall (w : World) (df : ref) (feature_types : FeatureTypes),
    let (w', outcome) := _handle_missing_values df feature_types w in
    (forall df_clean, outcome = Ok df_clean -> df_clean = length (heap w))
    /\ heap w' = (heap w ++ [deref w' (length (heap w))])%list
    /\ refines_frame (deref w df) (deref w' (length (heap w))).
Proof.
  intros w df ft.
  destruct (handle_missing_values_run w df ft) as (w' & Hrun & Hheap).
  rewrite Hrun.
  assert (Hcopy : deref w' (length (heap w))
                  = fst (impute_outcome (config (self w)) ft (deref w df))).
  { unfold deref at 1. now rewrite Hheap, nth_app_length. }
  rewrite Hcopy. split; [|split].
  - destruct (imputation_error _ _ _); intros r H; inversion H; auto.
  - exact Hheap.
  - apply impute_outcome_refines.
Qed.

(** X3: when the feature lists are those of a classification by dtype -
    the numerical list names number-typed columns, the categorical list
    object- or category-typed ones - and the numerical fill value of a
    number-typed column is never a string, every column of the copy the
    stage works on has the dtype it had, whether the stage returns or
    raises; classifying the cleaned copy then gives the same feature lists
    as classifying the input. *)
Theorem classification_unchanged_by_imputation :
  forall (w : World) (df : ref) (feature_types : FeatureTypes) (cfg : Config),
    let frame := deref w df in
    let strategy := missing_strategy_numerical (preprocessing (config (self w))) in
    numerical_typed feature_types frame ->
    categorical_typed feature_types frame ->
    (forall (s : Series) (t : string),
        s_dtype s = DtNumber ->
        numerical_fill_value strategy s <> Some (VStr t)) ->
    let (w', outcome) := _handle_missing_values df feature_types w in
    column_signature (deref w' (length (heap w))) = column_signature frame
    /\ classify cfg (deref w' (length (heap w))) = classify cfg frame.
Proof.
  intros w df ft cfg frame strategy Hnum Hcat Hfill.
  destruct (handle_missing_values_run w df ft) as (w' & Hrun & Hheap).
  rewrite Hrun.
  assert (Hsig : column_signature (deref w' (length (heap w)))
                 = column_signature frame).
  { unfold deref at 1. rewrite Hheap, nth_app_length.
    now apply impute_outcome_signature. }
  split; [exact Hsig|]. now apply classify_signature.
Qed.

End ImputationKeeps.

(* ------------------------------------------------------------------ *)
(** ** Skew reduction: bounds *)

Lemma skew_scan_out_of_bounds {L : NumericLibraries} (threshold : Q)
    (X : ndarray) (feature_names : list string) :
  forall (i : nat) acc,
    i <= width X -> width X < i + length feature_names ->
    skew_scan threshold X i feature_names acc
    = Raise (IndexError "index is out of bounds for axis 1").
Proof.
  induction feature_names as [|f rest IH]; intros i acc Hi Hlen; simpl in *.
  - lia.
  - destruct (nth_error (col_data X) i) as [c|] eqn:E; auto.
    apply IH.
    + assert (i < width X); [|lia].
      unfold width. apply nth_error_Some. congruence.
    + lia.
Qed.

Section StageEdges.

Context {L : NumericLibraries}.

(** X4: with the power transform enabled, more feature names than matrix
    columns make the skewness loop read past the last column: the stage
    raises IndexError and nothing has happened - no estimator call, no log
    entry. *)
Theorem power_transformation_index_error :
  forall (w : World) (X : ndarray) (feature_names : list string),
    apply_power_transform (preprocessing (config (self w))) = true ->
    width X < length feature_names ->
    _apply_power_transformation X feature_names w
    = (w, Raise (IndexError "index is out of bounds for axis 1")).
Proof.
  intros w X names Hon Hlen.
  unfold _apply_power_transformation, bind, get_config, lift. simpl.
  rewrite Hon. simpl.
  rewrite skew_scan_out_of_bounds by (simpl; lia). reflexivity.
Qed.

(** X5: the scaling stage fits exactly one scaler, on its whole input, of
    the class named by the configuration (StandardScaler for an
    unrecognized name), and logs a warning if and only if the name is
    unrecognized.  When the scaler accepts the input, the stage returns
    the scaled matrix, of the shape of the input, with the fitted scaler,
    and appends one entry to the processing log; when the scaler rejects
    the input, the stage raises the scaler's exception and the processing
    log is as it was. *)
Theorem scaling_fits_one_scaler_on_the_whole_matrix :
  forall (w : World) (X : ndarray),
    let method := scaling_method (preprocessing (config (self w))) in
    let cls := match recognized_scaler method with
               | Some c => c
               | None => StandardScaler
               end in
    let (w', outcome) := _apply_scaling X w in
    estimator_calls w' = (estimator_calls w ++ [ScalerFitTransform cls X])%list
    /\ (In WARNING (map fst (logger w'))
        <-> In WARNING (map fst (logger w)) \/ recognized_scaler method = None)
    /\ match estimator_error (ScalerFitTransform cls X) with
       | None =>
           outcome = Ok (scaler_apply (mkScaler cls X) X, mkScaler cls X)
           /\ shape (scaler_apply (mkScaler cls X) X) = shape X
           /\ preprocessing_log (self w')
              = (preprocessing_log (self w)
                 ++ [mkLogEntry "Feature Scaling"
                                ("Applied " ++ class_name cls)])%list
       | Some e =>
           outcome = Raise e
           /\ preprocessing_log (self w') = preprocessing_log (self w)
       end.
Proof.
  intros w X method cls.
  pose proof (scaler_fit_transform_shape cls X) as Hshape.
  unfold _apply_scaling, bind, get_config. simpl. fold method.
  revert Hshape. unfold cls, recognized_scaler.
  destruct (method =? "standard")%string; simpl;
    [|destruct (method =? "robust")%string; simpl;
      [|destruct (method =? "minmax")%string; simpl]].
  all: rewrite checked_call_run; simpl.
  all: match goal with
       | |- context [estimator_error ?c] => destruct (estimator_error c)
       end; simpl; intros Hshape.
  all: repeat split; auto.
  all: rewrite ?map_app, ?in_app_iff; simpl; try tauto.
  all: intuition discriminate.
Qed.

(** X6: with an empty list of categorical features, or with an encoding
    method other than "onehot", the encoding stage returns a matrix with
    the row count of the dataframe and no column, no feature name and no
    encoder; it calls no estimator, appends nothing to the processing log,
    and never looks the listed columns up.  A warning is logged exactly in
    the second case. *)
Theorem encoding_skipped_gives_zero_width_matrix :
  forall (w : World) (df : ref) (categorical_features : list string),
    categorical_features = []
    \/ categorical_encoding (preprocessing (config (self w))) <> "onehot" ->
    let (w', outcome) := _encode_categorical_features df categorical_features w in
    outcome = Ok (empty_array (frame_len (deref w df)), [], None)
    /\ shape (empty_array (frame_len (deref w df))) = (frame_len (deref w df), 0)
    /\ heap w' = heap w /\ self w' = self w
    /\ estimator_calls w' = estimator_calls w
    /\ logger w'
       = match categorical_features with
         | [] => logger w
         | _ => (logger w
                 ++ [(WARNING,
                      ("Encoding method "
                       ++ categorical_encoding (preprocessing (config (self w)))
                       ++ " not implemented. Skipping categorical encoding.")%string)])%list
         end.
Proof.
  intros w df cats H.
  unfold _encode_categorical_features, bind, load, get_config. simpl.
  destruct cats as [|c cats].
  - simpl. destruct w. repeat split; reflexivity.
  - destruct H as [H|H]; [discriminate|].
    apply String.eqb_neq in H. rewrite H. simpl.
    repeat split; reflexivity.
Qed.

(** X7: with "onehot" and a non-empty list, the encoding stage raises
    KeyError, before any estimator is called, exactly when some listed
    column is absent from the dataframe; otherwise it fits one encoder on
    the listed columns of the dataframe and returns it. *)
Theorem encoding_needs_every_listed_column :
  forall (w : World) (df : ref) (categorical_features : list string),
    categorical_features <> [] ->
    categorical_encoding (preprocessing (config (self w))) = "onehot" ->
    let frame := deref w df in
    let (w', outcome) := _encode_categorical_features df categorical_features w in
    ((exists c, In c categorical_features /\ ~ In c (column_names frame))
     -> (exists key, outcome = Raise (KeyError key)) /\ w' = w)
    /\ ((forall c, In c categorical_features -> In c (column_names frame))
        -> exists selected,
             select_columns frame categorical_features = Ok selected
             /\ let encoder :=
                  mkOneHotEncoder
                    (drop_first_category (preprocessing (config (self w))))
                    selected in
                outcome = Ok (encoder_apply encoder selected,
                              encoder_feature_names encoder categorical_features,
                              Some encoder)
                /\ estimator_calls w'
                   = (estimator_calls w
                      ++ [EncoderFitTransform (enc_drop_first encoder) selected])%list).
Proof.
  intros w df cats Hne Hmethod frame.
  unfold _encode_categorical_features, bind, load, get_config, lift. simpl.
  destruct cats as [|c0 cats]; [congruence|].
  rewrite Hmethod. simpl. fold frame.
  unfold select_columns.
  destruct (filter (fun c => negb (mem c (column_names frame))) (c0 :: cats))
    as [|m ms] eqn:Hmissing.
  - simpl. split.
    + intros [c [Hin Habs]].
      assert (Hf : In c (filter (fun c => negb (mem c (column_names frame)))
                            (c0 :: cats))).
      { apply filter_In. split; auto. apply negb_true_iff.
        destruct (mem c (column_names frame)) eqn:E; auto.
        apply mem_In in E. contradiction. }
      rewrite Hmissing in Hf. destruct Hf.
    + intros _. eexists. split; [reflexivity|]. simpl. split; reflexivity.
  - split.
    + intros _. split; [eexists; reflexivity | reflexivity].
    + intros Hall.
      assert (Hin : In m (filter (fun c => negb (mem c (column_names frame)))
                             (c0 :: cats))) by (rewrite Hmissing; now left).
      apply filter_In in Hin. destruct Hin as [Hin Hneg].
      apply negb_true_iff in Hneg. apply Hall, mem_In in Hin. congruence.
Qed.

End StageEdges.

(* ------------------------------------------------------------------ *)
(** ** Dimensionality reduction: counts, toggles, t-SNE input *)

Lemma first_true_bound (bs : list bool) (i : nat) :
  first_true bs = Some i -> i < length bs.
Proof.
  revert i. induction bs as [|[|] bs IH]; intros i H; simpl in *;
    try discriminate.
  - inversion H. lia.
  - destruct (first_true bs) as [j|]; try discriminate.
    inversion H. specialize (IH j eq_refl). lia.
Qed.

Lemma first_true_none (bs : list bool) :
  (forall b, In b bs -> b = false) -> first_true bs = None.
Proof.
  induction bs as [|b bs IH]; intros H; simpl; auto.
  rewrite (H b) by now left. rewrite IH; auto.
  intros b' Hb'. apply H. now right.
Qed.

Section ChosenCount.

Context {L : NumericLibraries}.

(** X8: the component count of the variance-targeted branch is never below
    the configured minimum, never below 1, and never above the larger of
    the minimum and the number of components of the unconstrained fit. *)
Theorem chosen_component_count_bounds :
  forall (fraction : Q) (min_components n_comp : Z) (evr : list Q),
    choose_n_comp fraction min_components evr = Ok n_comp ->
    (min_components <= n_comp)%Z
    /\ (1 <= n_comp)%Z
    /\ (n_comp <= Z.max (Z.of_nat (length evr)) min_components)%Z.
Proof.
  intros fraction minc n evr. unfold choose_n_comp, argmax_bool.
  assert (Hlen : length (map (fun c => Qle_bool fraction c) (cumsum evr))
                 = length evr).
  { rewrite length_map. apply cumsum_length. }
  pose proof (first_true_bound (map (fun c => Qle_bool fraction c) (cumsum evr)))
    as Hbound.
  destruct (first_true _) as [i|].
  - specialize (Hbound i eq_refl).
    destruct (map _ (cumsum evr)); [discriminate|].
    intros H. inversion H. lia.
  - destruct (map _ (cumsum evr)); [discriminate|].
    intros H. inversion H. simpl in Hlen. lia.
Qed.

(** X9: when no component count reaches the target (the cumulative
    explained variance stays below it), [np.argmax] of the all-false mask
    is 0 and the count is the larger of 1 and the configured minimum; on an
    empty variance curve the stage raises ValueError. *)
Theorem unreachable_target_falls_back_to_one_component :
  forall (fraction : Q) (min_components : Z) (evr : list Q),
    (forall k, 1 <= k <= length evr ->
               ~ (fraction <= cumulative_variance evr k)%Q) ->
    choose_n_comp fraction min_components evr
    = match evr with
      | [] => Raise (ValueError "attempt to get argmax of an empty sequence")
      | _ => Ok (Z.max 1 min_components)
      end.
Proof.
  intros fraction minc evr Hnone. unfold choose_n_comp, argmax_bool.
  destruct evr as [|x evr]; [reflexivity|].
  rewrite first_true_none.
  - destruct (map _ (cumsum (x :: evr))) eqn:E; [discriminate|reflexivity].
  - intros b Hb. apply in_map_iff in Hb. destruct Hb as [c [Hc Hin]].
    apply In_nth_error in Hin. destruct Hin as [j Hj].
    assert (Hlt : j < length (x :: evr)).
    { rewrite <- (cumsum_length (x :: evr)).
      apply nth_error_Some. congruence. }
    rewrite nth_error_cumsum in Hj by assumption. inversion Hj. subst c b.
    apply Qle_bool_false. apply Hnone. lia.
Qed.

End ChosenCount.

Section ReductionStage.

Context {L : NumericLibraries}.

(** X10: when the PCA target is an integer, or a float above 1.0, the
    stage fits one projection directly at that count (the float truncated
    towards zero): there is no unconstrained fit, and the configured
    minimum component count plays no part.  The stage returns that
    projection when PCA accepts the count on the data, and raises the
    exception of PCA when it does not. *)
Theorem explicit_component_count_ignores_minimum :
  forall (w : World) (X : ndarray),
    let dr := dimensionality_reduction (config (self w)) in
    apply_pca dr = true ->
    fraction_target (pca_n_components dr) = None ->
    let n_comp := match pca_n_components dr with
                  | PcaFloat q => int_of_float q
                  | PcaInt n => n
                  end in
    let fitted_pca := mkPCA (Some n_comp) X in
    let (w', outcome) := pca_stage X w in
    estimator_calls w'
    = (estimator_calls w ++ [PCAFitTransform (Some n_comp) X])%list
    /\ outcome
       = match estimator_error (PCAFitTransform (Some n_comp) X) with
         | None => Ok [("pca", (pca_apply fitted_pca X, ReducerPCA fitted_pca))]
         | Some e => Raise e
         end.
Proof.
  intros w X dr Hpca Htarget n_comp fitted_pca.
  unfold pca_stage, bind, get_config. simpl. fold dr.
  rewrite Hpca, Htarget. simpl. fold n_comp.
  rewrite checked_call_run.
  destruct (estimator_error (PCAFitTransform (Some n_comp) X)); simpl;
    split; reflexivity.
Qed.


Lemma reduction_outcome_keys (w w' : World) (X : ndarray) (names : list string)
    (outcome : result (list (string * (ndarray * reducer)))) :
  _apply_dimensionality_reduction X names w = (w', outcome) ->
  let dr := dimensionality_reduction (config (self w)) in
  match outcome with
  | Ok reduction_results =>
      dict_keys reduction_results = reduction_keys dr
      /\ (reduction_keys dr = [] -> reduction_results = [] /\ w' = w)
  | Raise _ => reduction_keys dr <> []
  end.
Proof.
  intros Hrun dr.
  unfold _apply_dimensionality_reduction, pca_stage, tsne_stage, checked_call,
    bind, get_config, lift, call, modify, ret, raise in Hrun.
  unfold reduction_keys, dr. simpl in Hrun.
  repeat (split_match Hrun; simpl in Hrun).
  all: inversion Hrun; subst; simpl.
  all: repeat match goal with
         | H : apply_pca _ = _ |- _ => rewrite H; clear H
         | H : apply_tsne _ = _ |- _ => rewrite H; clear H
         end; simpl; auto.
  all: try discriminate.
  all: split; auto; try discriminate.
Qed.

(** X12: the two reduction stages are switched independently: whenever
    the reducer returns, its mapping has the key "pca" exactly when PCA is
    enabled and the key "tsne" exactly when t-SNE is enabled, in that
    order; with both disabled it returns the empty mapping and leaves the
    world untouched.  It can raise only when one of the two is enabled. *)
Theorem reduction_keys_follow_the_toggles :
  forall (w w' : World) (X : ndarray) (feature_names : list string)
         (outcome : result (list (string * (ndarray * reducer)))),
    _apply_dimensionality_reduction X feature_names w = (w', outcome) ->
    let dr := dimensionality_reduction (config (self w)) in
    match outcome with
    | Ok reduction_results =>
        dict_keys reduction_results = reduction_keys dr
        /\ (reduction_keys dr = [] -> reduction_results = [] /\ w' = w)
    | Raise _ => reduction_keys dr <> []
    end.
Proof.
  intros w w' X names outcome Hrun.
  exact (reduction_outcome_keys w w' X names outcome Hrun).
Qed.

End ReductionStage.

(* ------------------------------------------------------------------ *)
(** ** What [fit_transform] establishes *)

Lemma flag_kept_refl (w : World) : flag_kept w w.
Proof. reflexivity. Qed.

Lemma flag_kept_trans (w1 w2 w3 : World) :
  flag_kept w1 w2 -> flag_kept w2 w3 -> flag_kept w1 w3.
Proof. unfold flag_kept. congruence. Qed.

Lemma triple_lift_ok {A} (P : World -> Prop) (R : World -> World -> Prop)
    (r : result A) (Q : A -> Prop) :
  (forall w, R w w) -> (forall a, r = Ok a -> Q a) -> triple P R (lift r) Q.
Proof.
  intros Hrefl H w Hw. simpl. repeat split; auto.
Qed.

Lemma triple_strengthen {A} (P : World -> Prop) (R : World -> World -> Prop)
    (m : M A) (Q1 Q2 : A -> Prop) :
  triple P R m Q1 ->
  (forall w a, P w -> snd (m w) = Ok a -> Q2 a) ->
  triple P R m (fun a => Q1 a /\ Q2 a).
Proof.
  intros H1 H2 w Hw. destruct (H1 w Hw) as (HP & HR & HQ).
  repeat split; auto. eauto.
Qed.

Lemma triple_copy_under (P : World -> Prop) (R : World -> World -> Prop)
    (r : ref) :
  (forall w h, P w -> P (with_heap h w)) ->
  (forall w h, R w (with_heap h w)) ->
  triple P R (copy r) (@anything ref).
Proof.
  intros HP HR w Hw. simpl. repeat split; auto.
Qed.

Lemma dict_get_set_same {V} (k : string) (v : V) (d : list (string * V)) :
  dict_get k (dict_set k v d) = Some v.
Proof.
  induction d as [|[k' v'] d IH]; simpl.
  - now rewrite String.eqb_refl.
  - destruct (String.eqb_spec k' k); simpl.
    + now rewrite String.eqb_refl.
    + destruct (String.eqb_spec k' k); [contradiction|]. exact IH.
Qed.

Lemma dict_get_set_other {V} (k k' : string) (v : V) (d : list (string * V)) :
  k <> k' -> dict_get k' (dict_set k v d) = dict_get k' d.
Proof.
  intros Hne. induction d as [|[k0 v0] d IH]; simpl.
  - destruct (String.eqb_spec k k'); [contradiction|]. reflexivity.
  - destruct (String.eqb_spec k0 k); simpl.
    + subst k0. destruct (String.eqb_spec k k'); [contradiction|]. reflexivity.
    + destruct (String.eqb_spec k0 k'); auto.
Qed.

Lemma dict_keys_set_new {V} (k : string) (v : V) (d : list (string * V)) :
  ~ In k (dict_keys d) -> dict_keys (dict_set k v d) = (dict_keys d ++ [k])%list.
Proof.
  unfold dict_keys. induction d as [|[k' v'] d IH]; simpl; intros H; auto.
  destruct (String.eqb_spec k' k); [tauto|]. simpl. f_equal. apply IH. tauto.
Qed.

Lemma assigned_get {V} (keys : list string) :
  forall (d d' : list (string * V)) (k : string),
    assigned keys d d' -> ~ In k keys -> dict_get k d' = dict_get k d.
Proof.
  induction keys as [|key keys IH]; intros d d' k H Hk; inversion H; subst; auto.
  rewrite (IH _ _ k H4) by (intros Hin; apply Hk; now right).
  apply dict_get_set_other. intros ->. apply Hk. now left.
Qed.

Lemma assigned_keys {V} (keys : list string) :
  forall (d d' : list (string * V)),
    assigned keys d d' -> NoDup keys ->
    (forall k, In k keys -> ~ In k (dict_keys d)) ->
    dict_keys d' = (dict_keys d ++ keys)%list.
Proof.
  induction keys as [|key keys IH]; intros d d' H Hnd Hfresh;
    inversion H; subst.
  - now rewrite app_nil_r.
  - inversion Hnd; subst.
    rewrite (IH _ _ H4); auto.
    + rewrite dict_keys_set_new by (apply Hfresh; now left).
      now rewrite <- app_assoc.
    + intros k Hk. rewrite dict_keys_set_new by (apply Hfresh; now left).
      rewrite in_app_iff. simpl. intros [Hin|[->|[]]].
      * apply (Hfresh k); auto. now right.
      * contradiction.
Qed.

Ltac cfg_leaf := unfold flag_kept, config_is in *; simpl; auto.

(** One step of a proof that a stage keeps the configuration and the
    fitted flag. *)
Ltac cfg_step :=
  lazymatch goal with
  | |- triple _ _ (bind _ _) _ =>
      apply triple_seq with (Q := anything); [apply flag_kept_trans | | intros ? ]
  | |- triple _ _ (ret _) _ => apply triple_ret; [apply flag_kept_refl | exact I]
  | |- triple _ _ (raise _) _ => apply triple_raise; apply flag_kept_refl
  | |- triple _ _ (lift _) _ => apply triple_lift; apply flag_kept_refl
  | |- triple _ _ (load _) _ => apply triple_read; apply flag_kept_refl
  | |- triple _ _ get_self _ => apply triple_read; apply flag_kept_refl
  | |- triple _ _ get_config _ => apply triple_read; apply flag_kept_refl
  | |- triple _ _ (copy _) _ =>
      apply triple_copy_under; intros; cfg_leaf
  | |- triple _ _ (checked_call _) _ => unfold checked_call
  | |- triple _ _ (for_each _ _ _) _ =>
      apply triple_for_each;
      [apply flag_kept_refl | apply flag_kept_trans | intros ? ?]
  | |- triple _ _ (match ?x with _ => _ end) _ => destruct x
  | |- triple _ _ (let (_, _) := ?x in _) _ => destruct x
  | |- triple _ _ _ _ =>
      apply triple_modify; intros ? ?; split; cfg_leaf
  end.

Section FitTransformSpec.

Context {L : NumericLibraries}.

Variable cfg0 : Config.

Lemma fit_bind {A} (m : M A) (k : A -> M (list (string * DataFrame)))
    (Q : A -> Prop) :
  triple (config_is cfg0) flag_kept m Q ->
  (forall a, Q a -> ends (config_is cfg0) (k a) (fit_transform_post cfg0)) ->
  ends (config_is cfg0) (bind m k) (fit_transform_post cfg0).
Proof.
  intros Hm Hk w Hw. unfold bind.
  destruct (Hm w Hw) as (HP & HR & HQ).
  destruct (m w) as [w1 [a|e]]; simpl in *.
  - specialize (Hk a (HQ a eq_refl) w1 HP).
    destruct (k a w1) as [w2 r]; simpl in *.
    unfold flag_kept in HR.
    destruct r; simpl in *; [exact Hk | congruence].
  - exact HR.
Qed.

Lemma kept_identify (df : ref) :
  triple (config_is cfg0) flag_kept (_identify_feature_types df) anything.
Proof.
  unfold _identify_feature_types, _log_step. repeat cfg_step.
Qed.

Lemma kept_handle (df : ref) (ft : FeatureTypes) :
  triple (config_is cfg0) flag_kept (_handle_missing_values df ft) anything.
Proof.
  unfold _handle_missing_values, impute_column, _log_step. repeat cfg_step.
Qed.

Lemma kept_power (X : ndarray) (names : list string) :
  triple (config_is cfg0) flag_kept (_apply_power_transformation X names) anything.
Proof.
  unfold _apply_power_transformation, _log_step. repeat cfg_step.
Qed.

Lemma kept_scaling (X : ndarray) :
  triple (config_is cfg0) flag_kept (_apply_scaling X) anything.
Proof.
  unfold _apply_scaling, _log_step. repeat cfg_step.
Qed.

Lemma kept_encode (df : ref) (cats : list string) :
  triple (config_is cfg0) flag_kept (_encode_categorical_features df cats) anything.
Proof.
  unfold _encode_categorical_features, _log_step. repeat cfg_step.
Qed.

Lemma kept_reduction (X : ndarray) (names : list string) :
  triple (config_is cfg0) flag_kept (_apply_dimensionality_reduction X names)
         anything.
Proof.
  unfold _apply_dimensionality_reduction, pca_stage, tsne_stage, _log_step.
  repeat cfg_step.
Qed.

Lemma kept_add_columns (target : ref) (source : DataFrame) (rename : string -> string) :
  triple (config_is cfg0) flag_kept (add_columns target source rename) anything.
Proof.
  unfold add_columns. repeat cfg_step.
Qed.

Lemma kept_reduction_keys (X : ndarray) (names : list string) :
  triple (config_is cfg0) flag_kept (_apply_dimensionality_reduction X names)
         (fun rr => anything rr
                    /\ dict_keys rr = reduction_keys (dimensionality_reduction cfg0)).
Proof.
  apply triple_strengthen; [apply kept_reduction|].
  intros w rr Hw Hrun.
  pose proof (reduction_outcome_keys w _ X names _ (surjective_pairing _)) as H.
  rewrite Hrun in H. destruct H as [H _]. unfold config_is in Hw.
  now rewrite Hw in H.
Qed.

Lemma kept_store_reduction (index : list nat)
    (item : string * (ndarray * reducer)) (results : list (string * DataFrame)) :
  triple (config_is cfg0) flag_kept (store_reduction index item results)
         (fun r' => exists frame, r' = dict_set (fst item) frame results).
Proof.
  unfold store_reduction. destruct item as [method [X red]]. simpl.
  eapply triple_seq; [apply flag_kept_trans | destruct red; cfg_step | intros _].
  eapply triple_bind; [apply flag_kept_trans | apply triple_lift, flag_kept_refl
                      | intros frame _].
  apply triple_ret; [apply flag_kept_refl | eauto].
Qed.

Lemma kept_store_reductions (index : list nat)
    (rr : list (string * (ndarray * reducer))) :
  forall results,
    triple (config_is cfg0) flag_kept
           (for_each rr results (store_reduction index))
           (assigned (map fst rr) results).
Proof.
  induction rr as [|item rr IH]; intros results; simpl.
  - apply triple_ret; [apply flag_kept_refl | constructor].
  - eapply triple_bind; [apply flag_kept_trans | apply kept_store_reduction|].
    intros r1 [frame ->].
    eapply triple_weaken; [apply IH|].
    intros r' H. econstructor. exact H.
Qed.

Lemma assigned_app {V} (ks1 : list string) :
  forall (ks2 : list string) (d d1 d2 : list (string * V)),
    assigned ks1 d d1 -> assigned ks2 d1 d2 -> assigned (ks1 ++ ks2) d d2.
Proof.
  induction ks1 as [|k ks1 IH]; intros ks2 d d1 d2 H1 H2; inversion H1; subst;
    simpl; auto.
  econstructor. eapply IH; eauto.
Qed.

Ltac fit_leaf :=
  lazymatch goal with
  | |- triple _ _ (add_columns _ _ _) _ => apply kept_add_columns
  | |- triple _ _ (_identify_feature_types _) _ => apply kept_identify
  | |- triple _ _ (_handle_missing_values _ _) _ => apply kept_handle
  | _ => cfg_step
  end.

Ltac fit_skip :=
  apply fit_bind with (Q := anything); [ solve [repeat fit_leaf] | intros ? _ ].

Lemma fit_transform_spec (df : ref) :
  ends (config_is cfg0) (fit_transform df) (fit_transform_post cfg0).
Proof.
  unfold fit_transform.
  fit_skip. apply fit_bind with (Q := anything); [apply kept_identify|].
  intros ft _. fit_skip. fit_skip. fit_skip.
  apply fit_bind with (Q := anything); [apply kept_power|].
  intros [X_power pt] _. fit_skip.
  apply fit_bind with (Q := anything); [apply kept_scaling|].
  intros [X_scaled sc] _. fit_skip.
  apply fit_bind with (Q := anything); [apply kept_encode|].
  intros [[X_categorical encoded] enc] _. fit_skip.
  set (numerical := numerical_features ft).
  set (has_encoded := (0 <? width X_categorical)%nat).
  (* Step 7: the combined feature names *)
  apply fit_bind
    with (Q := fun p : ndarray * list string =>
                 snd p = if has_encoded then (numerical ++ encoded)%list
                         else numerical).
  { destruct has_encoded.
    - eapply triple_seq; [apply flag_kept_trans | cfg_step | intros X].
      apply triple_ret; [apply flag_kept_refl | reflexivity].
    - apply triple_ret; [apply flag_kept_refl | reflexivity]. }
  intros [X_combined combined] Hcombined. simpl in Hcombined.
  (* Step 8 *)
  apply fit_bind with (1 := kept_reduction_keys X_combined combined).
  intros rr [_ Hrr].
  fit_skip.
  apply fit_bind with (Q := anything); [repeat cfg_step | intros power_frame _].
  apply fit_bind with (Q := fun f => column_names f = numerical).
  { apply triple_lift_ok; [apply flag_kept_refl|].
    intros f Hf. now apply make_frame_names in Hf. }
  intros scaled_frame Hscaled.
  apply fit_bind with (Q := fun f => column_names f = combined).
  { apply triple_lift_ok; [apply flag_kept_refl|].
    intros f Hf. now apply make_frame_names in Hf. }
  intros combined_frame Hcombined_frame.
  match goal with
  | |- ends _ (bind _ ?k) _ =>
      apply fit_bind
        with (Q := assigned (if has_encoded then ["categorical_encoded"] else [])
                     (dict_set "combined" combined_frame
                        (dict_set "scaled" scaled_frame
                           (dict_set "power_transformed" power_frame []))))
  end.
  { destruct has_encoded.
    - eapply triple_seq; [apply flag_kept_trans | cfg_step | intros f].
      apply triple_ret; [apply flag_kept_refl | repeat econstructor].
    - apply triple_ret; [apply flag_kept_refl | constructor]. }
  intros results Hresults.
  apply fit_bind with (1 := kept_store_reductions _ rr results).
  intros results' Hresults'.
  fit_skip. fit_skip. fit_skip. fit_skip. fit_skip.
  (* the assignments at the end *)
  intros w Hw.
  unfold bind, update_self, _log_step, log_to, modify, ret. simpl.
  split; [reflexivity|].
  exists numerical, (categorical_features_available ft), encoded, has_encoded.
  cbv zeta. rewrite <- Hcombined.
  pose proof (assigned_app _ _ _ _ _ Hresults Hresults') as Hall.
  unfold dict_keys in Hrr. rewrite Hrr in Hall.
  split; [reflexivity|].
  assert (Hfresh : forall k,
             In k ((if has_encoded then ["categorical_encoded"] else [])
                   ++ reduction_keys (dimensionality_reduction cfg0))%list ->
             k = "categorical_encoded" \/ k = "pca" \/ k = "tsne").
  { intros k. unfold reduction_keys.
    destruct has_encoded, (apply_pca _), (apply_tsne _); simpl; intuition. }
  assert (Hnd : NoDup ((if has_encoded then ["categorical_encoded"] else [])
                       ++ reduction_keys (dimensionality_reduction cfg0))%list).
  { unfold reduction_keys.
    destruct has_encoded, (apply_pca _), (apply_tsne _); simpl;
      repeat constructor; simpl; intuition discriminate. }
  split; [|split].
  - rewrite dict_keys_set_new.
    + rewrite (assigned_keys _ _ _ Hall Hnd).
      * simpl. now rewrite <- !app_assoc.
      * intros k Hk. apply Hfresh in Hk. simpl.
        intuition (subst; discriminate).
    + rewrite (assigned_keys _ _ _ Hall Hnd).
      * rewrite in_app_iff. simpl. intros [H|H].
        -- intuition discriminate.
        -- apply Hfresh in H. intuition discriminate.
      * intros k Hk. apply Hfresh in Hk. simpl.
        intuition (subst; discriminate).
  - exists scaled_frame. split; auto.
    rewrite dict_get_set_other by discriminate.
    rewrite (assigned_get _ _ _ "scaled" Hall).
    + reflexivity.
    + intros H. apply Hfresh in H. intuition discriminate.
  - exists combined_frame. split; auto.
    rewrite dict_get_set_other by discriminate.
    rewrite (assigned_get _ _ _ "combined" Hall).
    + reflexivity.
    + intros H. apply Hfresh in H. intuition discriminate.
Qed.

End FitTransformSpec.

Section FitTransformTheorems.

Context {L : NumericLibraries}.

(** X13: [fit_transform] sets the fitted flag exactly when it returns: after
    a normal return the flag is true; when any stage raises, the flag is
    what it was before the call. *)
Theorem fit_transform_sets_the_flag_only_on_success :
  forall (w : World) (df : ref),
    let (w', outcome) := fit_transform df w in
    match outcome with
    | Ok _ => fitted (self w') = true
    | Raise _ => fitted (self w') = fitted (self w)
    end.
Proof.
  intros w df. pose proof (fit_transform_spec (config (self w)) df w eq_refl) as H.
  destruct (fit_transform df w) as [w' [results|e]]; simpl in H; tauto.
Qed.

(** X14: whenever [fit_transform] returns, its mapping holds, in this
    order, "power_transformed" (also when no power transform was fitted),
    "scaled", "combined", possibly "categorical_encoded", then "pca" exactly
    when PCA is enabled, "tsne" exactly when t-SNE is enabled, and last
    "complete". *)
Theorem fit_transform_variants :
  forall (w w' : World) (df : ref) (results : list (string * DataFrame)),
    fit_transform df w = (w', Ok results) ->
    exists has_encoded : bool,
      dict_keys results
      = (["power_transformed"; "scaled"; "combined"]
         ++ (if has_encoded then ["categorical_encoded"] else [])
         ++ reduction_keys (dimensionality_reduction (config (self w)))
         ++ ["complete"])%list.
Proof.
  intros w w' df results Hrun.
  pose proof (fit_transform_spec (config (self w)) df w eq_refl) as H.
  rewrite Hrun in H.
  destruct H as (_ & nums & cats & enc & b & _ & Hkeys & _). eauto.
Qed.

(** X15: after a normal return of [fit_transform] the pipeline records
    exactly the four lists "numerical", "categorical", "categorical_encoded"
    and "combined"; the combined list is the numerical list, followed by
    the encoded names when the encoder produced columns; and the columns of
    the "scaled" and "combined" variants are the recorded numerical and
    combined lists. *)
Theorem fit_transform_records_the_feature_names :
  forall (w w' : World) (df : ref) (results : list (string * DataFrame)),
    fit_transform df w = (w', Ok results) ->
    exists numerical categorical encoded combined,
      feature_names_ (self w')
      = [("numerical", numerical); ("categorical", categorical);
         ("categorical_encoded", encoded); ("combined", combined)]
      /\ (combined = (numerical ++ encoded)%list \/ combined = numerical)
      /\ (exists frame, dict_get "scaled" results = Some frame
                        /\ column_names frame = numerical)
      /\ (exists frame, dict_get "combined" results = Some frame
                        /\ column_names frame = combined).
Proof.
  intros w w' df results Hrun.
  pose proof (fit_transform_spec (config (self w)) df w eq_refl) as H.
  rewrite Hrun in H.
  destruct H as (_ & nums & cats & enc & b & Hnames & _ & Hs & Hc).
  exists nums, cats, enc, (if b then (nums ++ enc)%list else nums).
  repeat split; auto. destruct b; auto.
Qed.

End FitTransformTheorems.

(* ------------------------------------------------------------------ *)
(** ** [transform]: errors and row identity *)

Lemma select_columns_missing (frame : DataFrame) (names : list string) :
  (exists c, In c names /\ ~ In c (column_names frame)) ->
  exists key, select_columns frame names = Raise (KeyError key).
Proof.
  intros [c [Hin Habs]]. unfold select_columns.
  destruct (filter _ names) as [|m ms] eqn:E; [|eauto].
  assert (Hf : In c (filter (fun c => negb (mem c (column_names frame))) names)).
  { apply filter_In. split; auto. apply negb_true_iff.
    destruct (mem c (column_names frame)) eqn:Em; auto.
    apply mem_In in Em. contradiction. }
  rewrite E in Hf. destruct Hf.
Qed.

Lemma select_columns_present (frame : DataFrame) (names : list string) :
  (forall c, In c names -> In c (column_names frame)) ->
  exists selected, select_columns frame names = Ok selected.
Proof.
  intros Hall. unfold select_columns.
  destruct (filter _ names) as [|m ms] eqn:E; [eauto|].
  assert (Hin : In m (filter (fun c => negb (mem c (column_names frame))) names))
    by (rewrite E; now left).
  apply filter_In in Hin. destruct Hin as [Hin Hneg].
  apply negb_true_iff in Hneg. apply Hall, mem_In in Hin. congruence.
Qed.

Section TransformEdges.

Context {L : NumericLibraries}.

Lemma apply_fitted_stages_index (w w' : World) (df_clean : ref)
    (results : list (string * DataFrame)) :
  apply_fitted_stages df_clean w = (w', Ok results) ->
  forall name frame,
    In (name, frame) results -> df_index frame = df_index (deref w df_clean).
Proof.
  unfold apply_fitted_stages, feature_names_of, bind, get_self, load, lift,
    call, modify, ret, raise.
  intros H.
  repeat (split_match H; simpl in H; try discriminate).
  all: inversion H; subst; clear H; simpl.
  all: repeat match goal with
         | Hm : make_frame _ _ _ = Ok _ |- _ =>
             apply make_frame_names in Hm; destruct Hm as [_ ?]
         end.
  all: intros name frame Hin; simpl in Hin;
    repeat (destruct Hin as [Hin|Hin]; [inversion Hin; subst; auto|]);
    destruct Hin.
Qed.

(** X16: every variant returned by [transform] carries the index of the
    new dataframe: the output has the rows of the dataset handed in, in
    their order, whatever the dataset the pipeline was fitted on. *)
Theorem transform_keeps_the_rows_of_the_new_dataframe :
  forall (w w' : World) (df : ref) (results : list (string * DataFrame)),
    transform df w = (w', Ok results) ->
    forall name frame,
      In (name, frame) results ->
      df_index frame = df_index (deref w df)
      /\ frame_len frame = frame_len (deref w df).
Proof.
  intros w w' df results Hrun name frame Hin.
  destruct (transform_prefix_ok w w' df results Hrun)
    as (Hfitted & w2 & E & _ & _ & Hclean).
  pose proof (apply_fitted_stages_index _ _ _ _ E name frame Hin) as Hi.
  rewrite Hclean in Hi.
  destruct (impute_frame_shape (config (self w))
              (classify (config (self w)) (deref w df)) (deref w df)) as [Hidx _].
  rewrite Hidx in Hi. unfold frame_len. now rewrite Hi.
Qed.

(** X17: when a column of the fit-time numerical list is absent from the
    new dataframe, [transform] raises before any estimator is called: the
    KeyError of the column selection once imputation has returned, and
    the exception of the imputation stage when that stage raises. *)
Theorem transform_raises_key_error_on_a_missing_column :
  forall (w : World) (df : ref) (names : list string),
    fitted (self w) = true ->
    dict_get "numerical" (feature_names_ (self w)) = Some names ->
    (exists c, In c names /\ ~ In c (column_names (deref w df))) ->
    let (w', outcome) := transform df w in
    match imputation_error (config (self w))
            (classify (config (self w)) (deref w df)) (deref w df) with
    | None => exists key, outcome = Raise (KeyError key)
    | Some e => outcome = Raise e
    end
    /\ estimator_calls w' = estimator_calls w.
Proof.
  intros w df names Hfitted Hnames Hmissing.
  destruct (transform_prefix w df Hfitted) as (w2 & E & Hs2 & Hc2 & Hclean).
  rewrite E.
  destruct (imputation_error _ _ _) as [e|]; [auto|].
  specialize (Hclean eq_refl).
  assert (Hn2 : feature_names_ (self w2) = feature_names_ (self w)).
  { unfold fitted_state in Hs2. now inversion Hs2. }
  destruct (select_columns_missing (deref w2 (length (heap w))) names) as [key Hkey].
  { rewrite Hclean.
    destruct (impute_frame_shape (config (self w))
                (classify (config (self w)) (deref w df)) (deref w df)) as [_ Hn].
    now rewrite Hn. }
  unfold apply_fitted_stages, feature_names_of, bind, get_self, load, lift.
  simpl. rewrite Hn2, Hnames. simpl. rewrite Hkey. simpl. eauto.
Qed.

(** X18: a pipeline whose fitted flag is true but which holds no scaler
    (as after loading a saved pipeline whose scaler file is absent) cannot
    transform: with all fit-time numerical columns present, [transform]
    raises AttributeError once imputation has returned, and the exception
    of the imputation stage when that stage raises. *)
Theorem transform_without_scaler_raises_attribute_error :
  forall (w : World) (df : ref) (names : list string),
    fitted (self w) = true ->
    scaler (self w) = None ->
    dict_get "numerical" (feature_names_ (self w)) = Some names ->
    (forall c, In c names -> In c (column_names (deref w df))) ->
    snd (transform df w)
    = match imputation_error (config (self w))
              (classify (config (self w)) (deref w df)) (deref w df) with
      | None =>
          Raise (AttributeError "'NoneType' object has no attribute 'transform'")
      | Some e => Raise e
      end.
Proof.
  intros w df names Hfitted Hscaler Hnames Hall.
  destruct (transform_prefix w df Hfitted) as (w2 & E & Hs2 & Hc2 & Hclean).
  rewrite E.
  destruct (imputation_error _ _ _) as [e|]; [reflexivity|].
  specialize (Hclean eq_refl).
  assert (Hn2 : feature_names_ (self w2) = feature_names_ (self w)
                /\ scaler (self w2) = scaler (self w)
                /\ power_transformer (self w2) = power_transformer (self w)).
  { unfold fitted_state in Hs2. inversion Hs2. auto. }
  destruct Hn2 as (Hn2 & Hsc2 & Hpt2).
  destruct (select_columns_present (deref w2 (length (heap w))) names)
    as [selected Hsel].
  { rewrite Hclean.
    destruct (impute_frame_shape (config (self w))
                (classify (config (self w)) (deref w df)) (deref w df)) as [_ Hn].
    now rewrite Hn. }
  unfold apply_fitted_stages, feature_names_of, bind, get_self, load, lift, call,
    modify, ret, raise.
  simpl. rewrite Hn2, Hnames. simpl. rewrite Hsel. simpl.
  rewrite Hsc2, Hscaler, Hpt2.
  destruct (power_transformer (self w)); reflexivity.
Qed.

End TransformEdges.

(* ------------------------------------------------------------------ *)
(** ** [save_pipeline] and [load_pipeline] *)

Lemma last_dump_app (l1 l2 : list disk_op) (path : string) :
  last_dump (l1 ++ l2) path
  = match last_dump l2 path with
    | Some content => Some content
    | None => last_dump l1 path
    end.
Proof.
  induction l1 as [|op l1 IH]; simpl.
  - now destruct (last_dump l2 path).
  - rewrite IH. destruct (last_dump l2 path); auto.
Qed.

Lemma eqb_append_l (p a b : string) :
  String.eqb (p ++ a) (p ++ b) = String.eqb a b.
Proof.
  induction p as [|c p IH]; simpl; auto.
  now rewrite Ascii.eqb_refl.
Qed.

Section SaveAndLoad.

Context {L : NumericLibraries}.

Lemma made_directory_app (l1 l2 : list disk_op) (path : string) :
  made_directory (l1 ++ l2) path
  = made_directory l1 path || made_directory l2 path.
Proof. unfold made_directory. apply existsb_app. Qed.

Lemma save_pipeline_run (w w' : World) (filepath : string) :
  save_pipeline filepath w = (w', Ok tt) ->
  fitted (self w) = true
  /\ self w' = self w
  /\ disk w'
     = ((disk w ++ [Mkdir (path_parent filepath)])
        ++ saved_files filepath (self w))%list.
Proof.
  unfold save_pipeline, bind, get_self, raise.
  destruct (fitted (self w)) eqn:Hf; simpl; [|discriminate].
  unfold saved_files, dump_component, component_file, dump, log_to, modify,
    bind, ret.
  destruct w as [h p lg calls d]. simpl in *.
  destruct (power_transformer p), (scaler p), (categorical_encoder p),
    (pca p), (tsne p); simpl; intros H; inversion H; subst; simpl;
    repeat split; auto; rewrite <- ?app_assoc, ?Hf; reflexivity.
Qed.

Lemma made_directory_saved (filepath path : string) (p : Pipeline) :
  made_directory (saved_files filepath p) path = false.
Proof.
  unfold saved_files, component_file.
  destruct (power_transformer p), (scaler p), (categorical_encoder p),
    (pca p), (tsne p); reflexivity.
Qed.

Lemma fs_lookup_saved (ops : list disk_op) (filepath path : string)
    (p : Pipeline) :
  fs_lookup (ops ++ saved_files filepath p) path
  = match last_dump (saved_files filepath p) path with
    | Some content => File content
    | None => fs_lookup ops path
    end.
Proof.
  unfold fs_lookup. rewrite last_dump_app, made_directory_app,
    made_directory_saved, orb_false_r.
  now destruct (last_dump (saved_files filepath p) path).
Qed.

Lemma last_dump_saved (filepath : string) (p : Pipeline) :
  last_dump (saved_files filepath p) (filepath ++ "_pipeline.pkl")
  = Some (PickledPipelineData (config p) (feature_names_ p)
                              (preprocessing_log p) (fitted p))
  /\ last_dump (saved_files filepath p) (filepath ++ "_power_transformer.pkl")
     = option_map PickledPowerTransformer (power_transformer p)
  /\ last_dump (saved_files filepath p) (filepath ++ "_scaler.pkl")
     = option_map PickledScaler (scaler p)
  /\ last_dump (saved_files filepath p) (filepath ++ "_categorical_encoder.pkl")
     = option_map PickledEncoder (categorical_encoder p)
  /\ last_dump (saved_files filepath p) (filepath ++ "_pca.pkl")
     = option_map PickledPCA (pca p)
  /\ last_dump (saved_files filepath p) (filepath ++ "_tsne.pkl")
     = option_map PickledTSNE (tsne p).
Proof.
  unfold saved_files, component_file.
  destruct (power_transformer p), (scaler p), (categorical_encoder p),
    (pca p), (tsne p); simpl; rewrite !eqb_append_l; simpl;
    repeat split; reflexivity.
Qed.

Lemma fs_lookup_file (ops : list disk_op) (path : string) (content : pickled) :
  fs_lookup ops path = File content -> last_dump ops path = Some content.
Proof.
  unfold fs_lookup. destruct (last_dump ops path); [congruence|].
  destruct (made_directory ops path); discriminate.
Qed.

Lemma fs_lookup_absent (ops : list disk_op) (path : string) :
  fs_lookup ops path = Absent -> last_dump ops path = None.
Proof.
  unfold fs_lookup. destruct (last_dump ops path); [discriminate|auto].
Qed.

Lemma load_components_cons_success (ops : list disk_op) (filepath name : string)
    (rest : list string) (a a' : Attributes) :
  load_components ops filepath (name :: rest) a = (a', None) ->
  load_components ops filepath rest
    (setattr_component a name
       (last_dump ops (filepath ++ "_" ++ name ++ ".pkl")))
  = (a', None).
Proof.
  simpl. unfold path_exists, joblib_load.
  destruct (fs_lookup ops _) as [| |content] eqn:E.
  - apply fs_lookup_absent in E. now rewrite E.
  - discriminate.
  - apply fs_lookup_file in E. now rewrite E.
Qed.

Lemma load_components_success (ops : list disk_op) (filepath : string)
    (a a' : Attributes) :
  load_components ops filepath components_to_load a = (a', None) ->
  a' = mkAttributes (attr_config a) (attr_feature_names_ a)
         (attr_preprocessing_log a) (attr_fitted a)
         (last_dump ops (filepath ++ "_power_transformer.pkl"))
         (last_dump ops (filepath ++ "_scaler.pkl"))
         (last_dump ops (filepath ++ "_categorical_encoder.pkl"))
         (last_dump ops (filepath ++ "_pca.pkl"))
         (last_dump ops (filepath ++ "_tsne.pkl")).
Proof.
  unfold components_to_load. intros H.
  do 5 apply load_components_cons_success in H.
  simpl in H. inversion H. reflexivity.
Qed.

(** X19: a successful [load_pipeline] overwrites all nine attributes with
    what the disk holds: the four fields of the primary record, and for
    each component the object in its file, or None when the file is
    absent, whatever the receiving object held before. *)
Theorem load_overwrites_every_attribute :
  forall (filepath : string) (ops : list disk_op) (a a' : Attributes)
         (log log' : list (log_level * string)),
    load_pipeline filepath ops a log = (a', log', None) ->
    exists c names entries is_fitted,
      last_dump ops (filepath ++ "_pipeline.pkl")
      = Some (PickledPipelineData c names entries is_fitted)
      /\ a' = mkAttributes c names entries is_fitted
                (last_dump ops (filepath ++ "_power_transformer.pkl"))
                (last_dump ops (filepath ++ "_scaler.pkl"))
                (last_dump ops (filepath ++ "_categorical_encoder.pkl"))
                (last_dump ops (filepath ++ "_pca.pkl"))
                (last_dump ops (filepath ++ "_tsne.pkl"))
      /\ log' = (log ++ [(INFO, ("Pipeline loaded from " ++ filepath)%string)])%list.
Proof.
  intros filepath ops a a' log log'. unfold load_pipeline, joblib_load.
  destruct (fs_lookup ops (filepath ++ "_pipeline.pkl")) as [| |content] eqn:E;
    try discriminate.
  apply fs_lookup_file in E.
  destruct content as [c names entries is_fitted| | | | |]; try discriminate.
  destruct (load_components _ _ _ _) as [a1 [e|]] eqn:Hc; [discriminate|].
  intros H. inversion H; subst; clear H.
  apply load_components_success in Hc. simpl in Hc.
  exists c, names, entries, is_fitted. auto.
Qed.

Lemma last_dump_after_mkdir (ops : list disk_op) (dir path : string) :
  last_dump (ops ++ [Mkdir dir]) path = last_dump ops path.
Proof. now rewrite last_dump_app. Qed.

(** X20: saving a pipeline and loading the files into any pipeline object
    restores the saved attributes, estimators included, and logs one INFO
    entry - provided that nothing exists at the component path of each
    estimator the saved pipeline does not hold. *)
Theorem save_then_load_restores_the_pipeline :
  forall (w w' : World) (filepath : string) (a : Attributes)
         (log : list (log_level * string)),
    save_pipeline filepath w = (w', Ok tt) ->
    (forall name,
        In name (unfitted_components (self w)) ->
        fs_lookup (disk w ++ [Mkdir (path_parent filepath)])
                  (filepath ++ "_" ++ name ++ ".pkl") = Absent) ->
    load_pipeline filepath (disk w') a log
    = (attributes_of (self w),
       (log ++ [(INFO, ("Pipeline loaded from " ++ filepath)%string)])%list,
       None).
Proof.
  intros w w' filepath a log Hsave Hclean.
  destruct (save_pipeline_run w w' filepath Hsave) as (Hf & _ & Hdisk).
  destruct (last_dump_saved filepath (self w))
    as (Hp & Hpt & Hsc & Hen & Hpca & Hts).
  assert (Hin : forall {A} (component : option A) (name : string),
             component = None -> In name (name_if_none component name)).
  { intros A component name E. rewrite E. now left. }
  assert (H1 : fs_lookup (disk w') (filepath ++ "_power_transformer.pkl")
               = match power_transformer (self w) with
                 | Some c => File (PickledPowerTransformer c)
                 | None => Absent
                 end).
  { rewrite Hdisk, fs_lookup_saved, Hpt.
    destruct (power_transformer (self w)) eqn:E; simpl; auto.
    apply (Hclean "power_transformer"). unfold unfitted_components.
    rewrite !in_app_iff. rewrite E. simpl. tauto. }
  assert (H2 : fs_lookup (disk w') (filepath ++ "_scaler.pkl")
               = match scaler (self w) with
                 | Some c => File (PickledScaler c)
                 | None => Absent
                 end).
  { rewrite Hdisk, fs_lookup_saved, Hsc.
    destruct (scaler (self w)) eqn:E; simpl; auto.
    apply (Hclean "scaler"). unfold unfitted_components.
    rewrite !in_app_iff. rewrite E. simpl. tauto. }
  assert (H3 : fs_lookup (disk w') (filepath ++ "_categorical_encoder.pkl")
               = match categorical_encoder (self w) with
                 | Some c => File (PickledEncoder c)
                 | None => Absent
                 end).
  { rewrite Hdisk, fs_lookup_saved, Hen.
    destruct (categorical_encoder (self w)) eqn:E; simpl; auto.
    apply (Hclean "categorical_encoder"). unfold unfitted_components.
    rewrite !in_app_iff. rewrite E. simpl. tauto. }
  assert (H4 : fs_lookup (disk w') (filepath ++ "_pca.pkl")
               = match pca (self w) with
                 | Some c => File (PickledPCA c)
                 | None => Absent
                 end).
  { rewrite Hdisk, fs_lookup_saved, Hpca.
    destruct (pca (self w)) eqn:E; simpl; auto.
    apply (Hclean "pca"). unfold unfitted_components.
    rewrite !in_app_iff. rewrite E. simpl. tauto. }
  assert (H5 : fs_lookup (disk w') (filepath ++ "_tsne.pkl")
               = match tsne (self w) with
                 | Some c => File (PickledTSNE c)
                 | None => Absent
                 end).
  { rewrite Hdisk, fs_lookup_saved, Hts.
    destruct (tsne (self w)) eqn:E; simpl; auto.
    apply (Hclean "tsne"). unfold unfitted_components.
    rewrite !in_app_iff. rewrite E. simpl. tauto. }
  assert (H0 : fs_lookup (disk w') (filepath ++ "_pipeline.pkl")
               = File (PickledPipelineData (config (self w))
                         (feature_names_ (self w))
                         (preprocessing_log (self w)) true)).
  { now rewrite Hdisk, fs_lookup_saved, Hp, Hf. }
  unfold load_pipeline, joblib_load. rewrite H0.
  unfold components_to_load. simpl load_components.
  unfold path_exists, joblib_load. rewrite H1, H2, H3, H4, H5.
  unfold attributes_of. rewrite Hf.
  destruct (power_transformer (self w)), (scaler (self w)),
    (categorical_encoder (self w)), (pca (self w)), (tsne (self w));
    reflexivity.
Qed.

(** X21: [save_pipeline] writes no file for an estimator the pipeline
    does not hold and removes none.  When a load after the save succeeds,
    the primary fields are the saved ones, and each component attribute
    is the saved estimator if the pipeline held one, and otherwise the
    object that an earlier dump left at the component path. *)
Theorem load_after_save_reads_files_of_earlier_saves :
  forall (w w' : World) (filepath : string) (a a' : Attributes)
         (log log' : list (log_level * string)),
    save_pipeline filepath w = (w', Ok tt) ->
    load_pipeline filepath (disk w') a log = (a', log', None) ->
    let kept {A} (wrap : A -> pickled) (component : option A) (name : string) :=
      match component with
      | Some c => Some (wrap c)
      | None => last_dump (disk w) (filepath ++ "_" ++ name ++ ".pkl")
      end in
    a' = mkAttributes (config (self w)) (feature_names_ (self w))
           (preprocessing_log (self w)) true
           (kept PickledPowerTransformer (power_transformer (self w))
                 "power_transformer")
           (kept PickledScaler (scaler (self w)) "scaler")
           (kept PickledEncoder (categorical_encoder (self w))
                 "categorical_encoder")
           (kept PickledPCA (pca (self w)) "pca")
           (kept PickledTSNE (tsne (self w)) "tsne").
Proof.
  intros w w' filepath a a' log log' Hsave.
  destruct (save_pipeline_run w w' filepath Hsave) as (Hf & _ & Hdisk).
  destruct (last_dump_saved filepath (self w))
    as (Hp & Hpt & Hsc & Hen & Hpca & Hts).
  rewrite Hdisk. unfold load_pipeline, joblib_load.
  rewrite fs_lookup_saved, Hp.
  destruct (load_components _ _ _ _) as [a1 [e|]] eqn:Hc; [discriminate|].
  intros H. inversion H; subst; clear H.
  apply load_components_success in Hc. simpl in Hc.
  rewrite !last_dump_app, Hpt, Hsc, Hen, Hpca, Hts in Hc.
  simpl in Hc. rewrite Hf in Hc. rewrite Hc.
  destruct (power_transformer (self w)), (scaler (self w)),
    (categorical_encoder (self w)), (pca (self w)), (tsne (self w));
    reflexivity.
Qed.

Lemma setattr_component_primary (a : Attributes) (name : string)
    (value : option pickled) :
  attr_config (setattr_component a name value) = attr_config a
  /\ attr_feature_names_ (setattr_component a name value)
     = attr_feature_names_ a
  /\ attr_preprocessing_log (setattr_component a name value)
     = attr_preprocessing_log a
  /\ attr_fitted (setattr_component a name value) = attr_fitted a.
Proof.
  unfold setattr_component.
  repeat match goal with
         | |- context [if ?b then _ else _] => destruct b
         end; simpl; auto.
Qed.

Lemma load_components_failure (ops : list disk_op) (filepath : string)
    (names : list string) :
  forall (a a' : Attributes) (e : load_exn),
    load_components ops filepath names a = (a', Some e) ->
    (attr_config a' = attr_config a
     /\ attr_feature_names_ a' = attr_feature_names_ a
     /\ attr_preprocessing_log a' = attr_preprocessing_log a
     /\ attr_fitted a' = attr_fitted a)
    /\ exists name,
         In name names
         /\ e = IsADirectoryError (filepath ++ "_" ++ name ++ ".pkl").
Proof.
  induction names as [|name rest IH]; intros a a' e; simpl.
  - discriminate.
  - unfold path_exists, joblib_load.
    destruct (fs_lookup ops _) as [| |content] eqn:E.
    + intros H. apply IH in H. destruct H as (Hprim & n & Hin & He).
      destruct (setattr_component_primary a name None) as (H1 & H2 & H3 & H4).
      rewrite H1, H2, H3, H4 in Hprim. split; [exact Hprim|]. eauto.
    + intros H. inversion H; subst. split; [auto|]. eauto.
    + intros H. apply IH in H. destruct H as (Hprim & n & Hin & He).
      destruct (setattr_component_primary a name (Some content))
        as (H1 & H2 & H3 & H4).
      rewrite H1, H2, H3, H4 in Hprim. split; [exact Hprim|]. eauto.
Qed.

(** X22: a failed load logs one ERROR entry carrying the exception text
    and re-raises.  It leaves the object as it was when the primary record
    is missing, is a directory or is not a pipeline record.  When the
    primary record loads and a component path is a directory, the load
    fails with config, feature names, log and fitted flag already
    overwritten by the record. *)
Theorem failed_load_keeps_or_half_overwrites_the_object :
  forall (filepath : string) (ops : list disk_op) (a a' : Attributes)
         (log log' : list (log_level * string)) (e : load_exn),
    load_pipeline filepath ops a log = (a', log', Some e) ->
    log' = (log ++ [(ERROR, ("Failed to load pipeline from " ++ filepath
                             ++ ": " ++ str_of e)%string)])%list
    /\ match fs_lookup ops (filepath ++ "_pipeline.pkl") with
       | File (PickledPipelineData c names entries is_fitted) =>
           attr_config a' = c
           /\ attr_feature_names_ a' = names
           /\ attr_preprocessing_log a' = entries
           /\ attr_fitted a' = is_fitted
           /\ exists name,
                In name components_to_load
                /\ e = IsADirectoryError (filepath ++ "_" ++ name ++ ".pkl")
       | File other =>
           a' = a
           /\ e = TypeError ("'" ++ type_name other
                             ++ "' object is not subscriptable")
       | Directory =>
           a' = a /\ e = IsADirectoryError (filepath ++ "_pipeline.pkl")
       | Absent =>
           a' = a /\ e = FileNotFoundError (filepath ++ "_pipeline.pkl")
       end.
Proof.
  intros filepath ops a a' log log' e. unfold load_pipeline, joblib_load.
  destruct (fs_lookup ops (filepath ++ "_pipeline.pkl")) as [| |content].
  - intros H. inversion H; subst. auto.
  - intros H. inversion H; subst. auto.
  - destruct content as [c names entries is_fitted| | | | |];
      try (intros H; inversion H; subst; auto; fail).
    destruct (load_components _ _ _ _) as [a1 [e1|]] eqn:Hc; [|discriminate].
    intros H. inversion H; subst; clear H.
    apply load_components_failure in Hc. simpl in Hc.
    destruct Hc as ((H1 & H2 & H3 & H4) & Hname). auto 10.
Qed.

End SaveAndLoad.

(* ------------------------------------------------------------------ *)
(** ** [validate_output]: the mapping it returns *)

Lemma append_nonempty (a b : string) : b <> ""%string -> (a ++ b)%string <> ""%string.
Proof. destruct a; simpl; [auto | discriminate]. Qed.

Lemma last_char_append (a b : string) :
  b <> ""%string -> last_char (a ++ b) = last_char b.
Proof.
  intros Hb. induction a as [|c a IH]; simpl; auto.
  pose proof (append_nonempty a b Hb) as Hne.
  destruct (a ++ b)%string eqn:E; [congruence|]. exact IH.
Qed.

Lemma list_ascii_of_append (a b : string) :
  list_ascii_of_string (a ++ b)
  = (list_ascii_of_string a ++ list_ascii_of_string b)%list.
Proof. induction a as [|c a IH]; simpl; congruence. Qed.

Lemma append_inv_r (a b s : string) : (a ++ s = b ++ s)%string -> a = b.
Proof.
  intros H. apply (f_equal list_ascii_of_string) in H.
  rewrite !list_ascii_of_append in H. apply app_inv_tail in H.
  rewrite <- (string_of_list_ascii_of_string a),
          <- (string_of_list_ascii_of_string b). now rewrite H.
Qed.

Lemma dict_set_fresh {V} (k : string) (v : V) (d : list (string * V)) :
  ~ In k (dict_keys d) -> dict_set k v d = (d ++ [(k, v)])%list.
Proof.
  induction d as [|[k' v'] d IH]; simpl; auto.
  intros Hnot. destruct (String.eqb k' k) eqn:E.
  - apply String.eqb_eq in E. tauto.
  - rewrite IH; tauto.
Qed.

Lemma no_missing_keys (results : list (string * DataFrame)) (k : string) :
  In k (dict_keys (no_missing_entries results)) ->
  exists n, In n (map fst results) /\ k = (n ++ "_no_missing")%string.
Proof.
  unfold dict_keys, no_missing_entries. rewrite map_map. simpl.
  intros H. apply in_map_iff in H. destruct H as (item & Hk & Hin).
  apply filter_In in Hin. exists (fst item). split; [|auto].
  apply in_map. tauto.
Qed.

Section ValidationLoops.

Context {L : NumericLibraries}.

Lemma no_missing_entries_cons (item : string * DataFrame)
    (rest : list (string * DataFrame)) :
  no_missing_entries (item :: rest)
  = (no_missing_entries [item] ++ no_missing_entries rest)%list.
Proof.
  unfold no_missing_entries, mem. simpl.
  destruct (String.eqb (fst item) "tsne"); reflexivity.
Qed.

Lemma check_no_missing_step (n : string) (f : DataFrame)
    (acc : list (string * bool)) (w : World) :
  ~ In (n ++ "_no_missing")%string (dict_keys acc) ->
  exists w',
    check_no_missing (n, f) acc w
    = (w', Ok (acc ++ no_missing_entries [(n, f)])%list)
    /\ self w' = self w.
Proof.
  intros Hfresh. unfold check_no_missing, no_missing_entries, mem. simpl.
  destruct (String.eqb n "tsne"); simpl.
  - exists w. unfold ret. simpl. now rewrite app_nil_r.
  - rewrite dict_set_fresh by exact Hfresh.
    destruct (0 <? total_missing f)%nat;
      unfold bind, log_to, modify, ret; simpl; eauto.
Qed.

Lemma check_no_missing_loop (results : list (string * DataFrame)) :
  forall (acc : list (string * bool)) (w : World),
    NoDup (map fst results) ->
    (forall n, In n (map fst results) ->
               ~ In (n ++ "_no_missing")%string (dict_keys acc)) ->
    exists w',
      for_each results acc check_no_missing w
      = (w', Ok (acc ++ no_missing_entries results)%list)
      /\ self w' = self w.
Proof.
  induction results as [|[n f] rest IH]; intros acc w Hnd Hfresh.
  - exists w. simpl. unfold ret. now rewrite app_nil_r.
  - inversion Hnd as [|? ? Hn Hnd']; subst.
    destruct (check_no_missing_step n f acc w) as (w1 & E1 & Hs1).
    { apply Hfresh. now left. }
    destruct (IH (acc ++ no_missing_entries [(n, f)])%list w1 Hnd')
      as (w2 & E2 & Hs2).
    { intros m Hm Hin. unfold dict_keys in Hin. rewrite map_app in Hin.
      apply in_app_or in Hin. destruct Hin as [Hin|Hin].
      - apply (Hfresh m); [now right | exact Hin].
      - apply (no_missing_keys [(n, f)]) in Hin.
        destruct Hin as (n' & Hn' & E). simpl in Hn'.
        destruct Hn' as [Hn'|[]]. subst n'.
        apply append_inv_r in E. subst. contradiction. }
    exists w2.
    change (for_each ((n, f) :: rest) acc check_no_missing w)
      with (bind (check_no_missing (n, f) acc)
                 (fun s' => for_each rest s' check_no_missing) w).
    erewrite bind_run by exact E1. rewrite E2.
    rewrite (no_missing_entries_cons (n, f) rest), app_assoc.
    split; [reflexivity | congruence].
Qed.

Lemma check_shape_loop (results : list (string * DataFrame)) :
  forall (base : nat) (acc : list (string * bool)) (w : World),
    NoDup (map fst results) ->
    (forall n, In n (map fst results) ->
               ~ In (n ++ "_shape_consistent")%string (dict_keys acc)) ->
    for_each results (Some base, acc) check_shape w
    = (w, Ok (Some base,
              (acc ++ map (fun item =>
                             ((fst item ++ "_shape_consistent")%string,
                              (frame_len (snd item) =? base)%nat))
                          results)%list)).
Proof.
  induction results as [|[n f] rest IH]; intros base acc w Hnd Hfresh.
  - simpl. unfold ret. now rewrite app_nil_r.
  - inversion Hnd as [|? ? Hn Hnd']; subst.
    simpl for_each. unfold bind, check_shape at 1, ret at 1. simpl fst. simpl snd.
    rewrite dict_set_fresh by (apply Hfresh; now left).
    rewrite IH; auto.
    + simpl map. now rewrite <- app_assoc.
    + intros m Hm Hin. unfold dict_keys in Hin. rewrite map_app in Hin.
      apply in_app_or in Hin. destruct Hin as [Hin|Hin].
      * apply (Hfresh m); [now right | exact Hin].
      * simpl in Hin. destruct Hin as [Hin|[]].
        apply append_inv_r in Hin. subst. contradiction.
Qed.

End ValidationLoops.

Section ValidationTheorem.

Context {L : NumericLibraries}.

Lemma check_shape_from_none (results : list (string * DataFrame))
    (acc : list (string * bool)) (w : World) :
  NoDup (map fst results) ->
  (forall n, In n (map fst results) ->
             ~ In (n ++ "_shape_consistent")%string (dict_keys acc)) ->
  exists base,
    for_each results (None, acc) check_shape w
    = (w, Ok (base,
              (acc ++ match results with
                      | [] => []
                      | (_, first) :: _ =>
                          map (fun item =>
                                 ((fst item ++ "_shape_consistent")%string,
                                  (frame_len (snd item) =? frame_len first)%nat))
                              results
                      end)%list)).
Proof.
  intros Hnd Hfresh. destruct results as [|[n f] rest].
  - exists None. simpl. unfold ret. now rewrite app_nil_r.
  - exists (Some (frame_len f)).
    inversion Hnd as [|? ? Hn Hnd']; subst.
    simpl for_each. unfold bind, check_shape at 1, ret at 1. simpl fst. simpl snd.
    rewrite dict_set_fresh by (apply Hfresh; now left).
    rewrite check_shape_loop; auto.
    + simpl map. now rewrite <- app_assoc.
    + intros m Hm Hin. unfold dict_keys in Hin. rewrite map_app in Hin.
      apply in_app_or in Hin. destruct Hin as [Hin|Hin].
      * apply (Hfresh m); [now right | exact Hin].
      * simpl in Hin. destruct Hin as [Hin|[]].
        apply append_inv_r in Hin. subst. contradiction.
Qed.

Lemma shape_key_fresh (p : Pipeline) (results : list (string * DataFrame))
    (n : string) :
  ~ In (n ++ "_shape_consistent")%string
       (dict_keys (no_missing_entries results ++ range_entries p results)).
Proof.
  unfold dict_keys. rewrite map_app. intros Hin.
  apply in_app_or in Hin. destruct Hin as [Hin|Hin].
  - apply no_missing_keys in Hin. destruct Hin as (m & _ & E).
    apply (f_equal last_char) in E.
    rewrite !last_char_append in E by discriminate. discriminate.
  - unfold range_entries in Hin.
    destruct (dict_get "scaled" results); [|destruct Hin].
    destruct (_ && _); [|destruct Hin].
    simpl in Hin. destruct Hin as [E|[E|[]]];
      apply (f_equal last_char) in E;
      rewrite last_char_append in E by discriminate; discriminate.
Qed.

(** X23: with the missing-value check switched on, [validate_output]
    returns, for results with distinct names, exactly these entries in this
    order: one "<name>_no_missing" entry per variant other than "tsne",
    true when the variant has no missing cell; the two range entries when
    a "scaled" variant is present, the range check is on and the scaler
    is a StandardScaler; and, when the shape check is on, one
    "<name>_shape_consistent" entry per variant, "tsne" included, true
    when the variant has as many rows as the first variant. *)
Theorem validate_output_entries :
  forall (w : World) (results : list (string * DataFrame)),
    check_missing_values (validation (config (self w))) = true ->
    NoDup (map fst results) ->
    snd (validate_output results w)
    = Ok (no_missing_entries results
          ++ range_entries (self w) results
          ++ shape_entries (config (self w)) results)%list.
Proof.
  intros w results Hcheck Hnd.
  destruct (check_no_missing_loop results [] w Hnd) as (w1 & E1 & Hs1);
    [intros n _ []|].
  simpl app in E1.
  assert (Hrange :
    match dict_get "scaled" results with
    | Some scaled_data =>
        if check_feature_ranges (validation (config (self w))) then
          if is_standard_scaler (scaler (self w)) then
            dict_set "scaled_unit_variance"
              (forallb (within_tenth 1%Q)
                 (map (fun s => series_std (s_cells s)) (df_columns scaled_data)))
              (dict_set "scaled_mean_centered"
                 (forallb (within_tenth 0%Q)
                    (map (fun s => series_mean (s_cells s))
                         (df_columns scaled_data)))
                 (no_missing_entries results))
          else no_missing_entries results
        else no_missing_entries results
    | None => no_missing_entries results
    end = (no_missing_entries results ++ range_entries (self w) results)%list).
  { unfold range_entries. destruct (dict_get "scaled" results);
      [|now rewrite app_nil_r].
    destruct (check_feature_ranges _); simpl; [|now rewrite app_nil_r].
    destruct (is_standard_scaler _); simpl; [|now rewrite app_nil_r].
    rewrite (dict_set_fresh "scaled_mean_centered").
    - rewrite dict_set_fresh; [now rewrite <- app_assoc|].
      unfold dict_keys. rewrite map_app. intros Hin.
      apply in_app_or in Hin. destruct Hin as [Hin|Hin].
      + apply no_missing_keys in Hin. destruct Hin as (m & _ & E).
        apply (f_equal last_char) in E.
        rewrite last_char_append in E by discriminate. discriminate.
      + simpl in Hin. destruct Hin as [E|[]]. discriminate.
    - intros Hin. apply no_missing_keys in Hin. destruct Hin as (m & _ & E).
      apply (f_equal last_char) in E.
      rewrite last_char_append in E by discriminate. discriminate. }
  unfold validate_output.
  erewrite bind_run by (unfold get_config; reflexivity).
  cbv beta. rewrite Hcheck. change (negb true) with false. cbv beta iota.
  erewrite bind_run by exact E1.
  erewrite bind_run by (unfold get_self; reflexivity).
  rewrite Hs1, Hrange. clear Hrange.
  unfold shape_entries.
  destruct (check_shape_consistency (validation (config (self w)))).
  - destruct (check_shape_from_none results
                (no_missing_entries results ++ range_entries (self w) results)
                w1 Hnd) as (base & E2).
    { intros n _. apply shape_key_fresh. }
    erewrite bind_run
      by (erewrite bind_run by exact E2; unfold ret; reflexivity).
    unfold bind, _log_step, update_self, log_to, modify, ret.
    simpl. now rewrite <- app_assoc.
  - erewrite bind_run by (unfold ret; reflexivity).
    unfold bind, _log_step, update_self, log_to, modify, ret.
    simpl. now rewrite app_nil_r.
Qed.

End ValidationTheorem.

(* ------------------------------------------------------------------ *)
(** ** [_deep_update] and [_load_config] *)

Lemma deep_update_cons (base_dict : pyvalue) (key : string) (value : pyvalue)
    (rest : list (string * pyvalue)) :
  _deep_update base_dict (PyDict ((key, value) :: rest))
  = match deep_update_item base_dict key value with
    | (base_dict', None) => _deep_update base_dict' (PyDict rest)
    | (base_dict', Some e) => (base_dict', Some e)
    end.
Proof. reflexivity. Qed.

Lemma deep_update_app (items more : list (string * pyvalue)) :
  forall base_dict,
    _deep_update base_dict (PyDict (items ++ more))
    = match _deep_update base_dict (PyDict items) with
      | (base_dict', None) => _deep_update base_dict' (PyDict more)
      | (base_dict', Some e) => (base_dict', Some e)
      end.
Proof.
  induction items as [|[key value] items IH]; intros base_dict.
  - reflexivity.
  - simpl app. rewrite !deep_update_cons.
    destruct (deep_update_item base_dict key value) as [b [e|]]; auto.
Qed.

Lemma dict_keys_set_old {V} (k : string) (v : V) (d : list (string * V)) :
  In k (dict_keys d) -> dict_keys (dict_set k v d) = dict_keys d.
Proof.
  unfold dict_keys. induction d as [|[k' v'] d IH]; simpl; intros H.
  - destruct H.
  - destruct (String.eqb_spec k' k); simpl; [congruence|].
    f_equal. apply IH. destruct H; [contradiction | assumption].
Qed.

Lemma dict_get_keys {V} (k : string) (d : list (string * V)) (v : V) :
  dict_get k d = Some v -> In k (dict_keys d).
Proof.
  unfold dict_keys. induction d as [|[k' v'] d IH]; simpl; [discriminate|].
  destruct (String.eqb_spec k' k); auto.
Qed.

Lemma dict_set_same_value {V} (k : string) (v : V) (d : list (string * V)) :
  dict_get k d = Some v -> dict_set k v d = d.
Proof.
  induction d as [|[k' v'] d IH]; simpl; [discriminate|].
  destruct (String.eqb_spec k' k).
  - intros H. inversion H. now subst.
  - intros H. now rewrite IH.
Qed.

(** One turn on a dictionary leaves a dictionary whose keys are the old
    ones, followed by the key of the turn when it is new. *)
Lemma deep_update_item_keys (d : list (string * pyvalue)) (key : string)
    (value : pyvalue) :
  exists d',
    fst (deep_update_item (PyDict d) key value) = PyDict d'
    /\ (dict_keys d' = dict_keys d
        \/ (~ In key (dict_keys d) /\ dict_keys d' = (dict_keys d ++ [key])%list)).
Proof.
  assert (Hassign : exists d',
             fst (assign (PyDict d) key value) = PyDict d'
             /\ (dict_keys d' = dict_keys d
                 \/ (~ In key (dict_keys d)
                     /\ dict_keys d' = (dict_keys d ++ [key])%list))).
  { exists (dict_set key value d). split; [reflexivity|].
    destruct (in_dec string_dec key (dict_keys d)) as [Hin|Hnot].
    - left. now apply dict_keys_set_old.
    - right. split; [exact Hnot|]. now apply dict_keys_set_new. }
  unfold deep_update_item. destruct (is_dict value); [|exact Hassign].
  simpl contains. destruct (mem key (dict_keys d)) eqn:Em; [|exact Hassign].
  apply mem_In in Em. simpl getitem.
  destruct (dict_get key d) as [sub|]; [|exists d; simpl; auto].
  destruct (_deep_update sub value) as [sub' outcome]. simpl.
  exists (dict_set key sub' d). split; [reflexivity|].
  left. now apply dict_keys_set_old.
Qed.

Lemma deep_update_keys (items : list (string * pyvalue)) :
  forall d : list (string * pyvalue),
  exists d' extra,
    fst (_deep_update (PyDict d) (PyDict items)) = PyDict d'
    /\ dict_keys d' = (dict_keys d ++ extra)%list
    /\ (forall k, In k extra -> In k (dict_keys items) /\ ~ In k (dict_keys d)).
Proof.
  induction items as [|[key value] items IH]; intros d.
  - exists d, []. simpl. rewrite app_nil_r. repeat split; auto; contradiction.
  - rewrite deep_update_cons.
    destruct (deep_update_item_keys d key value) as (d1 & E1 & Hk1).
    destruct (deep_update_item (PyDict d) key value) as [b [e|]];
      simpl in E1; subst b.
    + simpl. destruct Hk1 as [Hk1|[Hnew Hk1]].
      * exists d1, []. rewrite app_nil_r. repeat split; auto; contradiction.
      * exists d1, [key]. repeat split; auto;
          destruct H as [<-|[]]; simpl; auto.
    + destruct (IH d1) as (d2 & extra & E2 & Hk2 & Hextra).
      destruct Hk1 as [Hk1|[Hnew Hk1]].
      * exists d2, extra. rewrite E2, Hk2, Hk1. repeat split; auto.
        -- simpl. right. now apply Hextra.
        -- rewrite <- Hk1. now apply Hextra.
      * exists d2, (key :: extra). rewrite E2, Hk2, Hk1, <- app_assoc.
        repeat split; auto.
        -- destruct H as [<-|H]; simpl; auto. right. now apply Hextra.
        -- destruct H as [<-|H]; auto. apply Hextra in H.
           destruct H as [_ H]. rewrite Hk1 in H. intros Hin. apply H.
           apply in_or_app. now left.
Qed.

Lemma deep_update_keys_any (d : list (string * pyvalue)) (update_dict : pyvalue) :
  exists d' extra,
    fst (_deep_update (PyDict d) update_dict) = PyDict d'
    /\ dict_keys d' = (dict_keys d ++ extra)%list
    /\ (forall k, In k extra ->
          ~ In k (dict_keys d)
          /\ exists items, update_dict = PyDict items /\ In k (dict_keys items)).
Proof.
  destruct update_dict as [| | | | | |items];
    try (exists d, []; simpl; rewrite app_nil_r;
         repeat split; auto; contradiction).
  destruct (deep_update_keys items d) as (d' & extra & E & Hk & Hextra).
  exists d', extra. repeat split; auto.
  - now apply Hextra.
  - exists items. split; auto. now apply Hextra.
Qed.

(** X24: merging a configuration into a dictionary never removes or
    reorders a key: whatever the update holds, and also when the merge is
    cut short by an exception, the result is a dictionary whose keys are
    the keys of the base in their order, followed by keys of the update
    that the base did not have. *)
Theorem deep_update_keeps_the_keys_of_the_base :
  forall (d : list (string * pyvalue)) (update_dict : pyvalue),
  exists d' extra,
    fst (_deep_update (PyDict d) update_dict) = PyDict d'
    /\ dict_keys d' = (dict_keys d ++ extra)%list
    /\ (forall k, In k extra ->
          ~ In k (dict_keys d)
          /\ exists items, update_dict = PyDict items /\ In k (dict_keys items)).
Proof.
  intros d update_dict. exact (deep_update_keys_any d update_dict).
Qed.

Lemma dict_get_not_in {V} (k : string) (d : list (string * V)) :
  ~ In k (dict_keys d) -> dict_get k d = None.
Proof.
  unfold dict_keys. induction d as [|[k' v'] d IH]; simpl; auto.
  intros H. destruct (String.eqb_spec k' k); [tauto|]. apply IH. tauto.
Qed.

(** The value one successful turn leaves under its key, and the other
    values, which it leaves alone. *)
Lemma deep_update_item_value (d d1 : list (string * pyvalue)) (key : string)
    (value : pyvalue) :
  deep_update_item (PyDict d) key value = (PyDict d1, None) ->
  dict_get key d1
  = Some (if is_dict value then
            match dict_get key d with
            | Some b => fst (_deep_update b value)
            | None => value
            end
          else value)
  /\ forall k, k <> key -> dict_get k d1 = dict_get k d.
Proof.
  assert (Hassign : assign (PyDict d) key value = (PyDict d1, None) ->
                    dict_get key d1 = Some value
                    /\ forall k, k <> key -> dict_get k d1 = dict_get k d).
  { simpl. intros H. inversion H; subst. split.
    - apply dict_get_set_same.
    - intros k Hk. apply dict_get_set_other. congruence. }
  unfold deep_update_item. destruct (is_dict value); [|exact Hassign].
  simpl contains. destruct (mem key (dict_keys d)) eqn:Em.
  - simpl getitem. destruct (dict_get key d) as [sub|]; [|discriminate].
    destruct (_deep_update sub value) as [sub' outcome] eqn:Es. simpl.
    intros H. inversion H; subst. split.
    + apply dict_get_set_same.
    + intros k Hk. apply dict_get_set_other. congruence.
  - intros H. rewrite (dict_get_not_in key d).
    + now apply Hassign.
    + intros Hin. apply mem_In in Hin. congruence.
Qed.

Lemma deep_update_item_dict (d : list (string * pyvalue)) (key : string)
    (value b : pyvalue) (outcome : option config_exn) :
  deep_update_item (PyDict d) key value = (b, outcome) ->
  exists d1, b = PyDict d1.
Proof.
  intros H. destruct (deep_update_item_keys d key value) as (d1 & E & _).
  rewrite H in E. simpl in E. eauto.
Qed.

(** X25: what a successful merge leaves under each key, for an update
    with distinct keys.  A key the update does not mention keeps its value.
    A key the update gives a value that is no dictionary gets that value,
    whatever the base held - a whole section is replaced this way.  A key
    the update gives a dictionary gets that dictionary when the base had
    no such key, and otherwise the base value merged with it. *)
Theorem deep_update_merged_values :
  forall (items d d' : list (string * pyvalue)),
    NoDup (dict_keys items) ->
    _deep_update (PyDict d) (PyDict items) = (PyDict d', None) ->
    forall k,
      dict_get k d'
      = match dict_get k items with
        | None => dict_get k d
        | Some value =>
            Some (if is_dict value then
                    match dict_get k d with
                    | Some b => fst (_deep_update b value)
                    | None => value
                    end
                  else value)
        end.
Proof.
  induction items as [|[key value] items IH]; intros d d' Hnd Hrun k.
  - simpl in Hrun. inversion Hrun. reflexivity.
  - unfold dict_keys in Hnd. simpl in Hnd.
    inversion Hnd as [|? ? Hkey Hnd']; subst.
    rewrite deep_update_cons in Hrun.
    destruct (deep_update_item (PyDict d) key value) as [b [e|]] eqn:Estep;
      [discriminate|].
    destruct (deep_update_item_dict _ _ _ _ _ Estep) as [d1 ->].
    destruct (deep_update_item_value _ _ _ _ Estep) as [Hset Hother].
    rewrite (IH d1 d' Hnd' Hrun k). simpl dict_get at 4.
    destruct (String.eqb_spec key k) as [->|Hne].
    + rewrite (dict_get_not_in k items Hkey). exact Hset.
    + rewrite (Hother k) by congruence. reflexivity.
Qed.

(** The failing turn: a dictionary with at least one item, merged into a
    scalar. *)
Lemma deep_update_scalar (b : pyvalue) (x : string * pyvalue)
    (xs : list (string * pyvalue)) :
  is_scalar b = true ->
  _deep_update b (PyDict (x :: xs))
  = (b, Some (if is_dict (snd x) then NotIterable b else NoItemAssignment b)).
Proof.
  intros Hb. destruct x as [key value]. rewrite deep_update_cons.
  unfold deep_update_item. simpl snd.
  destruct (is_dict value); destruct b; try discriminate; reflexivity.
Qed.

Lemma deep_update_stops_at_scalar (d d1 : list (string * pyvalue))
    (before after xs : list (string * pyvalue)) (k : string)
    (x : string * pyvalue) (b : pyvalue) :
  _deep_update (PyDict d) (PyDict before) = (PyDict d1, None) ->
  dict_get k d1 = Some b ->
  is_scalar b = true ->
  _deep_update (PyDict d) (PyDict (before ++ (k, PyDict (x :: xs)) :: after))
  = (PyDict d1,
     Some (if is_dict (snd x) then NotIterable b else NoItemAssignment b)).
Proof.
  intros Hbefore Hget Hb.
  rewrite deep_update_app, Hbefore, deep_update_cons.
  unfold deep_update_item. simpl is_dict. cbv iota. simpl contains.
  assert (Hmem : mem k (dict_keys d1) = true).
  { apply mem_In. now apply dict_get_keys with b. }
  rewrite Hmem. simpl getitem. rewrite Hget.
  rewrite (deep_update_scalar b x xs Hb). simpl updated_in_place.
  now rewrite (dict_set_same_value k b d1 Hget).
Qed.

(** X26: a dictionary with at least one item, given for a key under
    which the base holds None, a boolean or a number, makes the merge raise
    TypeError.  The items of the update before it stay merged, the items
    after it are never applied, and the scalar itself is kept. *)
Theorem deep_update_dictionary_over_scalar_raises :
  forall (d d1 : list (string * pyvalue))
         (before after xs : list (string * pyvalue)) (k : string)
         (x : string * pyvalue) (b : pyvalue),
    _deep_update (PyDict d) (PyDict before) = (PyDict d1, None) ->
    dict_get k d1 = Some b ->
    is_scalar b = true ->
    _deep_update (PyDict d) (PyDict (before ++ (k, PyDict (x :: xs)) :: after))
    = (PyDict d1,
       Some (if is_dict (snd x) then NotIterable b else NoItemAssignment b)).
Proof.
  intros d d1 before after xs k x b.
  exact (deep_update_stops_at_scalar d d1 before after xs k x b).
Qed.

Lemma deep_update_section_failure (sections d d1 : list (string * pyvalue))
    (before after xs : list (string * pyvalue)) (section k : string)
    (x : string * pyvalue) (b : pyvalue) :
  dict_get section sections = Some (PyDict d) ->
  _deep_update (PyDict d) (PyDict before) = (PyDict d1, None) ->
  dict_get k d1 = Some b ->
  is_scalar b = true ->
  _deep_update (PyDict sections)
    (PyDict [(section, PyDict (before ++ (k, PyDict (x :: xs)) :: after))])
  = (PyDict (dict_set section (PyDict d1) sections),
     Some (if is_dict (snd x) then NotIterable b else NoItemAssignment b)).
Proof.
  intros Hsection Hbefore Hget Hb.
  rewrite deep_update_cons.
  unfold deep_update_item. simpl is_dict. cbv iota. simpl contains.
  assert (Hmem : mem section (dict_keys sections) = true).
  { apply mem_In. now apply dict_get_keys with (PyDict d). }
  rewrite Hmem. simpl getitem. rewrite Hsection.
  rewrite (deep_update_stops_at_scalar d d1 before after xs k x b
             Hbefore Hget Hb).
  reflexivity.
Qed.

Section LoadConfig.

Variable file_exists : string -> bool.
Variable yaml_safe_load : string -> string + pyvalue.
Variable json_load : string -> string + pyvalue.
Variable str_of_exn : config_exn -> string.

(** X27: whatever the configuration file holds, and whether or not it
    can be read, parsed or merged, [_load_config] returns a dictionary
    whose first five keys are the five sections of the defaults, in their
    order. *)
Theorem load_config_keeps_the_default_sections :
  forall config_path : option string,
  exists d extra,
    fst (_load_config file_exists yaml_safe_load json_load str_of_exn
                      config_path) = PyDict d
    /\ dict_keys d
       = (["preprocessing"; "dimensionality_reduction"; "feature_categories";
           "validation"; "output"] ++ extra)%list.
Proof.
  intros config_path.
  assert (Hdefault : exists d extra,
             default_config_dict = PyDict d
             /\ dict_keys d
                = (["preprocessing"; "dimensionality_reduction";
                    "feature_categories"; "validation"; "output"]
                   ++ extra)%list).
  { exists default_sections, []. split; reflexivity. }
  unfold _load_config. destruct config_path as [path|]; [|exact Hdefault].
  destruct (negb (String.eqb path "") && file_exists path); [|exact Hdefault].
  destruct (if endswith path ".yaml" || endswith path ".yml"
            then yaml_safe_load path else json_load path)
    as [text|user_config]; [exact Hdefault|].
  destruct (deep_update_keys_any default_sections user_config)
    as (d' & extra & E & Hk & _).
  unfold default_config_dict.
  destruct (_deep_update (PyDict default_sections) user_config) as [merged [e|]];
    simpl in E; subst merged; exists d', extra; split; auto.
Qed.

(** X28: when the merge of a readable configuration file fails inside a
    section - a dictionary given for a scalar setting - [_load_config]
    logs the failure and "Using default configuration", and yet returns
    the defaults with the settings of that section that preceded the
    failing one overridden. *)
Theorem load_config_failed_merge_keeps_earlier_overrides :
  forall (path section k : string) (d d1 : list (string * pyvalue))
         (before after xs : list (string * pyvalue))
         (x : string * pyvalue) (b : pyvalue),
    path <> ""%string ->
    file_exists path = true ->
    (if endswith path ".yaml" || endswith path ".yml"
     then yaml_safe_load path else json_load path)
    = inr (PyDict [(section,
                    PyDict (before ++ (k, PyDict (x :: xs)) :: after))]) ->
    dict_get section default_sections = Some (PyDict d) ->
    _deep_update (PyDict d) (PyDict before) = (PyDict d1, None) ->
    dict_get k d1 = Some b ->
    is_scalar b = true ->
    _load_config file_exists yaml_safe_load json_load str_of_exn (Some path)
    = (PyDict (dict_set section (PyDict d1) default_sections),
       [(WARNING,
         ("Failed to load config from " ++ path ++ ": "
          ++ str_of_exn (if is_dict (snd x) then NotIterable b
                         else NoItemAssignment b))%string);
        (INFO, "Using default configuration")]).
Proof.
  intros path section k d d1 before after xs x b
         Hpath Hexists Hload Hsection Hbefore Hget Hb.
  unfold _load_config.
  destruct (String.eqb_spec path ""); [contradiction|].
  rewrite Hexists. simpl negb. simpl andb. cbv iota. rewrite Hload.
  unfold default_config_dict.
  rewrite (deep_update_section_failure default_sections d d1 before after xs
             section k x b Hsection Hbefore Hget Hb).
  reflexivity.
Qed.

End LoadConfig.

(* ------------------------------------------------------------------ *)
(** ** The further properties at sample inputs *)

Lemma classification_unchanged_by_imputation_witness :
  let w := world_of default_config [gappy_table] in
  numerical_typed revenue_industry (deref w 0)
  /\ categorical_typed revenue_industry (deref w 0)
  /\ let (w', outcome) := _handle_missing_values 0 revenue_industry w in
     column_signature (deref w' 1) = column_signature gappy_table
     /\ classify default_config (deref w' 1)
        = classify default_config gappy_table.
Proof.
  intros w.
  assert (Hnum : numerical_typed revenue_industry (deref w 0)).
  { intros s Hin Hmem. simpl in Hin.
    destruct Hin as [<-|[<-|[<-|[]]]]; try reflexivity; discriminate. }
  assert (Hcat : categorical_typed revenue_industry (deref w 0)).
  { intros s Hin Hmem. simpl in Hin.
    destruct Hin as [<-|[<-|[<-|[]]]]; try discriminate. now left. }
  split; [exact Hnum|]. split; [exact Hcat|].
  refine (@classification_unchanged_by_imputation reference_library
            w 0 revenue_industry default_config Hnum Hcat _).
  intros s t _. unfold numerical_fill_value. simpl.
  unfold ref_median.
  destruct (length (sort_numbers (present_numbers (s_cells s))));
    [discriminate|].
  destruct (Nat.even _); discriminate.
Defined.

Lemma power_transformation_index_error_witness :
  let w := world_of default_config [] in
  apply_power_transform (preprocessing (config (self w))) = true
  /\ width small_matrix < length ["Revenue"; "MarketCap"; "GrowthRate"]
  /\ _apply_power_transformation small_matrix
       ["Revenue"; "MarketCap"; "GrowthRate"] w
     = (w, Raise (IndexError "index is out of bounds for axis 1")).
Proof.
  intros w.
  assert (H1 : apply_power_transform (preprocessing (config (self w))) = true)
    by reflexivity.
  assert (H2 : width small_matrix < length ["Revenue"; "MarketCap"; "GrowthRate"])
    by (vm_compute; lia).
  split; [exact H1|]. split; [exact H2|].
  exact (@power_transformation_index_error reference_library w small_matrix
           ["Revenue"; "MarketCap"; "GrowthRate"] H1 H2).
Defined.

Lemma encoding_skipped_gives_zero_width_matrix_witness :
  let w := world_of (with_categorical_encoding "ordinal" default_config)
                    [complete_table] in
  categorical_encoding (preprocessing (config (self w))) <> "onehot"
  /\ let (w', outcome) := _encode_categorical_features 0 ["Industry"] w in
     outcome = Ok (empty_array (frame_len (deref w 0)), [], None)
     /\ shape (empty_array (frame_len (deref w 0))) = (frame_len (deref w 0), 0)
     /\ heap w' = heap w /\ self w' = self w
     /\ estimator_calls w' = estimator_calls w
     /\ logger w'
        = (logger w
           ++ [(WARNING,
                ("Encoding method "
                 ++ categorical_encoding (preprocessing (config (self w)))
                 ++ " not implemented. Skipping categorical encoding.")%string)])%list.
Proof.
  intros w.
  assert (H : categorical_encoding (preprocessing (config (self w))) <> "onehot")
    by (vm_compute; discriminate).
  split; [exact H|].
  exact (@encoding_skipped_gives_zero_width_matrix reference_library w 0
           ["Industry"] (or_intror H)).
Defined.

Lemma encoding_needs_every_listed_column_witness :
  let w := world_of default_config [complete_table] in
  let (w', outcome) := _encode_categorical_features 0 ["Industry"; "Region"] w in
  (exists key, outcome = Raise (KeyError key)) /\ w' = w.
Proof.
  intros w.
  assert (H1 : ["Industry"; "Region"] <> []) by discriminate.
  assert (H2 : categorical_encoding (preprocessing (config (self w))) = "onehot")
    by reflexivity.
  assert (H3 : exists c, In c ["Industry"; "Region"]
                         /\ ~ In c (column_names (deref w 0))).
  { exists "Region". split; [simpl; auto|]. vm_compute. intuition discriminate. }
  pose proof (@encoding_needs_every_listed_column reference_library w 0
                ["Industry"; "Region"] H1 H2) as H.
  cbv zeta in H.
  destruct (_encode_categorical_features 0 ["Industry"; "Region"] w)
    as [w' outcome].
  destruct H as [H _]. exact (H H3).
Defined.

Lemma chosen_component_count_bounds_witness :
  let evr := [(6 # 10)%Q; (3 # 10)%Q; (1 # 10)%Q] in
  choose_n_comp (95 # 100)%Q 2%Z evr = Ok 3%Z
  /\ (2 <= 3)%Z /\ (1 <= 3)%Z
  /\ (3 <= Z.max (Z.of_nat (length evr)) 2)%Z.
Proof.
  intros evr.
  assert (H : choose_n_comp (95 # 100)%Q 2%Z evr = Ok 3%Z)
    by (vm_compute; reflexivity).
  split; [exact H|].
  exact (chosen_component_count_bounds (95 # 100)%Q 2%Z 3%Z evr H).
Defined.

Lemma unreachable_target_falls_back_to_one_component_witness :
  let evr := [(1 # 2)%Q; (1 # 4)%Q] in
  (forall k, 1 <= k <= length evr ->
             ~ ((95 # 100) <= cumulative_variance evr k)%Q)
  /\ choose_n_comp (95 # 100)%Q 0%Z evr = Ok (Z.max 1 0).
Proof.
  intros evr.
  assert (H : forall k, 1 <= k <= length evr ->
                        ~ ((95 # 100) <= cumulative_variance evr k)%Q).
  { intros k Hk. simpl in Hk.
    assert (Hcases : k = 1 \/ k = 2) by lia.
    destruct Hcases; subst k; vm_compute; intros Hle; apply Hle; reflexivity. }
  split; [exact H|].
  exact (unreachable_target_falls_back_to_one_component (95 # 100)%Q 0%Z evr H).
Defined.

Lemma explicit_component_count_ignores_minimum_witness :
  let w := world_of (with_reduction
                       (mkReductionConfig true (PcaInt 1%Z) 5%Z false
                                          2%Z 30%Z 42%Z)
                       default_config) [] in
  let fitted_pca := mkPCA (Some 1%Z) small_matrix in
  pca_min_components (dimensionality_reduction (config (self w))) = 5%Z
  /\ let (w', outcome) := pca_stage small_matrix w in
     estimator_calls w'
     = (estimator_calls w ++ [PCAFitTransform (Some 1%Z) small_matrix])%list
     /\ outcome = Ok [("pca", (pca_apply fitted_pca small_matrix,
                               ReducerPCA fitted_pca))].
Proof.
  intros w fitted_pca. split; [reflexivity|].
  exact (@explicit_component_count_ignores_minimum reference_library w
           small_matrix eq_refl eq_refl).
Defined.


(** With three rows the perplexity handed over is 0, which TSNE
    rejects: the stage raises ValueError. *)
Example tsne_rejects_the_perplexity_of_three_rows :
  let (w', outcome) := tsne_stage three_row_matrix [] (world_of default_config []) in
  outcome
  = Raise (ValueError "The 'perplexity' parameter of TSNE must be a float in the range (0.0, inf).")
  /\ estimator_calls w'
     = [TSNEFitTransform (mkTSNE 2%Z 0%Z 42%Z three_row_matrix)].
Proof. vm_compute. auto. Qed.

Lemma reduction_keys_follow_the_toggles_witness :
  let w := world_of default_config [] in
  let names := ["a"; "b"; "c"; "d"; "e"] in
  let run := _apply_dimensionality_reduction skewed_energy_matrix names w in
  match snd run with
  | Ok reduction_results =>
      dict_keys reduction_results = ["pca"; "tsne"]
  | Raise _ => True
  end.
Proof.
  intros w names run.
  assert (Hrun : _apply_dimensionality_reduction skewed_energy_matrix names w
                 = (fst run, snd run)).
  { vm_compute. reflexivity. }
  pose proof (@reduction_keys_follow_the_toggles reference_library w (fst run)
                skewed_energy_matrix names (snd run) Hrun) as H.
  cbv zeta in H. destruct (snd run); [|exact I].
  destruct H as [H _]. exact H.
Defined.

Lemma fit_transform_variants_witness :
  let w := world_of small_table_config [gappy_table] in
  fit_transform 0 w = (fitted_world, Ok gappy_table_variants)
  /\ exists has_encoded : bool,
       dict_keys gappy_table_variants
       = (["power_transformed"; "scaled"; "combined"]
          ++ (if has_encoded then ["categorical_encoded"] else [])
          ++ ["pca"; "tsne"] ++ ["complete"])%list.
Proof.
  intros w.
  assert (Hrun : fit_transform 0 w = (fitted_world, Ok gappy_table_variants)).
  { vm_compute. reflexivity. }
  split; [exact Hrun|].
  exact (@fit_transform_variants reference_library w fitted_world 0
           gappy_table_variants Hrun).
Defined.

Lemma fit_transform_records_the_feature_names_witness :
  let w := world_of small_table_config [gappy_table] in
  fit_transform 0 w = (fitted_world, Ok gappy_table_variants)
  /\ exists numerical categorical encoded combined,
       feature_names_ (self fitted_world)
       = [("numerical", numerical); ("categorical", categorical);
          ("categorical_encoded", encoded); ("combined", combined)]
       /\ (combined = (numerical ++ encoded)%list \/ combined = numerical)
       /\ (exists frame, dict_get "scaled" gappy_table_variants = Some frame
                         /\ column_names frame = numerical)
       /\ (exists frame, dict_get "combined" gappy_table_variants = Some frame
                         /\ column_names frame = combined).
Proof.
  intros w.
  assert (Hrun : fit_transform 0 w = (fitted_world, Ok gappy_table_variants)).
  { vm_compute. reflexivity. }
  split; [exact Hrun|].
  exact (@fit_transform_records_the_feature_names reference_library w
           fitted_world 0 gappy_table_variants Hrun).
Defined.

Lemma transform_keeps_the_rows_of_the_new_dataframe_witness :
  let w := fitted_world_with_new_table in
  transform 3 w = (fst (transform 3 w), Ok new_table_variants)
  /\ forall name frame,
       In (name, frame) new_table_variants ->
       df_index frame = df_index new_table
       /\ frame_len frame = frame_len new_table.
Proof.
  intros w.
  assert (Hrun : transform 3 w = (fst (transform 3 w), Ok new_table_variants)).
  { vm_compute. reflexivity. }
  split; [exact Hrun|].
  exact (@transform_keeps_the_rows_of_the_new_dataframe reference_library w
           (fst (transform 3 w)) 3 new_table_variants Hrun).
Defined.

Lemma transform_raises_key_error_on_a_missing_column_witness :
  let w := fitted_world_with_incomplete_table in
  fitted (self w) = true
  /\ dict_get "numerical" (feature_names_ (self w)) = Some ["Revenue"]
  /\ ~ In "Revenue" (column_names (deref w 3))
  /\ let (w', outcome) := transform 3 w in
     (exists key, outcome = Raise (KeyError key))
     /\ estimator_calls w' = estimator_calls w.
Proof.
  intros w.
  assert (H1 : fitted (self w) = true) by (vm_compute; reflexivity).
  assert (H2 : dict_get "numerical" (feature_names_ (self w))
               = Some ["Revenue"]) by (vm_compute; reflexivity).
  assert (H3 : ~ In "Revenue" (column_names (deref w 3))).
  { vm_compute. intuition discriminate. }
  split; [exact H1|]. split; [exact H2|]. split; [exact H3|].
  refine (@transform_raises_key_error_on_a_missing_column reference_library
            w 3 ["Revenue"] H1 H2 _).
  exists "Revenue". split; [now left | exact H3].
Defined.

(** On a new table that lacks "Revenue" and whose category-typed column
    holds no value, [transform] ends with the TypeError of the imputation
    stage, before the column selection. *)
Example transform_raises_the_exception_of_imputation_first :
  let w := fitted_world_with_unlabelled_table in
  dict_get "numerical" (feature_names_ (self w)) = Some ["Revenue"]
  /\ ~ In "Revenue" (column_names (deref w 3))
  /\ snd (transform 3 w)
     = Raise (PandasTypeError "Cannot setitem on a Categorical with a new category, set the categories first")
  /\ estimator_calls (fst (transform 3 w)) = estimator_calls w.
Proof.
  split; [vm_compute; reflexivity|]. split.
  - vm_compute. intuition discriminate.
  - vm_compute. auto.
Qed.

Lemma transform_without_scaler_raises_attribute_error_witness :
  let w := scalerless_world in
  fitted (self w) = true
  /\ scaler (self w) = None
  /\ snd (transform 3 w)
     = Raise (AttributeError "'NoneType' object has no attribute 'transform'").
Proof.
  intros w.
  assert (H1 : fitted (self w) = true) by (vm_compute; reflexivity).
  assert (H2 : scaler (self w) = None) by reflexivity.
  assert (H3 : dict_get "numerical" (feature_names_ (self w))
               = Some ["Revenue"]) by (vm_compute; reflexivity).
  split; [exact H1|]. split; [exact H2|].
  refine (@transform_without_scaler_raises_attribute_error reference_library
            w 3 ["Revenue"] H1 H2 H3 _).
  intros c Hc. destruct Hc as [<-|[]]. vm_compute. auto.
Defined.

Lemma load_overwrites_every_attribute_witness :
  let ops := disk (fst (save_pipeline "../Models/esg" unreduced_world)) in
  let a := attributes_of (self fitted_world) in
  let loaded := load_pipeline "../Models/esg" ops a [] in
  snd loaded = None
  /\ attr_pca a <> None
  /\ attr_pca (fst (fst loaded)) = None.
Proof.
  intros ops a loaded.
  assert (Hrun : load_pipeline "../Models/esg" ops a []
                 = (fst (fst loaded), snd (fst loaded), None)).
  { vm_compute. reflexivity. }
  split; [vm_compute; reflexivity|]. split; [vm_compute; discriminate|].
  destruct (@load_overwrites_every_attribute reference_library
              "../Models/esg" ops a (fst (fst loaded)) [] (snd (fst loaded))
              Hrun)
    as (c & names & entries & is_fitted & _ & Ha & _).
  rewrite Ha. vm_compute. reflexivity.
Defined.

Lemma save_then_load_restores_the_pipeline_witness :
  let w := unreduced_world in
  let w' := fst (save_pipeline "../Models/esg" w) in
  unfitted_components (self w) = ["pca"; "tsne"]
  /\ load_pipeline "../Models/esg" (disk w')
       (attributes_of (self fitted_world)) []
     = (attributes_of (self w),
        [(INFO, "Pipeline loaded from ../Models/esg")], None).
Proof.
  intros w w'.
  assert (Hnames : unfitted_components (self w)
                   = ["pca"; "tsne"])
    by (vm_compute; reflexivity).
  assert (Hsave : save_pipeline "../Models/esg" w = (w', Ok tt)).
  { vm_compute. reflexivity. }
  split; [exact Hnames|].
  refine (@save_then_load_restores_the_pipeline reference_library w w'
            "../Models/esg" (attributes_of (self fitted_world)) [] Hsave _).
  intros name Hin. rewrite Hnames in Hin.
  destruct Hin as [<-|[<-|[]]]; vm_compute; reflexivity.
Defined.

Lemma load_after_save_reads_files_of_earlier_saves_witness :
  let w := unreduced_world_over_old_files in
  let w' := fst (save_pipeline "../Models/esg" w) in
  let loaded :=
    load_pipeline "../Models/esg" (disk w')
                  (attributes_of (new_pipeline default_config)) [] in
  pca (self w) = None
  /\ snd loaded = None
  /\ attr_pca (fst (fst loaded)) = option_map PickledPCA (pca (self fitted_world))
  /\ attr_pca (fst (fst loaded)) <> None.
Proof.
  intros w w' loaded.
  assert (Hsave : save_pipeline "../Models/esg" w = (w', Ok tt)).
  { vm_compute. reflexivity. }
  assert (Hload : load_pipeline "../Models/esg" (disk w')
                    (attributes_of (new_pipeline default_config)) []
                  = (fst (fst loaded), snd (fst loaded), None)).
  { vm_compute. reflexivity. }
  pose proof (@load_after_save_reads_files_of_earlier_saves reference_library
                w w' "../Models/esg"
                (attributes_of (new_pipeline default_config))
                (fst (fst loaded)) [] (snd (fst loaded)) Hsave Hload) as H.
  cbv zeta in H.
  split; [vm_compute; reflexivity|]. split; [vm_compute; reflexivity|].
  rewrite H. split; [vm_compute; reflexivity | vm_compute; discriminate].
Defined.

Lemma failed_load_keeps_or_half_overwrites_the_object_witness :
  let a := attributes_of (self fitted_world) in
  let run := load_pipeline "../Models/esg" [] a [] in
  snd run = Some (FileNotFoundError "../Models/esg_pipeline.pkl")
  /\ fst (fst run) = a
  /\ snd (fst run)
     = [(ERROR, "Failed to load pipeline from ../Models/esg: [Errno 2] No such file or directory: '../Models/esg_pipeline.pkl'")].
Proof.
  intros a run.
  assert (Hrun : load_pipeline "../Models/esg" [] a []
                 = (fst (fst run), snd (fst run),
                    Some (FileNotFoundError "../Models/esg_pipeline.pkl")))
    by reflexivity.
  destruct (@failed_load_keeps_or_half_overwrites_the_object reference_library
              "../Models/esg" [] a (fst (fst run)) [] (snd (fst run)) _ Hrun)
    as [Hlog Hobject].
  simpl fs_lookup in Hobject. destruct Hobject as [Hsame _].
  split; [reflexivity|]. split; [exact Hsame | exact Hlog].
Defined.

Lemma validate_output_entries_witness :
  let w := world_of default_config [] in
  check_missing_values (validation (config (self w))) = true
  /\ NoDup (map fst new_table_variants)
  /\ snd (validate_output new_table_variants w)
     = Ok [("scaled_no_missing", true); ("combined_no_missing", true);
           ("pca_no_missing", true); ("scaled_shape_consistent", true);
           ("combined_shape_consistent", true); ("pca_shape_consistent", true)].
Proof.
  intros w.
  assert (H1 : check_missing_values (validation (config (self w))) = true)
    by reflexivity.
  assert (H2 : NoDup (map fst new_table_variants)).
  { vm_compute. repeat constructor; simpl; intuition discriminate. }
  split; [exact H1|]. split; [exact H2|].
  rewrite (@validate_output_entries reference_library w new_table_variants
             H1 H2).
  vm_compute. reflexivity.
Defined.

Lemma deep_update_merged_values_witness :
  let items := [("validation",
                 PyDict [("check_feature_ranges", PyBool false)]);
                ("output", PyStr "none")] in
  let merged := fst (_deep_update (PyDict default_sections) (PyDict items)) in
  exists d',
    merged = PyDict d'
    /\ dict_get "output" d' = Some (PyStr "none")
    /\ dict_get "preprocessing" d' = dict_get "preprocessing" default_sections
    /\ dict_get "validation" d'
       = Some (PyDict [("check_missing_values", PyBool true);
                       ("check_feature_ranges", PyBool false);
                       ("check_shape_consistency", PyBool true);
                       ("log_transformations", PyBool true)]).
Proof.
  intros items merged.
  destruct merged as [| | | | | |d'] eqn:E; try (vm_compute in E; discriminate).
  exists d'. split; [reflexivity|].
  assert (Hnd : NoDup (dict_keys items)).
  { vm_compute. repeat constructor; simpl; intuition discriminate. }
  assert (Hrun : _deep_update (PyDict default_sections) (PyDict items)
                 = (PyDict d', None)).
  { rewrite <- E. vm_compute. reflexivity. }
  pose proof (deep_update_merged_values items default_sections d' Hnd Hrun)
    as H.
  rewrite (H "output"), (H "preprocessing"), (H "validation").
  repeat split; vm_compute; reflexivity.
Defined.

Lemma deep_update_dictionary_over_scalar_raises_witness :
  let d1 := dict_set "scaling_method" (PyStr "robust") default_preprocessing in
  _deep_update (PyDict default_preprocessing) (PyDict robust_scaling)
  = (PyDict d1, None)
  /\ _deep_update (PyDict default_preprocessing)
       (PyDict (robust_scaling ++ threshold_as_dictionary :: no_power_transform))
     = (PyDict d1, Some (NoItemAssignment (PyFloat 1%Q))).
Proof.
  intros d1.
  assert (H1 : _deep_update (PyDict default_preprocessing)
                 (PyDict robust_scaling) = (PyDict d1, None)) by reflexivity.
  split; [exact H1|].
  exact (deep_update_dictionary_over_scalar_raises default_preprocessing d1
           robust_scaling no_power_transform [] "skewness_threshold"
           ("max", PyFloat 2%Q) (PyFloat 1%Q) H1 eq_refl eq_refl).
Defined.

Lemma load_config_failed_merge_keeps_earlier_overrides_witness :
  let d1 := dict_set "scaling_method" (PyStr "robust") default_preprocessing in
  _load_config (fun _ => true) (fun _ => inl "not used")
               (fun _ => inr broken_user_config) type_error_text
               (Some "config.json")
  = (PyDict (dict_set "preprocessing" (PyDict d1) default_sections),
     [(WARNING, "Failed to load config from config.json: object does not support item assignment");
      (INFO, "Using default configuration")]).
Proof.
  intros d1.
  refine (load_config_failed_merge_keeps_earlier_overrides
            (fun _ => true) (fun _ => inl "not used")
            (fun _ => inr broken_user_config) type_error_text
            "config.json" "preprocessing" "skewness_threshold"
            default_preprocessing d1 robust_scaling no_power_transform []
            ("max", PyFloat 2%Q) (PyFloat 1%Q) _ eq_refl eq_refl eq_refl
            eq_refl eq_refl eq_refl).
  discriminate.
Defined.
